(** * gopost: the synchronisation engine, embedded and verified

    A shallow embedding of the Go packages [internal/dedup],
    [internal/drupal], [internal/config] and [internal/integration].

    - Go strings are byte strings: [string].
    - [int], [int64] and [time.Duration] values are [Z]; an instant
      ([time.Time]) is a [Z] count of nanoseconds.
    - Everything outside the process (Elasticsearch, Redis, the rate
      limiter, the Drupal HTTP endpoint, the clock) answers through an
      [Env]: a family of oracles indexed by a counter of interactions, so
      that any sequence of answers can be described.
    - Effectful code is written in a state-and-trace monad [M]: the state
      holds the interaction counter, the contents of the Redis store and the
      mutable field [lastCheckTS]; the trace lists, in program order, every
      call that leaves the process and every log entry.
    - Functions of the Go standard library whose results only flow through
      the program are kept abstract: base64, RFC 3339 formatting, Unicode
      case mapping and request construction are fields of a [Lib] record,
      [encoding/json] on a package's types is a record of that package
      ([drupal.JSON], [integration.Codec]).
    - Encoding a query document built from string and integer literals
      cannot fail; the branches for such failures are left out where the
      functions are defined. *)

From Stdlib Require Import ZArith Ascii String List Bool Lia Sorted.
From stdpp Require Import gmap strings list.

Local Open Scope Z_scope.

(** ** Strings: [strings.HasPrefix], [strings.Index], [strings.Contains] *)

Fixpoint HasPrefix (s prefix : string) {struct prefix} : bool :=
  match prefix, s with
  | EmptyString, _ => true
  | String _ _, EmptyString => false
  | String a p', String b s' => if Ascii.eqb a b then HasPrefix s' p' else false
  end.

(** [strings.Index]: the index of the first instance of [substr] in [s],
    or -1. *)
Fixpoint Index (s substr : string) : Z :=
  if HasPrefix s substr then 0
  else match s with
       | EmptyString => -1
       | String _ s' => let i := Index s' substr in
                        if i <? 0 then -1 else i + 1
       end.

(** [strings.Contains(s, substr)] is [Index(s, substr) >= 0]. *)
Definition Contains (s substr : string) : bool := 0 <=? Index s substr.

(** [strings.Join]. *)
Fixpoint Join (elems : list string) (sep : string) : string :=
  match elems with
  | [] => ""
  | [e] => e
  | e :: rest => e +:+ sep +:+ Join rest sep
  end.

(** [s[:n]] and [s[n:]] where [n <= len(s)]. *)
Fixpoint sliceTo (n : nat) (s : string) : string :=
  match n, s with
  | S n', String c s' => String c (sliceTo n' s')
  | _, _ => EmptyString
  end.

Fixpoint sliceFrom (n : nat) (s : string) : string :=
  match n, s with
  | S n', String _ s' => sliceFrom n' s'
  | _, _ => s
  end.

(** Lower-casing of the ASCII letters, the behaviour of [strings.ToLower] on
    ASCII text. *)
Definition lowerByte (c : ascii) : ascii :=
  let n := N_of_ascii c in
  if ((65 <=? n) && (n <=? 90))%N then ascii_of_N (n + 32) else c.

Fixpoint asciiToLower (s : string) : string :=
  match s with
  | EmptyString => EmptyString
  | String c s' => String (lowerByte c) (asciiToLower s')
  end.

(** The words "occurs as a substring". *)
Definition occurs_in (sub s : string) : Prop :=
  ∃ pre post : string, s = pre +:+ sub +:+ post.

(** ** Errors and results *)

Inductive Arg :=
| AStr (s : string)
| AInt (z : Z).

(** An [error] value: one produced by a library or a remote party
    ([ExtErr]), one built by [fmt.Errorf] from a format and its arguments
    ([Errorf]), or one built by [fmt.Errorf] with a final [%w] verb wrapping
    another error ([Wrapf]). *)
Inductive error :=
| ExtErr (msg : string)
| Errorf (format : string) (args : list Arg)
| Wrapf (format : string) (args : list Arg) (wrapped : error).

Inductive res (A : Type) :=
| Ok (a : A)
| Err (e : error).
Arguments Ok {A} a.
Arguments Err {A} e.

Definition is_err {A} (r : res A) : bool :=
  match r with Ok _ => false | Err _ => true end.

(** ** Durations *)

Definition Nanosecond : Z := 1.
Definition Second : Z := 1000000000 * Nanosecond.
Definition Minute : Z := 60 * Second.
Definition Hour : Z := 60 * Minute.

(** Two's complement wrap-around of [int64] arithmetic. *)
Definition wrap64 (z : Z) : Z := (z + 2 ^ 63) mod 2 ^ 64 - 2 ^ 63.

(** ** The outside world *)

(** The two query documents the service sends to Elasticsearch: the boolean
    query with its [must] clauses, result cap and sort, and the [match_all]
    probe. *)
Inductive Clause :=
| MultiMatch (query : string) (fields : list string) (type operator : string)
| Range (field : string) (gte : string).

Inductive Query :=
| BoolQuery (must : list Clause) (size : Z) (sortField sortOrder : string)
| MatchAll (size : Z).

(** [esapi.Response]: [IsError()], [Status()] and the body. A body whose
    read fails is an [Err]. *)
Module esapi.
Record Response := {
  IsError : bool;
  Status : string;
  Body : res string
}.
End esapi.

(** [http.Request], [http.Response] and [Header.Set]. Header names are
    kept as the source writes them. *)
Module http.
Record Request := {
  Method : string;
  URL : string;
  Header : list (string * string);
  Body : option string
}.

Record Response := {
  StatusCode : Z;
  Status : string;
  RespBody : res string
}.

(** [Header.Set]: the entry for [k] is replaced. *)
Definition Set_ (h : list (string * string)) (k v : string) :=
  List.filter (λ kv, negb (String.eqb (fst kv) k)) h ++ [(k, v)].

Definition Get (h : list (string * string)) (k : string) : option string :=
  snd <$> find (λ kv, String.eqb (fst kv) k) h.

Definition StatusOK : Z := 200.
End http.

(** Log entries: level, message and fields of the structured logger. *)
Inductive Level := DebugLevel | InfoLevel | WarnLevel | ErrorLevel.

Inductive Field :=
| FString (k v : string)
| FInt (k : string) (v : Z)
| FBool (k : string) (v : bool)
| FDuration (k : string) (d : Z)
| FError (e : error)
| FAny (k : string) (v : string).

(** What the process does that can be observed from outside, and the one
    write to the shared watermark. *)
Inductive Event :=
| EvLog (lvl : Level) (msg : string) (fields : list Field)
| EvSearch (index : string) (q : Query) (r : res esapi.Response)
| EvPing (r : option error)
| EvExists (key : string) (r : res Z)
| EvSet (key value : string) (ttl : Z) (r : option error)
| EvDel (key : string) (r : option error)
| EvWait (r : option error)
| EvHTTP (req : http.Request) (r : res http.Response)
| EvWriteLastCheck (t : Z).

(** Library functions kept abstract. *)
Record Lib := {
  ToLower : string → string;            (* strings.ToLower *)
  TrimSpace : string → string;          (* strings.TrimSpace *)
  base64 : string → string;             (* base64.StdEncoding.EncodeToString *)
  formatRFC3339 : Z → string;           (* Time.Format(time.RFC3339) *)
  newRequestErr : string → string → option error
                                        (* the error of http.NewRequestWithContext
                                           for a method and a URL *)
}.

(** The answers of the outside world. The [nat] is the number of
    interactions the process has had so far. *)
Record Env := {
  es_search : nat → string → Query → res esapi.Response;
  redis_fault : nat → option error;
  limiter_wait : nat → option error;
  http_do : nat → http.Request → res http.Response;
  clock : nat → Z
}.

(** The Redis store maps a key to its value and the time-to-live it was set
    with. Expiry is the store's own business and is not modelled: a key
    stays until it is deleted. *)
Record State := {
  tick : nat;
  redis : gmap string (string * Z);
  lastCheckTS : Z
}.

Definition bump (st : State) : State :=
  {| tick := S (tick st); redis := redis st; lastCheckTS := lastCheckTS st |}.

(** ** The monad *)

Definition M (A : Type) : Type := State → A * State * list Event.

Definition ret {A} (a : A) : M A := λ st, (a, st, []).

Definition bind {A B} (m : M A) (f : A → M B) : M B :=
  λ st, let '(a, st1, e1) := m st in
        let '(b, st2, e2) := f a st1 in
        (b, st2, e1 ++ e2).

Notation "x <- m ;; k" := (bind m (λ x, k))
  (at level 100, m at next level, right associativity).
Notation "m ;; k" := (bind m (λ _, k))
  (at level 100, right associativity).

Definition result {A} (r : A * State * list Event) : A := fst (fst r).
Definition final {A} (r : A * State * list Event) : State := snd (fst r).
Definition events {A} (r : A * State * list Event) : list Event := snd r.

Section World.
Variable env : Env.

Definition log (lvl : Level) (msg : string) (fields : list Field) : M unit :=
  λ st, (tt, st, [EvLog lvl msg fields]).

(** [time.Now()]. *)
Definition now : M Z :=
  λ st, (clock env (tick st), bump st, []).

(** [esClient.Search]. *)
Definition search (index : string) (q : Query) : M (res esapi.Response) :=
  λ st, let r := es_search env (tick st) index q in
        (r, bump st, [EvSearch index q r]).

(** [client.Ping(ctx).Err()]. *)
Definition redisPing : M (option error) :=
  λ st, let r := redis_fault env (tick st) in (r, bump st, [EvPing r]).

(** [client.Exists(ctx, key).Result()]: the number of the given keys that
    exist. *)
Definition redisExists (key : string) : M (res Z) :=
  λ st, let r := match redis_fault env (tick st) with
                 | Some e => Err e
                 | None => Ok (match redis st !! key with
                               | Some _ => 1
                               | None => 0
                               end)
                 end in
        (r, bump st, [EvExists key r]).

(** [client.Set(ctx, key, value, ttl).Err()]. *)
Definition redisSet (key value : string) (ttl : Z) : M (option error) :=
  λ st, match redis_fault env (tick st) with
        | Some e => (Some e, bump st, [EvSet key value ttl (Some e)])
        | None => (None,
                   {| tick := S (tick st);
                      redis := <[key := (value, ttl)]> (redis st);
                      lastCheckTS := lastCheckTS st |},
                   [EvSet key value ttl None])
        end.

(** [client.Del(ctx, key).Err()]. *)
Definition redisDel (key : string) : M (option error) :=
  λ st, match redis_fault env (tick st) with
        | Some e => (Some e, bump st, [EvDel key (Some e)])
        | None => (None,
                   {| tick := S (tick st);
                      redis := delete key (redis st);
                      lastCheckTS := lastCheckTS st |},
                   [EvDel key None])
        end.

(** [limiter.Wait(ctx)]. *)
Definition limiterWait : M (option error) :=
  λ st, let r := limiter_wait env (tick st) in (r, bump st, [EvWait r]).

(** [client.Do(httpReq)]. *)
Definition httpDo (req : http.Request) : M (res http.Response) :=
  λ st, let r := http_do env (tick st) req in (r, bump st, [EvHTTP req r]).

(** The guarded read and write of [lastCheckTS]. *)
Definition readLastCheckTS : M Z :=
  λ st, (lastCheckTS st, st, []).

Definition writeLastCheckTS (t : Z) : M unit :=
  λ st, (tt,
         {| tick := tick st; redis := redis st; lastCheckTS := t |},
         [EvWriteLastCheck t]).
End World.

Definition nonEmpty (s : string) : bool := negb (String.eqb s "").

(** ** internal/config *)

Module config.

Record ElasticsearchConfig := {
  es_URL : string;
  es_Username : string;
  es_Password : string
}.

Record DrupalConfig := {
  URL : string;
  Username : string;
  Token : string;
  AuthMethod : string;
  SkipTLSVerify : bool
}.

Record RedisConfig := {
  rd_URL : string;
  rd_Password : string;
  rd_DB : Z
}.

Record ServiceConfig := {
  CheckInterval : Z;
  RateLimitRPS : Z;
  LookbackHours : Z;
  CrimeKeywords : list string;
  ContentType : string;
  GroupType : string;
  DedupTTL : Z
}.

Record CityConfig := {
  Name : string;
  Index : string;
  GroupID : string
}.

Record Config := {
  Debug : bool;
  Elasticsearch : ElasticsearchConfig;
  Drupal : DrupalConfig;
  Redis : RedisConfig;
  Service : ServiceConfig;
  Cities : list CityConfig
}.

(** The loop over [c.Cities] of [Validate]. *)
Fixpoint validateCities (i : Z) (cities : list CityConfig) : option error :=
  match cities with
  | [] => None
  | city :: rest =>
      if String.eqb (Name city) "" then
        Some (Errorf "cities[%d].name is required" [AInt i])
      else if String.eqb (GroupID city) "" then
        Some (Errorf "cities[%d].group_id is required" [AInt i])
      else validateCities (i + 1) rest
  end.

Definition Validate (c : Config) : option error :=
  if String.eqb (es_URL (Elasticsearch c)) "" then
    Some (Errorf "elasticsearch.url is required" [])
  else if String.eqb (URL (Drupal c)) "" then
    Some (Errorf "drupal.url is required" [])
  else if String.eqb (Token (Drupal c)) "" then
    Some (Errorf "drupal.token is required" [])
  else if String.eqb (rd_URL (Redis c)) "" then
    Some (Errorf "redis.url is required" [])
  else if RateLimitRPS (Service c) <=? 0 then
    Some (Errorf "service.rate_limit_rps must be positive, got %d"
                 [AInt (RateLimitRPS (Service c))])
  else if CheckInterval (Service c) <=? 0 then
    Some (Errorf "service.check_interval must be positive, got %v"
                 [AInt (CheckInterval (Service c))])
  else if DedupTTL (Service c) <? 0 then
    Some (Errorf "service.dedup_ttl must be non-negative, got %v"
                 [AInt (DedupTTL (Service c))])
  else if (Z.of_nat (length (Cities c)) =? 0) then
    Some (Errorf "at least one city must be configured" [])
  else validateCities 0 (Cities c).

Definition defaultCrimeKeywords : list string :=
  ["police"; "arrest"; "charged"; "court";
   "murder"; "assault"; "robbery"; "theft";
   "crime"; "criminal"; "suspect"; "victim";
   "investigation"; "warrant"; "sentence"].

(** The block "Set defaults" of [Load]. [LookbackHours] gets no default:
    0 means no date filter. *)
Definition setDefaults (s : ServiceConfig) : ServiceConfig :=
  {| CheckInterval := if CheckInterval s =? 0 then 5 * Minute else CheckInterval s;
     RateLimitRPS := if RateLimitRPS s =? 0 then 10 else RateLimitRPS s;
     LookbackHours := LookbackHours s;
     CrimeKeywords := if Z.of_nat (length (CrimeKeywords s)) =? 0
                      then defaultCrimeKeywords else CrimeKeywords s;
     ContentType := if String.eqb (ContentType s) "" then "node--article"
                    else ContentType s;
     GroupType := if String.eqb (GroupType s) "" then "group--crime_news"
                  else GroupType s;
     DedupTTL := if DedupTTL s =? 0 then 8760 * Hour else DedupTTL s |}.

Section Load.
Variable lib : Lib.
  (** [os.ReadFile], [yaml.Unmarshal] into a zero [Config], [os.Getenv]. *)
Variable readFile : string → res string.
Variable yamlUnmarshal : string → res Config.
Variable getenv : string → string.

Definition parseBool (s : string) : bool :=
    let s := ToLower lib (TrimSpace lib s) in
    String.eqb s "true" || String.eqb s "1" || String.eqb s "yes".

Definition override (name : string) (current : string) : string :=
    if nonEmpty (getenv name) then getenv name else current.

  (** The block "Override with environment variables if present". *)
Definition overrideEnv (c : Config) : Config :=
    {| Debug := if nonEmpty (getenv "APP_DEBUG")
                then parseBool (getenv "APP_DEBUG") else Debug c;
       Elasticsearch :=
         {| es_URL := override "ES_URL" (es_URL (Elasticsearch c));
            es_Username := es_Username (Elasticsearch c);
            es_Password := es_Password (Elasticsearch c) |};
       Drupal :=
         {| URL := override "DRUPAL_URL" (URL (Drupal c));
            Username := override "DRUPAL_USERNAME" (Username (Drupal c));
            Token := override "DRUPAL_TOKEN" (Token (Drupal c));
            AuthMethod := override "DRUPAL_AUTH_METHOD" (AuthMethod (Drupal c));
            SkipTLSVerify := SkipTLSVerify (Drupal c) |};
       Redis :=
         {| rd_URL := override "REDIS_URL" (rd_URL (Redis c));
            rd_Password := rd_Password (Redis c);
            rd_DB := rd_DB (Redis c) |};
       Service := Service c;
       Cities := Cities c |}.

Definition withService (c : Config) (s : ServiceConfig) : Config :=
    {| Debug := Debug c; Elasticsearch := Elasticsearch c; Drupal := Drupal c;
       Redis := Redis c; Service := s; Cities := Cities c |}.

Definition Load (path : string) : res Config :=
    match readFile path with
    | Err err => Err (Wrapf "read config file: %w" [] err)
    | Ok data =>
        match yamlUnmarshal data with
        | Err err => Err (Wrapf "parse config: %w" [] err)
        | Ok cfg =>
            let cfg := withService cfg (setDefaults (Service cfg)) in
            let cfg := overrideEnv cfg in
            match Validate cfg with
            | Some err => Err (Wrapf "invalid config: %w" [] err)
            | None => Ok cfg
            end
        end
    end.
End Load.

End config.

(** ** internal/dedup *)

Module dedup.

Record Tracker := {
  ttl : Z
}.

Definition NewTracker : Tracker :=
  {| ttl := 365 * 24 * Hour |}.

Definition key (articleID : string) : string :=
  "posted:article:" +:+ articleID.

Section Tracker.
Variable env : Env.

Definition HasPosted (t : Tracker) (articleID : string) : M bool :=
    let key := key articleID in
    log DebugLevel "Checking if article was posted"
        [FString "article_id" articleID; FString "redis_key" key] ;;
    r <- redisExists env key ;;
    match r with
    | Err err =>
        log ErrorLevel "Redis error checking article"
            [FString "article_id" articleID; FString "redis_key" key;
             FError err] ;;
        ret false
    | Ok exists_ =>
        let alreadyPosted := exists_ =? 1 in
        (if alreadyPosted
         then log DebugLevel "Article already posted"
                  [FString "article_id" articleID; FString "redis_key" key]
         else log DebugLevel "Article not yet posted"
                  [FString "article_id" articleID; FString "redis_key" key]) ;;
        ret alreadyPosted
    end.

Definition MarkPosted (t : Tracker) (articleID : string) : M (option error) :=
    let key := key articleID in
    log DebugLevel "Marking article as posted"
        [FString "article_id" articleID; FString "redis_key" key;
         FDuration "ttl" (ttl t)] ;;
    r <- redisSet env key "1" (ttl t) ;;
    match r with
    | Some err =>
        log ErrorLevel "Redis error marking article as posted"
            [FString "article_id" articleID; FString "redis_key" key;
             FDuration "ttl" (ttl t); FError err] ;;
        ret (Some err)
    | None =>
        log DebugLevel "Article marked as posted"
            [FString "article_id" articleID; FString "redis_key" key] ;;
        ret None
    end.

Definition Clear (t : Tracker) (articleID : string) : M (option error) :=
    let key := key articleID in
    log DebugLevel "Clearing article from posted cache"
        [FString "article_id" articleID; FString "redis_key" key] ;;
    r <- redisDel env key ;;
    match r with
    | Some err =>
        log ErrorLevel "Redis error clearing article"
            [FString "article_id" articleID; FString "redis_key" key;
             FError err] ;;
        ret (Some err)
    | None =>
        log DebugLevel "Article cleared from posted cache"
            [FString "article_id" articleID; FString "redis_key" key] ;;
        ret None
    end.
End Tracker.

End dedup.

(** ** internal/drupal *)

Module drupal.

Record Client := {
  baseURL : string;
  username : string;
  token : string;
  authMethod : string
}.

Record ArticleRequest := {
  Title : string;
  Body : string;
  URL : string;
  GroupID : string;
  GroupType : string;
  ContentType : string
}.

(** [DrupalArticle], the nested struct flattened: [Data.Type],
    [Data.Attributes.Title], [Data.Attributes.Body] and the type and id of
    [Data.Relationships.FieldGroup.Data]. *)
Record DrupalArticle := {
  Data_Type : string;
  Attributes_Title : string;
  Attributes_Body : string;
  FieldGroup_Type : string;
  FieldGroup_ID : string
}.

Record DrupalError := {
  ErrStatus : string;
  ErrTitle : string;
  ErrDetail : string
}.

Record DrupalResponse := {
  RespID : string;
  RespType : string;
  Errors : list DrupalError
}.

(** [encoding/json] on the types of this package. *)
Record JSON := {
  Marshal : DrupalArticle → res string;
  Decode : string → res DrupalResponse
}.

(** The document [PostArticle] fills in from the request. *)
Definition toDrupalArticle (req : ArticleRequest) : DrupalArticle :=
  {| Data_Type := ContentType req;
     Attributes_Title := Title req;
     Attributes_Body := if nonEmpty (Body req) then Body req else "";
     FieldGroup_Type := GroupType req;
     FieldGroup_ID := GroupID req |}.

(** The endpoint of the creation request ("Construct endpoint URL"). *)
Definition endpointURL (baseURL : string) (ContentType : string) : string :=
  let endpoint := baseURL +:+ "/jsonapi/node/article" in
  if negb (String.eqb ContentType "node--article") then
    let contentType := ContentType in
    let contentType :=
      if (5 <? Z.of_nat (String.length contentType))
         && String.eqb (sliceTo 5 contentType) "node--"
      then sliceFrom 5 contentType
      else contentType in
    baseURL +:+ "/jsonapi/node/" +:+ contentType
  else endpoint.

Section Client.
Variable lib : Lib.
Variable json : JSON.
Variable env : Env.

Definition NewClient (baseURL username token authMethod : string)
    (skipTLSVerify : bool) : M (res Client) :=
  if String.eqb baseURL "" then
    ret (Err (Errorf "drupal URL is required" []))
  else if String.eqb token "" then
    ret (Err (Errorf "drupal token is required" []))
  else
    (if skipTLSVerify
     then log WarnLevel "TLS certificate verification is disabled"
              [FString "base_url" baseURL; FString "component" "drupal_client"]
     else ret tt) ;;
    ret (Ok {| baseURL := baseURL; username := username; token := token;
               authMethod := authMethod |}).

(** The headers that carry the credentials, set the same way by both
    requests. *)
Definition setAuth (c : Client) (h : list (string * string)) :=
  let h :=
    if nonEmpty (username c) then
      let apiKeyValue := base64 lib (username c +:+ ":" +:+ token c) in
      let h := http.Set_ h "API-KEY" apiKeyValue in
      http.Set_ h "Authorization" ("Basic " +:+ apiKeyValue)
    else
      let apiKeyValue := base64 lib (token c) in
      let h := http.Set_ h "API-KEY" apiKeyValue in
      http.Set_ h "Authorization" ("Basic " +:+ apiKeyValue) in
  if nonEmpty (authMethod c) then http.Set_ h "AUTH-METHOD" (authMethod c)
  else h.

Definition getCSRFToken (c : Client) : M (res string) :=
  let tokenURL := baseURL c +:+ "/session/token" in
  match newRequestErr lib "GET" tokenURL with
  | Some err => ret (Err (Wrapf "create CSRF token request: %w" [] err))
  | None =>
      let h := http.Set_ [] "Accept" "application/json" in
      let h := setAuth c h in
      r <- httpDo env {| http.Method := "GET"; http.URL := tokenURL;
                         http.Header := h; http.Body := None |} ;;
      match r with
      | Err err => ret (Err (Wrapf "fetch CSRF token: %w" [] err))
      | Ok resp =>
          if negb (http.StatusCode resp =? http.StatusOK) then
            ret (Err (Errorf "CSRF token request failed: %d %s"
                        [AInt (http.StatusCode resp); AStr (http.Status resp)]))
          else
            match http.RespBody resp with
            | Err err => ret (Err (Wrapf "read CSRF token: %w" [] err))
            | Ok bodyBytes => ret (Ok (TrimSpace lib bodyBytes))
            end
      end
  end.

(** [json.NewDecoder(resp.Body).Decode(&drupalResp)]. *)
Definition decodeBody (body : res string) : res DrupalResponse :=
  match body with
  | Err err => Err err
  | Ok b => Decode json b
  end.

(** What [PostArticle] returns once the creation request has been answered
    by [resp, err := c.client.Do(httpReq)]. *)
Definition outcome (r : res http.Response) : option error :=
  match r with
  | Err err => Some (Wrapf "http request: %w" [] err)
  | Ok resp =>
      if 400 <=? http.StatusCode resp then
        match decodeBody (http.RespBody resp) with
        | Ok drupalResp =>
            match Errors drupalResp with
            | errorDetail :: _ =>
                Some (Errorf "drupal API error (%d): %s - %s"
                        [AInt (http.StatusCode resp); AStr (ErrTitle errorDetail);
                         AStr (ErrDetail errorDetail)])
            | [] =>
                Some (Errorf "drupal API error: %d %s"
                        [AInt (http.StatusCode resp); AStr (http.Status resp)])
            end
        | Err _ =>
            Some (Errorf "drupal API error: %d %s"
                    [AInt (http.StatusCode resp); AStr (http.Status resp)])
        end
      else
        match decodeBody (http.RespBody resp) with
        | Err err => Some (Wrapf "decode response: %w" [] err)
        | Ok _ => None
        end
  end.

Definition errField (e : option error) : list Field :=
  match e with
  | Some err => [FError err]
  | None => []
  end.

Definition PostArticle (c : Client) (req : ArticleRequest) : M (option error) :=
  startTime <- now env ;;
  (* methodLogger := c.logger.With(logger.String("method", "PostArticle")) *)
  let methodLogger lvl msg fields :=
    log lvl msg (FString "method" "PostArticle" :: fields) in
  let drupalArticle := toDrupalArticle req in
  match Marshal json drupalArticle with
  | Err err =>
      methodLogger ErrorLevel "Failed to marshal article payload"
        [FString "title" (Title req); FString "content_type" (ContentType req);
         FError err] ;;
      ret (Some (Wrapf "marshal payload: %w" [] err))
  | Ok payload =>
      let endpoint := endpointURL (baseURL c) (ContentType req) in
      methodLogger DebugLevel "Posting article to Drupal"
        [FString "endpoint" endpoint; FString "title" (Title req);
         FString "content_type" (ContentType req);
         FString "group_type" (GroupType req);
         FString "group_id" (GroupID req); FString "url" (URL req);
         FInt "payload_size" (Z.of_nat (String.length payload))] ;;
      match newRequestErr lib "POST" endpoint with
      | Some err =>
          methodLogger ErrorLevel "Failed to create HTTP request"
            [FString "endpoint" endpoint; FString "title" (Title req);
             FError err] ;;
          ret (Some (Wrapf "create request: %w" [] err))
      | None =>
          let h := http.Set_ [] "Content-Type" "application/vnd.api+json" in
          let h := http.Set_ h "Accept" "application/vnd.api+json" in
          let h := setAuth c h in
          (* Fetch and include CSRF token for POST requests *)
          csrf <- getCSRFToken c ;;
          h <- match csrf with
               | Err err =>
                   methodLogger WarnLevel
                     "Failed to fetch CSRF token, proceeding without it"
                     [FString "endpoint" endpoint; FError err] ;;
                   ret h
               | Ok csrfToken =>
                   methodLogger DebugLevel "Included CSRF token in request"
                     [FString "endpoint" endpoint] ;;
                   ret (http.Set_ h "X-CSRF-Token" csrfToken)
               end ;;
          requestStartTime <- now env ;;
          r <- httpDo env {| http.Method := "POST"; http.URL := endpoint;
                             http.Header := h; http.Body := Some payload |} ;;
          requestEnd <- now env ;;
          let requestDuration := requestEnd - requestStartTime in
          match r with
          | Err err =>
              methodLogger ErrorLevel "HTTP request failed"
                [FString "endpoint" endpoint; FString "title" (Title req);
                 FDuration "request_duration" requestDuration; FError err] ;;
              ret (Some (Wrapf "http request: %w" [] err))
          | Ok resp =>
              if 400 <=? http.StatusCode resp then
                let fallback (decodeErr : option error) :=
                  methodLogger ErrorLevel "Drupal API error"
                    ([FString "endpoint" endpoint;
                      FString "article_title" (Title req);
                      FInt "status_code" (http.StatusCode resp);
                      FString "status" (http.Status resp);
                      FDuration "request_duration" requestDuration]
                     ++ errField decodeErr) ;;
                  ret (Some (Errorf "drupal API error: %d %s"
                               [AInt (http.StatusCode resp);
                                AStr (http.Status resp)])) in
                match decodeBody (http.RespBody resp) with
                | Ok drupalResp =>
                    match Errors drupalResp with
                    | errorDetail :: _ =>
                        methodLogger ErrorLevel "Drupal API error"
                          [FString "endpoint" endpoint;
                           FString "article_title" (Title req);
                           FInt "status_code" (http.StatusCode resp);
                           FString "status" (http.Status resp);
                           FString "error_status" (ErrStatus errorDetail);
                           FString "error_title" (ErrTitle errorDetail);
                           FString "error_detail" (ErrDetail errorDetail);
                           FDuration "request_duration" requestDuration] ;;
                        ret (Some (Errorf "drupal API error (%d): %s - %s"
                                     [AInt (http.StatusCode resp);
                                      AStr (ErrTitle errorDetail);
                                      AStr (ErrDetail errorDetail)]))
                    | [] => fallback None
                    end
                | Err decodeErr => fallback (Some decodeErr)
                end
              else
                match decodeBody (http.RespBody resp) with
                | Err err =>
                    t <- now env ;;
                    let totalDuration := t - startTime in
                    methodLogger ErrorLevel "Failed to decode Drupal response"
                      [FString "endpoint" endpoint;
                       FString "article_title" (Title req);
                       FInt "status_code" (http.StatusCode resp);
                       FDuration "request_duration" requestDuration;
                       FDuration "total_duration" totalDuration; FError err] ;;
                    ret (Some (Wrapf "decode response: %w" [] err))
                | Ok drupalResp =>
                    t <- now env ;;
                    let totalDuration := t - startTime in
                    methodLogger InfoLevel "Successfully posted article to Drupal"
                      [FString "endpoint" endpoint;
                       FString "article_title" (Title req);
                       FString "content_type" (ContentType req);
                       FString "drupal_id" (RespID drupalResp);
                       FString "drupal_type" (RespType drupalResp);
                       FInt "status_code" (http.StatusCode resp);
                       FDuration "request_duration" requestDuration;
                       FDuration "total_duration" totalDuration] ;;
                    ret None
                end
          end
      end
  end.

End Client.

(** The constructor as [service.go] calls it,
    [NewClient(cfg.Drupal.URL, cfg.Drupal.Token, cfg.Drupal.SkipTLSVerify)]:
    the package before the user name, the authentication method and the
    logger were added (part_009). It makes the same two checks, logs
    nothing, and cannot set the two later fields of [Client], which keep
    Go's zero value. *)
Module legacy.
Definition NewClient (baseURL token : string) (skipTLSVerify : bool)
    : M (res Client) :=
  if String.eqb baseURL "" then
    ret (Err (Errorf "drupal URL is required" []))
  else if String.eqb token "" then
    ret (Err (Errorf "drupal token is required" []))
  else
    ret (Ok {| baseURL := baseURL; username := ""; token := token;
               authMethod := "" |}).
End legacy.

End drupal.

(** ** internal/integration *)

Module integration.

Record Article := {
  ID : string;
  Title : string;
  Content : string;
  URL : string;
  PublishedAt : Z;
  Source : string
}.

Definition withID (a : Article) (id : string) : Article :=
  {| ID := id; Title := Title a; Content := Content a; URL := URL a;
     PublishedAt := PublishedAt a; Source := Source a |}.

(** The anonymous struct the search response is decoded into:
    [Hits.Total.Value] and, for each element of [Hits.Hits], [_id] and
    [_source]. *)
Record Hit := {
  hit_ID : string;
  hit_Source : Article
}.

Record SearchResult := {
  Total : Z;
  Hits : list Hit
}.

(** The struct the probe's response is decoded into; the [_source] maps are
    kept as text. *)
Record ProbeResult := {
  probe_Total : Z;
  probe_Hits : list string
}.

(** [elasticsearch.NewClient] and [encoding/json] on the types of this
    package. *)
Record Codec := {
  NewClientErr : config.ElasticsearchConfig → option error;
  MarshalIndent : Query → string;
  DecodeError : string → res string;
  DecodeResult : string → res SearchResult;
  DecodeProbe : string → res ProbeResult
}.

(** The fields of [Service] that are fixed once it is built. The
    Elasticsearch client, the limiter and the logger are reached through
    [Env] and the trace, [lastCheckTS] lives in the [State]. *)
Record Service := {
  drupal : drupal.Client;
  dedup : dedup.Tracker;
  config : config.Config
}.

Record Counters := {
  posted : Z;
  skipped : Z;
  errors : Z
}.

(** How an iteration of a [for] body ends: [continue] (or falling off the
    end) with the counters, or [return err]. *)
Inductive Flow :=
| Continue (c : Counters)
| Return (err : error).

(** [context.Canceled], one of the two errors [ctx.Err()] can be. *)
Definition Canceled : error := ExtErr "context canceled".

(** How a call of [Run] ends: it returns an error, or it panics. *)
Inductive Exit :=
| Returned (err : error)
| Panicked (msg : string).

Section Service.
Variable lib : Lib.
Variable json : drupal.JSON.
Variable codec : Codec.
Variable env : Env.

Definition decodeWith {A} (dec : string → res A) (body : res string) : res A :=
  match body with
  | Err err => Err err
  | Ok b => dec b
  end.

(** [NewService]. The client is built with the three arguments that
    [service.go] passes. *)
Definition NewService (cfg : config.Config) : M (res Service) :=
  match NewClientErr codec (config.Elasticsearch cfg) with
  | Some err => ret (Err (Wrapf "elasticsearch client: %w" [] err))
  | None =>
      dc <- drupal.legacy.NewClient (config.URL (config.Drupal cfg))
              (config.Token (config.Drupal cfg))
              (config.SkipTLSVerify (config.Drupal cfg)) ;;
      match dc with
      | Err err => ret (Err (Wrapf "drupal client: %w" [] err))
      | Ok drupalClient =>
          ping <- redisPing env ;;
          match ping with
          | Some err => ret (Err (Wrapf "redis connection: %w" [] err))
          | None =>
              let dedupTracker := dedup.NewTracker in
              let lookbackDuration :=
                wrap64 (config.LookbackHours (config.Service cfg) * Hour) in
              t <- now env ;;
              writeLastCheckTS (t + wrap64 (- lookbackDuration)) ;;
              ret (Ok {| drupal := drupalClient; dedup := dedupTracker;
                         config := cfg |})
          end
      end
  end.

Definition getLastCheckTS : M Z := readLastCheckTS.

Definition indexFor (cityCfg : config.CityConfig) : string :=
  if String.eqb (config.Index cityCfg) ""
  then config.Name cityCfg +:+ "_articles"
  else config.Index cityCfg.

(** The block "If no articles found, log a sample query without keyword
    filter for debugging". *)
Definition probe (cityCfg : config.CityConfig) (index : string) : M unit :=
  log DebugLevel "No articles found, testing query without keyword filter"
    [FString "city" (config.Name cityCfg); FString "index" index] ;;
  let testQuery := MatchAll 1 in
  r <- search env index testQuery ;;
  match r with
  | Err _ => ret tt
  | Ok testRes =>
      if negb (esapi.IsError testRes) then
        match decodeWith (DecodeProbe codec) (esapi.Body testRes) with
        | Ok testResult =>
            log DebugLevel "Index contains articles without filters"
              [FString "index" index;
               FInt "total_articles" (probe_Total testResult)] ;;
            match probe_Hits testResult with
            | first :: _ =>
                log DebugLevel "Sample article fields"
                  [FString "index" index; FAny "sample_fields" first]
            | [] => ret tt
            end
        | Err _ => ret tt
        end
      else ret tt
  end.

(** The [must] clauses of the query, given the watermark. *)
Definition mustClauses (s : Service) (lastCheckStr : option string) : list Clause :=
  let mustClauses :=
    [MultiMatch (Join (config.CrimeKeywords (config.Service (config s))) " ")
                ["title^2"; "body"] "best_fields" "or"] in
  match lastCheckStr with
  | Some str => [Range "published_date" str] ++ mustClauses
  | None => mustClauses
  end.

(** [FindCrimeArticles]. [json.NewEncoder(&buf).Encode(query)] is applied to
    a document of strings and integers and cannot fail: its error branch is
    left out, and the query travels as a [Query]. *)
Definition FindCrimeArticles (s : Service) (cityCfg : config.CityConfig)
    : M (res (list Article)) :=
  let lookback := config.LookbackHours (config.Service (config s)) in
  (* Add date filter only if lookback_hours is positive *)
  must <- (if 0 <? lookback then
             lastCheckTS <- getLastCheckTS ;;
             let lastCheckStr := formatRFC3339 lib lastCheckTS in
             log DebugLevel "Searching for articles with date filter"
               [FString "city" (config.Name cityCfg);
                FString "since" lastCheckStr;
                FInt "lookback_hours" lookback] ;;
             ret (mustClauses s (Some lastCheckStr))
           else
             log DebugLevel "Searching for articles without date filter"
               [FString "city" (config.Name cityCfg);
                FInt "lookback_hours" lookback] ;;
             ret (mustClauses s None)) ;;
  let query := BoolQuery must 100 "published_date" "desc" in
  let index := indexFor cityCfg in
  log DebugLevel "Elasticsearch query"
    [FString "query" (MarshalIndent codec query); FString "index" index] ;;
  r <- search env index query ;;
  match r with
  | Err err => ret (Err (Wrapf "search error: %w" [] err))
  | Ok res =>
      if esapi.IsError res then
        match decodeWith (DecodeError codec) (esapi.Body res) with
        | Err _ =>
            ret (Err (Errorf "elasticsearch error response: %s"
                        [AStr (esapi.Status res)]))
        | Ok e =>
            log ErrorLevel "Elasticsearch error"
              [FString "index" index; FString "status" (esapi.Status res);
               FAny "error_details" e] ;;
            ret (Err (Errorf "elasticsearch error: %v" [AStr e]))
        end
      else
        match decodeWith (DecodeResult codec) (esapi.Body res) with
        | Err err => ret (Err (Wrapf "decode response: %w" [] err))
        | Ok result =>
            let articles :=
              map (λ hit,
                     (* Use Elasticsearch _id if article doesn't have an ID *)
                     if String.eqb (ID (hit_Source hit)) ""
                     then withID (hit_Source hit) (hit_ID hit)
                     else hit_Source hit)
                  (Hits result) in
            log InfoLevel "Found articles"
              [FString "city" (config.Name cityCfg);
               FInt "count" (Z.of_nat (length articles));
               FInt "total" (Total result)] ;;
            (if (Total result =? 0)
                && (0 <? Z.of_nat (length (config.CrimeKeywords
                                             (config.Service (config s)))))
             then probe cityCfg index
             else ret tt) ;;
            ret (Ok articles)
        end
  end.

(** The loop of [isCrimeRelated]. *)
Fixpoint anyKeyword (content : string) (keywords : list string) : bool :=
  match keywords with
  | [] => false
  | keyword :: rest =>
      if Contains content (ToLower lib keyword) then true
      else anyKeyword content rest
  end.

Definition isCrimeRelated (s : Service) (article : Article) : bool :=
  let content := ToLower lib (Title article +:+ " " +:+ Content article) in
  anyKeyword content (config.CrimeKeywords (config.Service (config s))).

Definition incSkipped (c : Counters) : Counters :=
  {| posted := posted c; skipped := skipped c + 1; errors := errors c |}.
Definition incErrors (c : Counters) : Counters :=
  {| posted := posted c; skipped := skipped c; errors := errors c + 1 |}.
Definition incPosted (c : Counters) : Counters :=
  {| posted := posted c + 1; skipped := skipped c; errors := errors c |}.

(** The body of the loop [for _, article := range articles] of
    [ProcessCity]. *)
Definition processArticle (s : Service) (cityCfg : config.CityConfig)
    (article : Article) (c : Counters) : M Flow :=
  (* Additional crime filtering *)
  if negb (isCrimeRelated s article) then ret (Continue (incSkipped c))
  else
    (* Check if already posted *)
    seen <- dedup.HasPosted env (dedup s) (ID article) ;;
    if (seen : bool) then ret (Continue (incSkipped c))
    else
      (* Rate limit *)
      w <- limiterWait env ;;
      match w with
      | Some err => ret (Return (Wrapf "rate limit wait: %w" [] err))
      | None =>
          (* Post to Drupal *)
          perr <- drupal.PostArticle lib json env (drupal s)
                    {| drupal.Title := Title article;
                       drupal.Body := Content article;
                       drupal.URL := URL article;
                       drupal.GroupID := config.GroupID cityCfg;
                       drupal.GroupType :=
                         config.GroupType (config.Service (config s));
                       drupal.ContentType :=
                         config.ContentType (config.Service (config s)) |} ;;
          match perr with
          | Some err =>
              log ErrorLevel "Error posting article"
                [FString "article_id" (ID article);
                 FString "city" (config.Name cityCfg);
                 FString "title" (Title article); FError err] ;;
              ret (Continue (incErrors c))
          | None =>
              (* Mark as posted *)
              merr <- dedup.MarkPosted env (dedup s) (ID article) ;;
              match merr with
              | Some err =>
                  log WarnLevel "Failed to mark article as posted"
                    [FString "article_id" (ID article);
                     FString "city" (config.Name cityCfg); FError err]
              | None => ret tt
              end ;;
              log InfoLevel "Posted article"
                [FString "title" (Title article);
                 FString "city" (config.Name cityCfg);
                 FString "article_id" (ID article)] ;;
              ret (Continue (incPosted c))
          end
      end.

Fixpoint rangeArticles (s : Service) (cityCfg : config.CityConfig)
    (articles : list Article) (c : Counters) : M (res Counters) :=
  match articles with
  | [] => ret (Ok c)
  | article :: rest =>
      f <- processArticle s cityCfg article c ;;
      match f with
      | Continue c' => rangeArticles s cityCfg rest c'
      | Return err => ret (Err err)
      end
  end.

Definition ProcessCity (s : Service) (cityCfg : config.CityConfig)
    : M (option error) :=
  r <- FindCrimeArticles s cityCfg ;;
  match r with
  | Err err => ret (Some (Wrapf "find articles: %w" [] err))
  | Ok articles =>
      l <- rangeArticles s cityCfg articles
             {| posted := 0; skipped := 0; errors := 0 |} ;;
      match l with
      | Err err => ret (Some err)
      | Ok c =>
          log InfoLevel "City processing completed"
            [FString "city" (config.Name cityCfg);
             FInt "posted" (posted c); FInt "skipped" (skipped c);
             FInt "errors" (errors c)] ;;
          ret None
      end
  end.

(** The loop [for _, cityCfg := range s.config.Cities] of [runOnce]. *)
Fixpoint rangeCities (s : Service) (cities : list config.CityConfig) : M unit :=
  match cities with
  | [] => ret tt
  | cityCfg :: rest =>
      err <- ProcessCity s cityCfg ;;
      match err with
      | Some err =>
          log ErrorLevel "Error processing city"
            [FString "city" (config.Name cityCfg); FError err]
          (* Continue with other cities *)
      | None => ret tt
      end ;;
      rangeCities s rest
  end.

Definition runOnce (s : Service) : M (option error) :=
  log InfoLevel "Starting article sync" [] ;;
  rangeCities s (config.Cities (config s)) ;;
  (* Update last check timestamp *)
  t <- now env ;;
  writeLastCheckTS t ;;
  log InfoLevel "Article sync completed" [] ;;
  ret None.

(** The [for { select { ... } }] of [Run], for a run in which the ticker's
    case is taken [ticks] times before the case of [ctx.Done()] is;
    [ctxErr] is what [ctx.Err()] returns then. *)
Fixpoint selectLoop (s : Service) (ctxErr : error) (ticks : nat) : M error :=
  match ticks with
  | O => ret ctxErr   (* case <-ctx.Done(): return ctx.Err() *)
  | S ticks' =>
      err <- runOnce s ;;
      match err with
      | Some err => log ErrorLevel "Run error" [FError err]
      | None => ret tt
      end ;;
      selectLoop s ctxErr ticks'
  end.

(** [Run]. [time.NewTicker] panics when the interval is not positive, before
    anything else is done. *)
Definition Run (s : Service) (ctxErr : error) (ticks : nat) : M Exit :=
  if config.CheckInterval (config.Service (config s)) <=? 0 then
    ret (Panicked "non-positive interval for NewTicker")
  else
    (* Run immediately on start *)
    err <- runOnce s ;;
    match err with
    | Some err => log ErrorLevel "Initial run error" [FError err]
    | None => ret tt
    end ;;
    e <- selectLoop s ctxErr ticks ;;
    ret (Returned e).

End Service.

End integration.

(** ** Reading a trace *)

(** The string field [k] of a log entry. *)
Fixpoint fieldString (k : string) (fields : list Field) : option string :=
  match fields with
  | [] => None
  | FString k' v :: rest => if String.eqb k' k then Some v else fieldString k rest
  | _ :: rest => fieldString k rest
  end.

Fixpoint fieldInt (k : string) (fields : list Field) : option Z :=
  match fields with
  | [] => None
  | FInt k' v :: rest => if String.eqb k' k then Some v else fieldInt k rest
  | _ :: rest => fieldInt k rest
  end.

(** The searches sent to Elasticsearch: the boolean queries (one per call of
    [FindCrimeArticles]) and the [match_all] probes. *)
Definition mainSearch (e : Event) : option (string * list Clause) :=
  match e with
  | EvSearch index (BoolQuery must _ _ _) _ => Some (index, must)
  | _ => None
  end.

Definition probeSearch (e : Event) : option string :=
  match e with
  | EvSearch index (MatchAll _) _ => Some index
  | _ => None
  end.

Definition mainSearches (evs : list Event) : list (string * list Clause) :=
  omap mainSearch evs.

Definition probeSearches (evs : list Event) : list string :=
  omap probeSearch evs.

(** The errors returned by [limiter.Wait]. *)
Definition waitError (e : Event) : option error :=
  match e with
  | EvWait (Some err) => Some err
  | _ => None
  end.

Definition waitErrors (evs : list Event) : list error := omap waitError evs.

(** The requests sent to the destination, and among them the creation
    requests. *)
Definition httpRequest (e : Event) : option http.Request :=
  match e with
  | EvHTTP req _ => Some req
  | _ => None
  end.

Definition httpRequests (evs : list Event) : list http.Request :=
  omap httpRequest evs.

Definition isPOST (req : http.Request) : bool :=
  String.eqb (http.Method req) "POST".

Definition creationRequests (evs : list Event) : list http.Request :=
  List.filter isPOST (httpRequests evs).

(** The writes to the watermark. *)
Definition watermarkWrite (e : Event) : option Z :=
  match e with
  | EvWriteLastCheck t => Some t
  | _ => None
  end.

Definition watermarkWrites (evs : list Event) : list Z := omap watermarkWrite evs.

(** The commands sent to the store that set a key: key and time-to-live. *)
Definition storeSet (e : Event) : option (string * Z) :=
  match e with
  | EvSet key _ ttl _ => Some (key, ttl)
  | _ => None
  end.

Definition storeSets (evs : list Event) : list (string * Z) := omap storeSet evs.

(** The keys a set command stored: the command was answered without error. *)
Definition markedKey (e : Event) : option string :=
  match e with
  | EvSet key _ _ None => Some key
  | _ => None
  end.

Definition markedKeys (evs : list Event) : list string := omap markedKey evs.

(** [ProcessCity] names the article of every call of [PostArticle] in the
    entry it logs right after the call: "Error posting article" when the
    call failed, "Posted article" when it succeeded. *)
Definition deliveryAttempt (e : Event) : option string :=
  match e with
  | EvLog _ msg fields =>
      if String.eqb msg "Error posting article" || String.eqb msg "Posted article"
      then fieldString "article_id" fields
      else None
  | _ => None
  end.

Definition delivered (e : Event) : option string :=
  match e with
  | EvLog _ msg fields =>
      if String.eqb msg "Posted article"
      then fieldString "article_id" fields
      else None
  | _ => None
  end.

Definition deliveryAttempts (evs : list Event) : list string :=
  omap deliveryAttempt evs.

Definition deliveredIDs (evs : list Event) : list string := omap delivered evs.

(** The counts a tenant's pass reports in "City processing completed". *)
Definition cityReport (e : Event) : option integration.Counters :=
  match e with
  | EvLog _ msg fields =>
      if String.eqb msg "City processing completed" then
        match fieldInt "posted" fields, fieldInt "skipped" fields,
              fieldInt "errors" fields with
        | Some p, Some s, Some e =>
            Some {| integration.posted := p; integration.skipped := s;
                    integration.errors := e |}
        | _, _, _ => None
        end
      else None
  | _ => None
  end.

Definition cityReports (evs : list Event) : list integration.Counters :=
  omap cityReport evs.

(** The headers of the creation request before the anti-forgery token is
    added. *)
Definition baseHeaders (lib : Lib) (c : drupal.Client) : list (string * string) :=
  drupal.setAuth lib c
    (http.Set_ (http.Set_ [] "Content-Type" "application/vnd.api+json")
       "Accept" "application/vnd.api+json").

(** The filtered query of [FindCrimeArticles] in a state, and what the
    function returns given the answer to that query. *)
Definition expectedMust (lib : Lib) (s : integration.Service) (st : State)
    : list Clause :=
  integration.mustClauses s
    (if 0 <? config.LookbackHours (config.Service (integration.config s))
     then Some (formatRFC3339 lib (lastCheckTS st)) else None).

Definition filteredQuery (lib : Lib) (s : integration.Service) (st : State) : Query :=
  BoolQuery (expectedMust lib s st) 100 "published_date" "desc".

Definition searchAnswer (codec : integration.Codec) (r : res esapi.Response)
    : res (list integration.Article) :=
  match r with
  | Err err => Err (Wrapf "search error: %w" [] err)
  | Ok res =>
      if esapi.IsError res then
        match integration.decodeWith (integration.DecodeError codec)
                (esapi.Body res) with
        | Err _ => Err (Errorf "elasticsearch error response: %s"
                          [AStr (esapi.Status res)])
        | Ok e => Err (Errorf "elasticsearch error: %v" [AStr e])
        end
      else
        match integration.decodeWith (integration.DecodeResult codec)
                (esapi.Body res) with
        | Err err => Err (Wrapf "decode response: %w" [] err)
        | Ok found =>
            Ok (map (λ hit,
                       if String.eqb (integration.ID (integration.hit_Source hit)) ""
                       then integration.withID (integration.hit_Source hit)
                              (integration.hit_ID hit)
                       else integration.hit_Source hit)
                    (integration.Hits found))
        end
  end.

(** Every key of the store in [st] is still a key in [st']. *)
Definition keepsKeys (st st' : State) : Prop :=
  ∀ k, is_Some (redis st !! k) → is_Some (redis st' !! k).

(** The number of articles a tenant's pass has accounted for. *)
Definition accounted (c : integration.Counters) : Z :=
  integration.posted c + integration.skipped c + integration.errors c.

(** The entry "City processing completed" and the counters a pass starts
    with. *)
Definition cityReportEntry (city : config.CityConfig) (c : integration.Counters)
    : Event :=
  EvLog InfoLevel "City processing completed"
    [FString "city" (config.Name city);
     FInt "posted" (integration.posted c);
     FInt "skipped" (integration.skipped c);
     FInt "errors" (integration.errors c)].

Definition noCounts : integration.Counters :=
  {| integration.posted := 0; integration.skipped := 0; integration.errors := 0 |}.


(** ** What the specification says, in its own words *)

Module spec.

(** Modelled on the specification's RelevanceFilter: "Lower-cases the
    concatenation of title and body, returns true iff any keyword
    (case-insensitively) occurs as a substring." *)
Definition Keep (lib : Lib) (title body : string) (keywords : list string) : Prop :=
  ∃ keyword, In keyword keywords
             ∧ occurs_in (ToLower lib keyword) (ToLower lib (title +:+ body)).

End spec.

(** ** A concrete world: the specification's end-to-end scenario *)

Module scenario.

Definition lib : Lib :=
  {| ToLower := asciiToLower;
     TrimSpace := λ s, s;
     base64 := λ s, "b64(" +:+ s +:+ ")";
     formatRFC3339 := λ t, if t <? 0 then "1969" else "1970";
     newRequestErr := λ _ _, None |}.

Definition json : drupal.JSON :=
  {| drupal.Marshal := λ a, Ok (drupal.Attributes_Title a);
     drupal.Decode := λ body,
       if String.eqb body "created"
       then Ok {| drupal.RespID := "uuid-1"; drupal.RespType := "node--article";
                  drupal.Errors := [] |}
       else if String.eqb body "denied"
       then Ok {| drupal.RespID := ""; drupal.RespType := "";
                  drupal.Errors := [{| drupal.ErrStatus := "403";
                                       drupal.ErrTitle := "Forbidden";
                                       drupal.ErrDetail := "no access" |}] |}
       else Err (ExtErr "invalid character") |}.

Definition A : integration.Article :=
  {| integration.ID := "A"; integration.Title := "Police arrest suspect downtown";
     integration.Content := ""; integration.URL := "https://news.example/a";
     integration.PublishedAt := 0; integration.Source := "sudbury" |}.

Definition B : integration.Article :=
  {| integration.ID := "B"; integration.Title := "City council meeting";
     integration.Content := ""; integration.URL := "https://news.example/b";
     integration.PublishedAt := 0; integration.Source := "sudbury" |}.

Definition codec : integration.Codec :=
  {| integration.NewClientErr := λ _, None;
     integration.MarshalIndent := λ _, "{}";
     integration.DecodeError := λ body, Ok body;
     integration.DecodeResult := λ body,
       if String.eqb body "A,B"
       then Ok {| integration.Total := 2;
                  integration.Hits :=
                    [{| integration.hit_ID := "es-1"; integration.hit_Source := A |};
                     {| integration.hit_ID := "es-2"; integration.hit_Source := B |}] |}
       else if String.eqb body "none"
       then Ok {| integration.Total := 0; integration.Hits := [] |}
       else Err (ExtErr "unexpected end of JSON input");
     integration.DecodeProbe := λ body,
       if String.eqb body "sample"
       then Ok {| integration.probe_Total := 7; integration.probe_Hits := ["{}"] |}
       else Err (ExtErr "unexpected end of JSON input") |}.

Definition ok200 (body : string) : http.Response :=
  {| http.StatusCode := 200; http.Status := "200 OK"; http.RespBody := Ok body |}.

(** A world in which everything works: the index returns A and B, the store
    answers, the limiter grants, the destination creates. *)
Definition env : Env :=
  {| es_search := λ _ _ q,
       match q with
       | BoolQuery _ _ _ _ =>
           Ok {| esapi.IsError := false; esapi.Status := "200 OK";
                 esapi.Body := Ok "A,B" |}
       | MatchAll _ =>
           Ok {| esapi.IsError := false; esapi.Status := "200 OK";
                 esapi.Body := Ok "sample" |}
       end;
     redis_fault := λ _, None;
     limiter_wait := λ _, None;
     http_do := λ _ req,
       if isPOST req
       then Ok {| http.StatusCode := 201; http.Status := "201 Created";
                  http.RespBody := Ok "created" |}
       else Ok (ok200 "token-1");
     clock := λ n, Z.of_nat n |}.

(** A world whose index has no match for the keywords, and the same world
    but for the answer to the probe. *)
Definition envEmpty : Env :=
  {| es_search := λ _ _ q,
       match q with
       | BoolQuery _ _ _ _ =>
           Ok {| esapi.IsError := false; esapi.Status := "200 OK";
                 esapi.Body := Ok "none" |}
       | MatchAll _ =>
           Ok {| esapi.IsError := false; esapi.Status := "200 OK";
                 esapi.Body := Ok "sample" |}
       end;
     redis_fault := redis_fault env;
     limiter_wait := limiter_wait env;
     http_do := http_do env;
     clock := clock env |}.

Definition envEmptyProbeDown : Env :=
  {| es_search := λ n index q,
       match n, q with
       | S _, MatchAll _ => Err (ExtErr "connection reset by peer")
       | _, _ => es_search envEmpty n index q
       end;
     redis_fault := redis_fault env;
     limiter_wait := limiter_wait env;
     http_do := http_do env;
     clock := clock env |}.

(** The same world with the store out of reach. *)
Definition envStoreDown : Env :=
  {| es_search := es_search env;
     redis_fault := λ _, Some (ExtErr "dial tcp: connection refused");
     limiter_wait := limiter_wait env;
     http_do := http_do env;
     clock := clock env |}.

(** The same world with the token endpoint failing. *)
Definition envNoToken : Env :=
  {| es_search := es_search env;
     redis_fault := redis_fault env;
     limiter_wait := limiter_wait env;
     http_do := λ n req,
       if isPOST req then http_do env n req
       else Ok {| http.StatusCode := 403; http.Status := "403 Forbidden";
                  http.RespBody := Ok "" |};
     clock := clock env |}.

Definition sudbury : config.CityConfig :=
  {| config.Name := "sudbury"; config.Index := ""; config.GroupID := "group-uuid-sudbury" |}.

Definition serviceConfig : config.ServiceConfig :=
  {| config.CheckInterval := 5 * Minute;
     config.RateLimitRPS := 10;
     config.LookbackHours := 24;
     config.CrimeKeywords := ["arrest"; "police"];
     config.ContentType := "node--article";
     config.GroupType := "group--crime_news";
     config.DedupTTL := 8760 * Hour |}.

Definition cfg : config.Config :=
  {| config.Debug := false;
     config.Elasticsearch :=
       {| config.es_URL := "http://es:9200"; config.es_Username := "";
          config.es_Password := "" |};
     config.Drupal :=
       {| config.URL := "https://cms.example"; config.Username := "bot";
          config.Token := "secret"; config.AuthMethod := "";
          config.SkipTLSVerify := false |};
     config.Redis :=
       {| config.rd_URL := "redis:6379"; config.rd_Password := "";
          config.rd_DB := 0 |};
     config.Service := serviceConfig;
     config.Cities := [sudbury] |}.

Definition client : drupal.Client :=
  {| drupal.baseURL := "https://cms.example"; drupal.username := "bot";
     drupal.token := "secret"; drupal.authMethod := "" |}.

Definition service : integration.Service :=
  {| integration.drupal := client;
     integration.dedup := dedup.NewTracker;
     integration.config := cfg |}.

(** The scenario's service with other keywords, lookback or duplicate-record
    time-to-live configured. *)
Definition configured (keywords : list string) (lookback ttl : Z)
    (contentType : string) : config.Config :=
  {| config.Debug := config.Debug cfg;
     config.Elasticsearch := config.Elasticsearch cfg;
     config.Drupal := config.Drupal cfg;
     config.Redis := config.Redis cfg;
     config.Service :=
       {| config.CheckInterval := 5 * Minute;
          config.RateLimitRPS := 10;
          config.LookbackHours := lookback;
          config.CrimeKeywords := keywords;
          config.ContentType := contentType;
          config.GroupType := "group--crime_news";
          config.DedupTTL := ttl |};
     config.Cities := config.Cities cfg |}.

Definition serviceWith (c : config.Config) : integration.Service :=
  {| integration.drupal := client;
     integration.dedup := dedup.NewTracker;
     integration.config := c |}.

Definition carjacking : integration.Article :=
  {| integration.ID := "C"; integration.Title := "Car";
     integration.Content := "jacking reported"; integration.URL := "";
     integration.PublishedAt := 0; integration.Source := "sudbury" |}.

(** Three tenants, and a world in which the fetch for the second one fails
    in transport. *)
Definition timmins : config.CityConfig :=
  {| config.Name := "timmins"; config.Index := ""; config.GroupID := "group-uuid-timmins" |}.

Definition northbay : config.CityConfig :=
  {| config.Name := "northbay"; config.Index := "nb_news";
     config.GroupID := "group-uuid-northbay" |}.

Definition threeCities : integration.Service :=
  serviceWith
    {| config.Debug := config.Debug cfg;
       config.Elasticsearch := config.Elasticsearch cfg;
       config.Drupal := config.Drupal cfg;
       config.Redis := config.Redis cfg;
       config.Service := serviceConfig;
       config.Cities := [sudbury; timmins; northbay] |}.

Definition envSecondFails : Env :=
  {| es_search := λ n index q,
       if String.eqb index "timmins_articles"
       then Err (ExtErr "dial tcp: i/o timeout")
       else es_search env n index q;
     redis_fault := redis_fault env;
     limiter_wait := limiter_wait env;
     http_do := http_do env;
     clock := clock env |}.

(** A configuration file that sets the duplicate-record time-to-live to one
    hour, as [Load] receives it. *)
Definition shortTTL : config.Config :=
  configured ["arrest"; "police"] 24 (1 * Hour) "node--article".

Definition readFile (path : string) : res string := Ok "service: {dedup_ttl: 1h}".
Definition yamlUnmarshal (data : string) : res config.Config := Ok shortTTL.
Definition getenv (name : string) : string := "".

(** A request for a content type other than the default. *)
Definition newsRequest : drupal.ArticleRequest :=
  {| drupal.Title := "Police arrest suspect downtown"; drupal.Body := "";
     drupal.URL := "https://news.example/a";
     drupal.GroupID := "group-uuid-sudbury";
     drupal.GroupType := "group--crime_news";
     drupal.ContentType := "node--news" |}.

Definition articleRequest : drupal.ArticleRequest :=
  {| drupal.Title := "Police arrest suspect downtown"; drupal.Body := "";
     drupal.URL := "https://news.example/a";
     drupal.GroupID := "group-uuid-sudbury";
     drupal.GroupType := "group--crime_news";
     drupal.ContentType := "node--article" |}.

Definition st0 : State :=
  {| tick := 0; redis := ∅; lastCheckTS := 0 |}.

Definition firstRun :=
  integration.ProcessCity lib json codec env service sudbury st0.

Definition secondRun :=
  integration.ProcessCity lib json codec env service sudbury (final firstRun).

Definition secondRunStoreDown :=
  integration.ProcessCity lib json codec envStoreDown service sudbury
    (final firstRun).

End scenario.

(** ** Vocabulary for the configuration, the publisher and a tenant's pass *)

(** What [Validate] asks of a tenant, and of the values beside the tenants. *)
Definition validCity (city : config.CityConfig) : Prop :=
  config.Name city ≠ "" ∧ config.GroupID city ≠ "".

Definition scalarsValid (c : config.Config) : Prop :=
  config.es_URL (config.Elasticsearch c) ≠ ""
  ∧ config.URL (config.Drupal c) ≠ ""
  ∧ config.Token (config.Drupal c) ≠ ""
  ∧ config.rd_URL (config.Redis c) ≠ ""
  ∧ 0 < config.RateLimitRPS (config.Service c)
  ∧ 0 < config.CheckInterval (config.Service c)
  ∧ 0 <= config.DedupTTL (config.Service c).

(** The error [Validate] returns for the tenant at position [k]. *)
Definition cityError (k : Z) (city : config.CityConfig) : error :=
  if String.eqb (config.Name city) ""
  then Errorf "cities[%d].name is required" [AInt k]
  else Errorf "cities[%d].group_id is required" [AInt k].

(** The credential [setAuth] puts in the API-KEY header and, after "Basic ",
    in the Authorization header. *)
Definition credential (lib : Lib) (c : drupal.Client) : string :=
  if nonEmpty (drupal.username c)
  then base64 lib (drupal.username c +:+ ":" +:+ drupal.token c)
  else base64 lib (drupal.token c).

(** The request [getCSRFToken] sends. *)
Definition tokenRequest (lib : Lib) (c : drupal.Client) : http.Request :=
  {| http.Method := "GET";
     http.URL := drupal.baseURL c +:+ "/session/token";
     http.Header := drupal.setAuth lib c (http.Set_ [] "Accept" "application/json");
     http.Body := None |}.

(** The existence checks the store did not answer: the keys of the
    [Exists] commands that returned an error. *)
Definition failedCheck (e : Event) : option string :=
  match e with
  | EvExists key (Err _) => Some key
  | _ => None
  end.

Definition failedChecks (evs : list Event) : list string := omap failedCheck evs.

(** A log entry or a search: neither a command to the store, nor a wait,
    nor a request to the destination, nor a write of the watermark. *)
Definition isLogOrSearch (e : Event) : bool :=
  match e with
  | EvLog _ _ _ | EvSearch _ _ _ => true
  | _ => false
  end.

(** The commands sent to the store, whatever their kind and answer. *)
Definition isStoreCommand (e : Event) : bool :=
  match e with
  | EvPing _ | EvExists _ _ | EvSet _ _ _ _ | EvDel _ _ => true
  | _ => false
  end.

Definition storeCommands (evs : list Event) : list Event :=
  List.filter isStoreCommand evs.

(** Text made of ASCII bytes only. *)
Definition isASCII (s : string) : bool :=
  forallb (λ c, (N_of_ascii c <? 128)%N) (list_ascii_of_string s).

(** The calls of [limiter.Wait] that returned nil. *)
Definition waitGrant (e : Event) : option unit :=
  match e with
  | EvWait None => Some tt
  | _ => None
  end.

Definition waitGrants (evs : list Event) : list unit := omap waitGrant evs.

(** The request [ProcessCity] builds for an article of a tenant. *)
Definition requestFor (s : integration.Service) (city : config.CityConfig)
    (a : integration.Article) : drupal.ArticleRequest :=
  {| drupal.Title := integration.Title a;
     drupal.Body := integration.Content a;
     drupal.URL := integration.URL a;
     drupal.GroupID := config.GroupID city;
     drupal.GroupType := config.GroupType (config.Service (integration.config s));
     drupal.ContentType := config.ContentType (config.Service (integration.config s)) |}.

(** The identifier [FindCrimeArticles] gives the article of a hit. *)
Definition hitID (hit : integration.Hit) : string :=
  if String.eqb (integration.ID (integration.hit_Source hit)) ""
  then integration.hit_ID hit
  else integration.ID (integration.hit_Source hit).

(** ** Further concrete inputs *)

Module cases.

(** A configuration whose second tenant has no group. *)
Definition groupless : config.CityConfig :=
  {| config.Name := "timmins"; config.Index := ""; config.GroupID := "" |}.

Definition secondGroupless : config.Config :=
  {| config.Debug := config.Debug scenario.cfg;
     config.Elasticsearch := config.Elasticsearch scenario.cfg;
     config.Drupal := config.Drupal scenario.cfg;
     config.Redis := config.Redis scenario.cfg;
     config.Service := scenario.serviceConfig;
     config.Cities := [scenario.sudbury; groupless; scenario.northbay] |}.

(** An environment that sets DRUPAL_URL, and what [Load] makes of the
    scenario's file in it. *)
Definition getenv (name : string) : string :=
  if String.eqb name "DRUPAL_URL" then "https://env.example" else "".

Definition loaded : config.Config :=
  config.overrideEnv scenario.lib getenv
    (config.withService scenario.shortTTL
       (config.setDefaults (config.Service scenario.shortTTL))).

(** The scenario's world with the context cancelled: every call of
    [limiter.Wait] returns its error. *)
Definition envCancelled : Env :=
  {| es_search := es_search scenario.env;
     redis_fault := redis_fault scenario.env;
     limiter_wait := λ _, Some (ExtErr "context canceled");
     http_do := http_do scenario.env;
     clock := clock scenario.env |}.

(** The scenario's service with a keyword no article has, with the empty
    keyword, and with one keyword of the scenario's two. *)
Definition zebra : integration.Service :=
  scenario.serviceWith (scenario.configured ["zebra"] 24 0 "node--article").

Definition emptyKeyword : integration.Service :=
  scenario.serviceWith (scenario.configured ["zebra"; ""] 24 0 "node--article").

Definition policeOnly : integration.Service :=
  scenario.serviceWith (scenario.configured ["police"] 24 0 "node--article").

Definition upperCase : integration.Service :=
  scenario.serviceWith (scenario.configured ["ARREST"; "Police"] 24 0 "node--article").

(** Article A in capitals. *)
Definition shouted : integration.Article :=
  {| integration.ID := "A"; integration.Title := "POLICE ARREST SUSPECT DOWNTOWN";
     integration.Content := ""; integration.URL := "https://news.example/a";
     integration.PublishedAt := 0; integration.Source := "sudbury" |}.

(** A rerun in which the index returns A and an article not seen before,
    and the store answers the two existence checks and then stops
    answering: the set command for the new article fails. *)
Definition charged : integration.Article :=
  {| integration.ID := "D"; integration.Title := "Police charge driver";
     integration.Content := ""; integration.URL := "https://news.example/d";
     integration.PublishedAt := 0; integration.Source := "sudbury" |}.

Definition codecD : integration.Codec :=
  {| integration.NewClientErr := integration.NewClientErr scenario.codec;
     integration.MarshalIndent := integration.MarshalIndent scenario.codec;
     integration.DecodeError := integration.DecodeError scenario.codec;
     integration.DecodeResult := λ body,
       if String.eqb body "A,D"
       then Ok {| integration.Total := 2;
                  integration.Hits :=
                    [{| integration.hit_ID := "es-1";
                        integration.hit_Source := scenario.A |};
                     {| integration.hit_ID := "es-4";
                        integration.hit_Source := charged |}] |}
       else integration.DecodeResult scenario.codec body;
     integration.DecodeProbe := integration.DecodeProbe scenario.codec |}.

Definition envSetFails : Env :=
  {| es_search := λ n index q,
       match q with
       | BoolQuery _ _ _ _ =>
           Ok {| esapi.IsError := false; esapi.Status := "200 OK";
                 esapi.Body := Ok "A,D" |}
       | MatchAll _ => es_search scenario.env n index q
       end;
     redis_fault := λ n,
       if (12 <? n)%nat then Some (ExtErr "READONLY") else None;
     limiter_wait := limiter_wait scenario.env;
     http_do := http_do scenario.env;
     clock := clock scenario.env |}.

Definition firstRunD :=
  integration.ProcessCity scenario.lib scenario.json codecD scenario.env
    scenario.service scenario.sudbury scenario.st0.

Definition rerunSetFails :=
  integration.ProcessCity scenario.lib scenario.json codecD envSetFails
    scenario.service scenario.sudbury (final firstRunD).

(** The service [NewService] builds from the scenario's configuration file. *)
Definition started : integration.Service :=
  {| integration.drupal :=
       {| drupal.baseURL := "https://cms.example"; drupal.username := "";
          drupal.token := "secret"; drupal.authMethod := "" |};
     integration.dedup := dedup.NewTracker;
     integration.config := scenario.shortTTL |}.

(** The creation request of the scenario's first run. *)
Definition creation : http.Request :=
  {| http.Method := "POST";
     http.URL := "https://cms.example/jsonapi/node/article";
     http.Header :=
       http.Set_ (baseHeaders scenario.lib scenario.client) "X-CSRF-Token" "token-1";
     http.Body := Some "Police arrest suspect downtown" |}.

End cases.

(** * Facts *)

(** ** Strings *)

Lemma HasPrefix_occurs (s p : string) :
  HasPrefix s p = true ↔ ∃ post, s = p +:+ post.
Proof.
  revert s. induction p as [|a p IH]; intros s; simpl.
  - split; [intros _; by exists s | done].
  - destruct s as [|b s].
    + split; [done | intros [post H]; discriminate].
    + destruct (Ascii.eqb a b) eqn:E.
      * apply Ascii.eqb_eq in E as ->. rewrite IH.
        split; intros [post H]; exists post; [by rewrite H | by injection H].
      * apply Ascii.eqb_neq in E.
        split; [done | intros [post H]; injection H; congruence].
Qed.

Lemma Index_lower_bound (s sub : string) : -1 <= Index s sub.
Proof.
  induction s as [|c s IH]; simpl.
  - destruct (HasPrefix "" sub); lia.
  - destruct (HasPrefix (String c s) sub); [lia|].
    destruct (Z.ltb_spec (Index s sub) 0); lia.
Qed.

Lemma Index_occurs (s sub : string) : 0 <= Index s sub ↔ occurs_in sub s.
Proof.
  induction s as [|c s IH].
  - simpl. destruct (HasPrefix "" sub) eqn:E.
    + split; [intros _ | lia].
      apply HasPrefix_occurs in E as [post E]. by exists "", post.
    + split; [lia|]. intros [pre [post H]].
      destruct pre; [|discriminate]. simpl in H.
      assert (HasPrefix "" sub = true) by (apply HasPrefix_occurs; eauto).
      congruence.
  - cbn [Index]. destruct (HasPrefix (String c s) sub) eqn:E.
    + split; [intros _ | lia].
      apply HasPrefix_occurs in E as [post E]. by exists "", post.
    + destruct (Z.ltb_spec (Index s sub) 0) as [Hneg|Hpos].
      * split; [lia|]. intros [pre [post H]]. destruct pre as [|a pre].
        -- assert (HasPrefix (String c s) sub = true)
             by (apply HasPrefix_occurs; eauto).
           congruence.
        -- simpl in H. injection H as _ H.
           assert (0 <= Index s sub) by (apply IH; by exists pre, post). lia.
      * split; [intros _ | lia].
        apply IH in Hpos as [pre [post H]]. exists (String c pre), post.
        simpl. by rewrite H.
Qed.

Lemma Contains_occurs (s sub : string) :
  Contains s sub = true ↔ occurs_in sub s.
Proof. unfold Contains. rewrite Z.leb_le. apply Index_occurs. Qed.

Lemma sliceTo_length (n : nat) (s : string) :
  (String.length (sliceTo n s) <= n)%nat.
Proof.
  revert s. induction n as [|n IH]; intros [|c s]; simpl; try lia.
  specialize (IH s). lia.
Qed.

(** ** The relevance filter *)

Section Filter.
Variable lib : Lib.

Lemma anyKeyword_occurs (content : string) (keywords : list string) :
  integration.anyKeyword lib content keywords = true
  ↔ ∃ keyword, In keyword keywords ∧ occurs_in (ToLower lib keyword) content.
Proof.
  induction keywords as [|k rest IH]; simpl.
  - split; [done | intros [? [[] _]]].
  - destruct (Contains content (ToLower lib k)) eqn:E.
    + split; [intros _ | done]. exists k. split; [by left|].
      by apply Contains_occurs.
    + rewrite IH. split.
      * intros [k' [Hin Hocc]]. exists k'. split; [by right | done].
      * intros [k' [[->|Hin] Hocc]]; [|by exists k'].
        apply Contains_occurs in Hocc. congruence.
Qed.

(** C5, as amended. [isCrimeRelated] returns true iff some configured
    keyword, lower-cased, occurs as a substring of the lower-cased text
    made of the title, one space and the body; with no keyword configured
    it returns false for every article. *)
Theorem C5_isCrimeRelated_iff_keyword_occurs
    (s : integration.Service) (article : integration.Article) :
  let keywords := config.CrimeKeywords (config.Service (integration.config s)) in
  (integration.isCrimeRelated lib s article = true
   ↔ ∃ keyword, In keyword keywords
       ∧ occurs_in (ToLower lib keyword)
           (ToLower lib (integration.Title article +:+ " "
                         +:+ integration.Content article)))
  ∧ (keywords = [] → integration.isCrimeRelated lib s article = false).
Proof.
  intros keywords. split.
  - unfold integration.isCrimeRelated. apply anyKeyword_occurs.
  - unfold integration.isCrimeRelated. fold keywords. by intros ->.
Qed.

End Filter.

(** C5 as the specification words it fails: with the keyword "carjacking",
    the title "Car" and the body "jacking reported", the lower-cased
    concatenation of title and body contains the keyword, yet
    [isCrimeRelated] answers false, because the code puts a space between
    title and body. *)
Lemma C5_counterexample :
  let s := scenario.serviceWith
             (scenario.configured ["carjacking"] 24 0 "node--article") in
  let a := scenario.carjacking in
  spec.Keep scenario.lib (integration.Title a) (integration.Content a)
    (config.CrimeKeywords (config.Service (integration.config s)))
  ∧ integration.isCrimeRelated scenario.lib s a = false.
Proof.
  split; [|reflexivity].
  exists "carjacking". split; [by left|]. by exists "", " reported".
Qed.

(** ** The endpoint of the creation request *)

Lemma sliceTo_5_never_node (label : string) :
  String.eqb (sliceTo 5 label) "node--" = false.
Proof.
  apply String.eqb_neq. intros H.
  pose proof (sliceTo_length 5 label) as Hlen. rewrite H in Hlen.
  simpl in Hlen. lia.
Qed.

Lemma endpointURL_other (base label : string) :
  label ≠ "node--article" →
  drupal.endpointURL base label = base +:+ "/jsonapi/node/" +:+ label.
Proof.
  intros Hne. unfold drupal.endpointURL.
  apply String.eqb_neq in Hne. rewrite Hne. cbn [negb].
  by rewrite sliceTo_5_never_node, andb_false_r.
Qed.

(** ** Running the monad *)

Lemma bind_run {A B} (m : M A) (f : A → M B) (st : State) :
  bind m f st =
  (result (f (result (m st)) (final (m st))),
   final (f (result (m st)) (final (m st))),
   events (m st) ++ events (f (result (m st)) (final (m st)))).
Proof.
  unfold bind, result, final, events.
  destruct (m st) as [[a st1] e1]. simpl.
  by destruct (f a st1) as [[b st2] e2].
Qed.

Ltac case_step :=
  match goal with
  | |- context [match ?x with _ => _ end] =>
      lazymatch x with
      | context [match _ with _ => _ end] => fail
      | _ => destruct x eqn:?
      end
  end.

Ltac unfold_ops :=
  unfold bind, ret, log, now, search, redisPing, redisExists, redisSet,
    redisDel, limiterWait, httpDo, readLastCheckTS, writeLastCheckTS,
    result, final, events, bump in *.

Ltac crunch := unfold_ops; repeat (cbn; try case_step); cbn.

Ltac proj_unfold :=
  unfold mainSearches, probeSearches, waitErrors, httpRequests,
    creationRequests, watermarkWrites, storeSets, markedKeys,
    deliveryAttempts, deliveredIDs, cityReports in *.

Ltac proj_solve :=
  proj_unfold; rewrite ?omap_app, ?List.filter_app;
  repeat match goal with H : _ = [] |- _ => rewrite H end;
  cbn; done.

Ltac find_in :=
  cbn [In];
  first [ left; reflexivity
        | right; find_in
        | apply in_or_app; right; find_in ].

Ltac rewrite_cases :=
  cbn; repeat match goal with
              | H : ?x = _ |- context [match ?x with _ => _ end] => rewrite H
              end.

(** ** The duplicate ledger *)

Section Ledger.
Variable env : Env.

Lemma HasPosted_run (t : dedup.Tracker) (id : string) (st : State) :
  let r := dedup.HasPosted env t id st in
  final r = bump st
  ∧ result r = match redis_fault env (tick st) with
               | Some _ => false
               | None => bool_decide (is_Some (redis st !! dedup.key id))
               end
  ∧ mainSearches (events r) = [] ∧ probeSearches (events r) = []
  ∧ waitErrors (events r) = [] ∧ httpRequests (events r) = []
  ∧ watermarkWrites (events r) = [] ∧ storeSets (events r) = []
  ∧ markedKeys (events r) = []
  ∧ deliveryAttempts (events r) = [] ∧ deliveredIDs (events r) = []
  ∧ cityReports (events r) = [].
Proof.
  unfold dedup.HasPosted. crunch; repeat split; try done.
Qed.

Lemma HasPosted_answered (t : dedup.Tracker) (id : string) (st : State) :
  failedChecks (events (dedup.HasPosted env t id st))
  = match redis_fault env (tick st) with
    | Some _ => [dedup.key id]
    | None => []
    end.
Proof. unfold dedup.HasPosted. crunch; done. Qed.

Lemma MarkPosted_run (t : dedup.Tracker) (id : string) (st : State) :
  let r := dedup.MarkPosted env t id st in
  result r = redis_fault env (tick st)
  ∧ tick (final r) = S (tick st)
  ∧ lastCheckTS (final r) = lastCheckTS st
  ∧ redis (final r) = match redis_fault env (tick st) with
                      | Some _ => redis st
                      | None => <[dedup.key id := ("1", dedup.ttl t)]> (redis st)
                      end
  ∧ mainSearches (events r) = [] ∧ probeSearches (events r) = []
  ∧ waitErrors (events r) = [] ∧ httpRequests (events r) = []
  ∧ watermarkWrites (events r) = []
  ∧ storeSets (events r) = [(dedup.key id, dedup.ttl t)]
  ∧ markedKeys (events r) = match redis_fault env (tick st) with
                            | Some _ => []
                            | None => [dedup.key id]
                            end
  ∧ deliveryAttempts (events r) = [] ∧ deliveredIDs (events r) = []
  ∧ cityReports (events r) = [].
Proof.
  unfold dedup.MarkPosted. crunch; repeat split; try done.
Qed.

(** C3. When the store's existence check fails, [HasPosted] returns false
    and no error reaches the caller (its result type has none); when the
    store's set command fails, [MarkPosted] returns that error. *)
Theorem C3_ledger_error_asymmetry
    (t : dedup.Tracker) (id : string) (st : State) (err : error) :
  redis_fault env (tick st) = Some err →
  result (dedup.HasPosted env t id st) = false
  ∧ In (EvExists (dedup.key id) (Err err)) (events (dedup.HasPosted env t id st))
  ∧ result (dedup.MarkPosted env t id st) = Some err
  ∧ In (EvSet (dedup.key id) "1" (dedup.ttl t) (Some err))
       (events (dedup.MarkPosted env t id st)).
Proof.
  intros Hfault. unfold dedup.HasPosted, dedup.MarkPosted.
  unfold_ops. rewrite Hfault. cbn. tauto.
Qed.

End Ledger.

(** C3 at the scenario's world with the store out of reach. *)
Lemma C3_witness :
  result (dedup.HasPosted scenario.envStoreDown dedup.NewTracker "A" scenario.st0)
  = false
  ∧ result (dedup.MarkPosted scenario.envStoreDown dedup.NewTracker "A" scenario.st0)
    = Some (ExtErr "dial tcp: connection refused").
Proof.
  pose proof (C3_ledger_error_asymmetry scenario.envStoreDown dedup.NewTracker
                "A" scenario.st0 (ExtErr "dial tcp: connection refused")
                eq_refl) as (H1 & _ & H2 & _).
  exact (conj H1 H2).
Defined.

(** ** The publisher *)

Section Publisher.
Variable lib : Lib.
Variable json : drupal.JSON.
Variable env : Env.

Lemma getCSRFToken_run (c : drupal.Client) (st : State) :
  let r := drupal.getCSRFToken lib env c st in
  redis (final r) = redis st
  ∧ lastCheckTS (final r) = lastCheckTS st
  ∧ (tick st <= tick (final r))%nat
  ∧ mainSearches (events r) = [] ∧ probeSearches (events r) = []
  ∧ waitErrors (events r) = [] ∧ creationRequests (events r) = []
  ∧ watermarkWrites (events r) = [] ∧ storeSets (events r) = []
  ∧ markedKeys (events r) = []
  ∧ deliveryAttempts (events r) = [] ∧ deliveredIDs (events r) = []
  ∧ cityReports (events r) = [].
Proof.
  unfold drupal.getCSRFToken. crunch; repeat split; try done; lia.
Qed.

Ltac use_csrf :=
  match goal with
  | H : drupal.getCSRFToken ?l ?e ?c ?st = _ |- _ =>
      let F := fresh "F" in
      pose proof (getCSRFToken_run c st) as F; cbv zeta in F;
      rewrite H in F; unfold result, final, events in F; cbn in F;
      destruct F as (? & ? & ? & ? & ? & ? & ? & ? & ? & ? & ? & ? & ?)
  end.

Lemma PostArticle_run (c : drupal.Client) (req : drupal.ArticleRequest) (st : State) :
  let r := drupal.PostArticle lib json env c req st in
  redis (final r) = redis st
  ∧ lastCheckTS (final r) = lastCheckTS st
  ∧ (tick st <= tick (final r))%nat
  ∧ mainSearches (events r) = [] ∧ probeSearches (events r) = []
  ∧ waitErrors (events r) = []
  ∧ watermarkWrites (events r) = [] ∧ storeSets (events r) = []
  ∧ markedKeys (events r) = []
  ∧ deliveryAttempts (events r) = [] ∧ deliveredIDs (events r) = []
  ∧ cityReports (events r) = [].
Proof.
  unfold drupal.PostArticle. crunch.
  all: try use_csrf.
  all: repeat split; try done; try lia; try congruence; try proj_solve.
Qed.

Lemma baseHeaders_no_token (c : drupal.Client) :
  http.Get (baseHeaders lib c) "X-CSRF-Token" = None.
Proof.
  unfold baseHeaders, drupal.setAuth.
  destruct (nonEmpty (drupal.username c)), (nonEmpty (drupal.authMethod c));
    reflexivity.
Qed.

Lemma Set_Get (h : list (string * string)) (k v : string) :
  http.Get (http.Set_ h k v) k = Some v.
Proof.
  unfold http.Get, http.Set_.
  induction h as [|[k' v'] h IH]; cbn.
  - by rewrite String.eqb_refl.
  - destruct (String.eqb k' k) eqn:E; cbn; [done|]. by rewrite E.
Qed.

(** Every run of [PostArticle] either stops before the creation request
    exists (the payload could not be encoded or the request could not be
    built), or sends exactly one creation request and returns what the answer
    to it dictates. *)
Lemma PostArticle_creation (c : drupal.Client) (req : drupal.ArticleRequest)
    (st : State) :
  let r := drupal.PostArticle lib json env c req st in
  let endpoint := drupal.endpointURL (drupal.baseURL c) (drupal.ContentType req) in
  match drupal.Marshal json (drupal.toDrupalArticle req),
        newRequestErr lib "POST" endpoint with
  | Ok payload, None =>
      ∃ resp,
        let q := {| http.Method := "POST"; http.URL := endpoint;
                    http.Header :=
                      match result (drupal.getCSRFToken lib env c (bump st)) with
                      | Ok csrfToken =>
                          http.Set_ (baseHeaders lib c) "X-CSRF-Token" csrfToken
                      | Err _ => baseHeaders lib c
                      end;
                    http.Body := Some payload |} in
        creationRequests (events r) = [q]
        ∧ In (EvHTTP q resp) (events r)
        ∧ result r = drupal.outcome json resp
  | _, _ => creationRequests (events r) = [] ∧ is_Some (result r)
  end.
Proof.
  unfold drupal.PostArticle. cbv zeta.
  destruct (drupal.Marshal json _) as [payload|e] eqn:HM;
    [destruct (newRequestErr lib _ _) as [e|] eqn:HN|].
  - crunch. split; [done | by eexists].
  - unfold drupal.outcome, baseHeaders. crunch.
    all: try use_csrf.
    all: eexists; split; [proj_solve|]; split; [find_in|].
    all: rewrite_cases; done.
  - crunch. split; [done | by eexists].
Qed.

(** C8. [PostArticle] calls [getCSRFToken] once the payload is encoded and
    the creation request is built, one clock reading after it started (in
    the state [bump st]). If that call fails, [PostArticle] still sends the
    creation request, to the same endpoint with the same payload and without
    an [X-CSRF-Token] header, and returns exactly what the answer to that
    request dictates ([drupal.outcome], a function of the answer alone): in
    particular nil when the answer is a success with a well-formed body. *)
Theorem C8_token_fetch_is_best_effort
    (c : drupal.Client) (req : drupal.ArticleRequest) (st : State)
    (payload : string) (err : error) :
  let endpoint := drupal.endpointURL (drupal.baseURL c) (drupal.ContentType req) in
  let r := drupal.PostArticle lib json env c req st in
  drupal.Marshal json (drupal.toDrupalArticle req) = Ok payload →
  newRequestErr lib "POST" endpoint = None →
  result (drupal.getCSRFToken lib env c (bump st)) = Err err →
  ∃ q resp,
    creationRequests (events r) = [q]
    ∧ In (EvHTTP q resp) (events r)
    ∧ http.URL q = endpoint
    ∧ http.Body q = Some payload
    ∧ http.Get (http.Header q) "X-CSRF-Token" = None
    ∧ result r = drupal.outcome json resp
    ∧ (∀ answer document,
         resp = Ok answer → http.StatusCode answer < 400 →
         drupal.decodeBody json (http.RespBody answer) = Ok document →
         result r = None).
Proof.
  intros endpoint r HM HN Hcsrf. subst endpoint r.
  pose proof (PostArticle_creation c req st) as H. cbv zeta in H.
  rewrite HM, HN, Hcsrf in H.
  destruct H as [resp (Hq & Hin & Hres)].
  eexists _, resp. split; [exact Hq|]. split; [exact Hin|].
  split; [reflexivity|]. split; [reflexivity|].
  split; [apply baseHeaders_no_token|]. split; [exact Hres|].
  intros answer document -> Hcode Hdoc. rewrite Hres. cbn.
  destruct (Z.leb_spec 400 (http.StatusCode answer)); [lia|].
  by rewrite Hdoc.
Qed.

(** C9. For a content-type label other than "node--article", the creation
    request goes to the path "/jsonapi/node/" followed by the label as it
    is: the first five bytes of a label never equal the six bytes "node--",
    so the prefix is never removed. *)
Theorem C9_endpoint_keeps_label
    (c : drupal.Client) (req : drupal.ArticleRequest) (st : State) :
  drupal.ContentType req ≠ "node--article" →
  String.eqb (sliceTo 5 (drupal.ContentType req)) "node--" = false
  ∧ drupal.endpointURL (drupal.baseURL c) (drupal.ContentType req)
    = drupal.baseURL c +:+ "/jsonapi/node/" +:+ drupal.ContentType req
  ∧ ∀ q, In q (creationRequests (events (drupal.PostArticle lib json env c req st))) →
         http.URL q
         = drupal.baseURL c +:+ "/jsonapi/node/" +:+ drupal.ContentType req.
Proof.
  intros Hne. split; [apply sliceTo_5_never_node|].
  split; [by apply endpointURL_other|].
  intros q Hq. pose proof (PostArticle_creation c req st) as H. cbv zeta in H.
  destruct (drupal.Marshal json _); [destruct (newRequestErr lib _ _)|].
  - destruct H as [H _]. rewrite H in Hq. destruct Hq.
  - destruct H as [resp (H & _ & _)]. rewrite H in Hq.
    destruct Hq as [<-|[]]. cbn. by apply endpointURL_other.
  - destruct H as [H _]. rewrite H in Hq. destruct Hq.
Qed.

End Publisher.

(** ** The source query *)

Section Source.
Variable lib : Lib.
Variable codec : integration.Codec.
Variable env : Env.

Lemma FindCrimeArticles_run (s : integration.Service) (city : config.CityConfig)
    (st : State) :
  let r := integration.FindCrimeArticles lib codec env s city st in
  redis (final r) = redis st
  ∧ lastCheckTS (final r) = lastCheckTS st
  ∧ (tick st <= tick (final r))%nat
  ∧ mainSearches (events r) = [(integration.indexFor city, expectedMust lib s st)]
  ∧ waitErrors (events r) = [] ∧ httpRequests (events r) = []
  ∧ watermarkWrites (events r) = [] ∧ storeSets (events r) = []
  ∧ markedKeys (events r) = []
  ∧ deliveryAttempts (events r) = [] ∧ deliveredIDs (events r) = []
  ∧ cityReports (events r) = [].
Proof.
  unfold integration.FindCrimeArticles, integration.getLastCheckTS,
    expectedMust, integration.decodeWith.
  crunch.
  all: simplify_eq/=.
  all: repeat split; try done; try lia; try congruence; try proj_solve.
Qed.

(** What [FindCrimeArticles] returns is a function of the answer to the
    filtered query, and the probe is sent in one situation only. *)
Lemma FindCrimeArticles_answer (s : integration.Service) (city : config.CityConfig)
    (st : State) :
  let r := integration.FindCrimeArticles lib codec env s city st in
  let answer := es_search env (tick st) (integration.indexFor city)
                  (filteredQuery lib s st) in
  result r = searchAnswer codec answer
  ∧ (probeSearches (events r) = []
     ∨ probeSearches (events r) = [integration.indexFor city]
       ∧ config.CrimeKeywords (config.Service (integration.config s)) ≠ []
       ∧ ∃ res found,
           answer = Ok res ∧ esapi.IsError res = false
           ∧ integration.decodeWith (integration.DecodeResult codec)
               (esapi.Body res) = Ok found
           ∧ integration.Total found = 0).
Proof.
  unfold integration.FindCrimeArticles, integration.getLastCheckTS,
    filteredQuery, expectedMust, searchAnswer, integration.decodeWith.
  crunch.
  all: simplify_eq/=.
  all: split; [rewrite_cases; done|].
  all: try (left; proj_solve).
  all: right; split; [proj_solve|].
  all: split; [intros Hnil; rewrite Hnil in *; cbn in *;
               rewrite ?andb_false_r in *; done|].
  all: eexists _, _; split; [reflexivity|]; split; [done|].
  all: rewrite_cases; split; [eassumption|].
  all: match goal with
       | H : (_ && _) = true |- _ => apply andb_true_iff in H as [H _]
       end; lia.
Qed.

Lemma setDefaults_keeps_lookback (sc : config.ServiceConfig) :
  config.LookbackHours (config.setDefaults sc) = config.LookbackHours sc.
Proof. reflexivity. Qed.

(** C6. The filtered query carries the clause "published_date >= the
    watermark" exactly when the configured lookback is positive; otherwise
    its only clause is the keyword match, so no date restricts the search. *)
Theorem C6_date_filter_iff_positive_lookback
    (s : integration.Service) (city : config.CityConfig) (st : State) :
  let lookback := config.LookbackHours (config.Service (integration.config s)) in
  let keywords := config.CrimeKeywords (config.Service (integration.config s)) in
  let watermark := Range "published_date" (formatRFC3339 lib (lastCheckTS st)) in
  let keywordMatch :=
    MultiMatch (Join keywords " ") ["title^2"; "body"] "best_fields" "or" in
  ∃ must,
    mainSearches (events (integration.FindCrimeArticles lib codec env s city st))
    = [(integration.indexFor city, must)]
    ∧ must = (if 0 <? lookback then [watermark; keywordMatch] else [keywordMatch])
    ∧ (In watermark must ↔ 0 < lookback)
    ∧ ((∃ field gte, In (Range field gte) must) ↔ 0 < lookback).
Proof.
  intros lookback keywords watermark keywordMatch.
  destruct (FindCrimeArticles_run s city st) as (_ & _ & _ & Hmain & _).
  eexists. split; [exact Hmain|].
  unfold expectedMust, integration.mustClauses. fold lookback keywords.
  destruct (Z.ltb_spec 0 lookback) as [Hpos|Hnon]; cbn.
  - split; [reflexivity|]. split; [tauto|]. split; [done|].
    intros _. exists "published_date", (formatRFC3339 lib (lastCheckTS st)).
    by left.
  - split; [reflexivity|]. split.
    + split; [intros [H|[]]; discriminate | lia].
    + split; [intros (f & g & [H|[]]); discriminate | lia].
Qed.

End Source.

(** ** The orchestrator *)

Ltac proj_simpl :=
  proj_unfold;
  repeat first
    [ rewrite omap_app
    | rewrite List.filter_app
    | match goal with H : omap _ _ = _ |- _ => rewrite H end
    | match goal with H : List.filter _ _ = _ |- _ => rewrite H end
    | progress cbn ].

Section Orchestrator.
Variable lib : Lib.
Variable json : drupal.JSON.
Variable codec : integration.Codec.
Variable env : Env.

Local Arguments dedup.HasPosted : simpl never.
Local Arguments dedup.MarkPosted : simpl never.
Local Arguments drupal.PostArticle : simpl never.
Local Arguments integration.FindCrimeArticles : simpl never.
Local Arguments integration.isCrimeRelated : simpl never.

Ltac use_runs :=
  repeat match goal with
  | H : dedup.HasPosted ?e ?t ?id ?st = _ |- _ =>
      let F := fresh "F" in
      pose proof (HasPosted_run e t id st) as F; cbv zeta in F;
      rewrite H in F; unfold result, final, events in F; cbn in F;
      destruct F as (? & ? & ? & ? & ? & ? & ? & ? & ? & ? & ? & ?); clear H
  | H : dedup.MarkPosted ?e ?t ?id ?st = _ |- _ =>
      let F := fresh "F" in
      pose proof (MarkPosted_run e t id st) as F; cbv zeta in F;
      rewrite H in F; unfold result, final, events in F; cbn in F;
      destruct F as (? & ? & ? & ? & ? & ? & ? & ? & ? & ? & ? & ? & ? & ?);
      clear H
  | H : drupal.PostArticle ?l ?j ?e ?c ?req ?st = _ |- _ =>
      let F := fresh "F" in
      pose proof (PostArticle_run l j e c req st) as F; cbv zeta in F;
      rewrite H in F; unfold result, final, events in F; cbn in F;
      destruct F as (? & ? & ? & ? & ? & ? & ? & ? & ? & ? & ? & ?); clear H
  end.

Ltac store_keys :=
  try (intros k; proj_simpl); intros;
  repeat match goal with H : redis _ = _ |- _ => rewrite H in *; clear H end;
  repeat match goal with
         | |- context [redis_fault ?e ?n] => destruct (redis_fault e n)
         end;
  simplify_eq/=; try done;
  repeat match goal with
         | H : In _ [] |- _ => destruct H
         | H : In _ [_] |- _ => destruct H as [<-|[]]
         | H : False |- _ => destruct H
         | H : _ = _ ∨ False |- _ => destruct H as [<-|[]]
         end;
  try (rewrite lookup_insert_is_Some;
       match goal with
       | |- ?i = ?j ∨ _ => destruct (decide (i = j)); [by left | by right]
       end).

Lemma processArticle_frame (s : integration.Service) (city : config.CityConfig)
    (a : integration.Article) (c : integration.Counters) (st : State) :
  let r := integration.processArticle lib json env s city a c st in
  lastCheckTS (final r) = lastCheckTS st
  ∧ (tick st <= tick (final r))%nat
  ∧ keepsKeys st (final r)
  ∧ mainSearches (events r) = [] ∧ probeSearches (events r) = []
  ∧ watermarkWrites (events r) = [] ∧ cityReports (events r) = []
  ∧ (∀ k, In k (markedKeys (events r)) → is_Some (redis (final r) !! k)).
Proof.
  unfold integration.processArticle. crunch.
  all: use_runs.
  all: simplify_eq/=.
  all: unfold keepsKeys.
  all: repeat split; try done; try lia; try congruence;
    try (proj_simpl; done).
  all: store_keys.
Qed.

Lemma processArticle_flow (s : integration.Service) (city : config.CityConfig)
    (a : integration.Article) (c : integration.Counters) (st : State) :
  let r := integration.processArticle lib json env s city a c st in
  match result r with
  | integration.Continue c' =>
      waitErrors (events r) = [] ∧ accounted c' = accounted c + 1
  | integration.Return e =>
      ∃ e0, waitErrors (events r) = [e0]
            ∧ e = Wrapf "rate limit wait: %w" [] e0
  end.
Proof.
  unfold integration.processArticle, accounted. crunch.
  all: use_runs.
  all: simplify_eq/=.
  all: try (eexists; split; [proj_simpl|]; reflexivity).
  all: split; [proj_simpl; done | lia].
Qed.

Lemma processArticle_attempts (s : integration.Service) (city : config.CityConfig)
    (a : integration.Article) (c : integration.Counters) (st : State) :
  let r := integration.processArticle lib json env s city a c st in
  (∀ id, In id (deliveryAttempts (events r)) → id = integration.ID a)
  ∧ (∀ id, In id (deliveredIDs (events r)) → id = integration.ID a).
Proof.
  unfold integration.processArticle. crunch.
  all: use_runs.
  all: simplify_eq/=.
  all: split; intros id; proj_simpl.
  all: first [intros [<-|[]]; done | intros []].
Qed.

Lemma processArticle_skip (s : integration.Service) (city : config.CityConfig)
    (a : integration.Article) (c : integration.Counters) (st : State) :
  let r := integration.processArticle lib json env s city a c st in
  integration.isCrimeRelated lib s a = false
  ∨ (redis_fault env (tick st) = None
     ∧ is_Some (redis st !! dedup.key (integration.ID a))) →
  result r = integration.Continue (integration.incSkipped c)
  ∧ httpRequests (events r) = [] ∧ deliveryAttempts (events r) = []
  ∧ waitErrors (events r) = [] ∧ markedKeys (events r) = [].
Proof.
  intros r Hskip. subst r. unfold integration.processArticle.
  destruct (integration.isCrimeRelated lib s a) eqn:Hrel; cbn.
  - destruct Hskip as [?|[Hfault Hkey]]; [done|].
    pose proof (HasPosted_run env (integration.dedup s) (integration.ID a) st)
      as F.
    cbv zeta in F. rewrite Hfault, bool_decide_eq_true_2 in F by done.
    rewrite bind_run.
    destruct F as (_ & -> & ? & ? & ? & ? & ? & ? & ? & ? & ? & ?).
    cbn. repeat split; proj_simpl; rewrite ?app_nil_r; try done.
    all: proj_unfold; congruence.
  - by crunch.
Qed.

(** The same, when the existence check of the iteration was answered. *)
Lemma processArticle_skip_answered (s : integration.Service)
    (city : config.CityConfig) (a : integration.Article)
    (c : integration.Counters) (st : State) :
  let r := integration.processArticle lib json env s city a c st in
  failedChecks (events r) = [] →
  (integration.isCrimeRelated lib s a = true →
   is_Some (redis st !! dedup.key (integration.ID a))) →
  result r = integration.Continue (integration.incSkipped c)
  ∧ httpRequests (events r) = [] ∧ deliveryAttempts (events r) = []
  ∧ waitErrors (events r) = [] ∧ markedKeys (events r) = [].
Proof.
  intros r Hchecks Hkey. subst r. apply processArticle_skip.
  destruct (integration.isCrimeRelated lib s a) eqn:Hrel; [right | by left].
  split; [|by apply Hkey].
  revert Hchecks. unfold integration.processArticle. rewrite Hrel. cbn [negb].
  rewrite bind_run. cbn [events snd]. unfold failedChecks. rewrite omap_app.
  intros [Hhead _]%app_eq_nil.
  pose proof (HasPosted_answered env (integration.dedup s) (integration.ID a) st)
    as F.
  unfold failedChecks in F. rewrite Hhead in F.
  by destruct (redis_fault env (tick st)).
Qed.

Lemma rangeArticles_cons (s : integration.Service) (city : config.CityConfig)
    (a : integration.Article) (rest : list integration.Article)
    (c : integration.Counters) (st : State) :
  integration.rangeArticles lib json env s city (a :: rest) c st =
  let h := integration.processArticle lib json env s city a c st in
  match result h with
  | integration.Continue c' =>
      let t := integration.rangeArticles lib json env s city rest c' (final h) in
      (result t, final t, events h ++ events t)
  | integration.Return err => (Err err, final h, events h ++ [])
  end.
Proof.
  cbn [integration.rangeArticles]. rewrite bind_run. cbv zeta.
  by destruct (result (integration.processArticle lib json env s city a c st)).
Qed.

Lemma keepsKeys_trans (st1 st2 st3 : State) :
  keepsKeys st1 st2 → keepsKeys st2 st3 → keepsKeys st1 st3.
Proof. unfold keepsKeys. auto. Qed.

Lemma rangeArticles_frame (s : integration.Service) (city : config.CityConfig)
    (arts : list integration.Article) (c : integration.Counters) (st : State) :
  let r := integration.rangeArticles lib json env s city arts c st in
  lastCheckTS (final r) = lastCheckTS st
  ∧ (tick st <= tick (final r))%nat
  ∧ keepsKeys st (final r)
  ∧ mainSearches (events r) = [] ∧ probeSearches (events r) = []
  ∧ watermarkWrites (events r) = [] ∧ cityReports (events r) = []
  ∧ (∀ k, In k (markedKeys (events r)) → is_Some (redis (final r) !! k)).
Proof.
  revert c st. induction arts as [|a rest IH]; intros c st.
  - cbn. unfold keepsKeys. repeat split; done.
  - cbv zeta. rewrite rangeArticles_cons. cbv zeta.
    destruct (processArticle_frame s city a c st)
      as (Hts & Htick & Hkeys & Hm & Hp & Hw & Hr & Hmark).
    destruct (result (integration.processArticle lib json env s city a c st))
      as [c'|err].
    + destruct (IH c' (final (integration.processArticle lib json env s city a c st)))
        as (Hts' & Htick' & Hkeys' & Hm' & Hp' & Hw' & Hr' & Hmark').
      cbn [result final events fst snd].
      split; [congruence|]. split; [lia|].
      split; [by eapply keepsKeys_trans|].
      proj_unfold. rewrite !omap_app, Hm, Hp, Hw, Hr, Hm', Hp', Hw', Hr'.
      repeat split; try done.
      intros k [Hk|Hk]%in_app_iff; [|by apply Hmark'].
      by apply Hkeys', Hmark.
    + cbn [result final events fst snd]. rewrite app_nil_r.
      repeat split; try done.
Qed.

Lemma rangeArticles_flow (s : integration.Service) (city : config.CityConfig)
    (arts : list integration.Article) (c : integration.Counters) (st : State) :
  let r := integration.rangeArticles lib json env s city arts c st in
  match result r with
  | Ok c' => waitErrors (events r) = []
             ∧ accounted c' = accounted c + Z.of_nat (length arts)
  | Err e => ∃ e0, waitErrors (events r) = [e0]
                   ∧ e = Wrapf "rate limit wait: %w" [] e0
  end.
Proof.
  revert c st. induction arts as [|a rest IH]; intros c st.
  - cbn. split; [done | lia].
  - cbv zeta. rewrite rangeArticles_cons. cbv zeta.
    pose proof (processArticle_flow s city a c st) as Hflow. cbv zeta in Hflow.
    destruct (result (integration.processArticle _ _ _ _ _ _ _ _)) as [c'|err].
    + destruct Hflow as [Hw Hacc].
      specialize (IH c' (final (integration.processArticle lib json env s city a c st))).
      cbv zeta in IH. cbn [result final events fst snd].
      destruct (result (integration.rangeArticles _ _ _ _ _ _ _ _)) as [c''|e].
      * destruct IH as [Hw' Hacc']. unfold waitErrors in *.
        rewrite omap_app, Hw, Hw'. split; [done|].
        rewrite Hacc', Hacc. cbn [length]. lia.
      * destruct IH as (e0 & Hw' & ->). exists e0. unfold waitErrors in *.
        by rewrite omap_app, Hw, Hw'.
    + destruct Hflow as (e0 & Hw & ->). exists e0.
      cbn [result final events fst snd]. by rewrite app_nil_r.
Qed.

(** With the store answering, an identifier whose key is in the store is
    not delivered again. *)
Lemma rangeArticles_no_redelivery (s : integration.Service)
    (city : config.CityConfig) (arts : list integration.Article)
    (c : integration.Counters) (st : State) (id : string) :
  failedChecks (events (integration.rangeArticles lib json env s city arts c st))
  = [] →
  is_Some (redis st !! dedup.key id) →
  ¬ In id (deliveryAttempts
             (events (integration.rangeArticles lib json env s city arts c st))).
Proof.
  revert c st. induction arts as [|a rest IH]; intros c st Hchecks Hkey.
  - cbn. tauto.
  - revert Hchecks. rewrite rangeArticles_cons. cbv zeta.
    destruct (processArticle_frame s city a c st)
      as (_ & _ & Hkeys & _).
    destruct (processArticle_attempts s city a c st) as [Hatt _].
    assert (failedChecks
              (events (integration.processArticle lib json env s city a c st))
            = [] →
            ¬ In id (deliveryAttempts
                       (events (integration.processArticle lib json env s city a c st))))
      as Hhead.
    { intros Hc Hin. pose proof (Hatt _ Hin) as ->.
      destruct (processArticle_skip_answered s city a c st Hc)
        as (_ & _ & Hnone & _); [done|].
      rewrite Hnone in Hin. destruct Hin. }
    destruct (result (integration.processArticle lib json env s city a c st))
      as [c'|err]; cbn [result final events fst snd];
      unfold failedChecks, deliveryAttempts in *; rewrite !omap_app;
      intros [Hc Hc']%app_eq_nil.
    + intros [Hin|Hin]%in_app_iff; [by apply Hhead|].
      eapply IH; [exact Hc' | by apply Hkeys | exact Hin].
    + rewrite app_nil_r. by apply Hhead.
Qed.

(** With every existence check answered and every relevant article already
    in the store, the loop skips every article and calls nothing but the
    store. *)
Lemma rangeArticles_all_skipped (s : integration.Service)
    (city : config.CityConfig) (arts : list integration.Article)
    (c : integration.Counters) (st : State) :
  failedChecks (events (integration.rangeArticles lib json env s city arts c st))
  = [] →
  (∀ a, In a arts → integration.isCrimeRelated lib s a = true →
        is_Some (redis st !! dedup.key (integration.ID a))) →
  let r := integration.rangeArticles lib json env s city arts c st in
  result r = Ok {| integration.posted := integration.posted c;
                   integration.skipped := integration.skipped c
                                          + Z.of_nat (length arts);
                   integration.errors := integration.errors c |}
  ∧ httpRequests (events r) = [] ∧ deliveryAttempts (events r) = []
  ∧ waitErrors (events r) = [] ∧ markedKeys (events r) = [].
Proof.
  revert c st. induction arts as [|a rest IH]; intros c st Hchecks Hall.
  - cbn. rewrite Z.add_0_r. by destruct c.
  - cbv zeta. revert Hchecks. rewrite rangeArticles_cons. cbv zeta.
    destruct (processArticle_frame s city a c st)
      as (_ & _ & Hkeys & _).
    pose proof (processArticle_skip_answered s city a c st) as Hskip.
    cbv zeta in Hskip.
    destruct (result (integration.processArticle lib json env s city a c st))
      as [c'|err] eqn:Hflow; cbn [result final events fst snd];
      unfold failedChecks; rewrite omap_app; intros [Hc Hc']%app_eq_nil.
    + destruct (Hskip Hc) as (Hres & Hh & Ha & Hw & Hm).
      { intros Hrel. apply Hall; [by left | done]. }
      injection Hres as ->.
      destruct (IH (integration.incSkipped c)
                   (final (integration.processArticle lib json env s city a c st)))
        as (Hres' & Hh' & Ha' & Hw' & Hm').
      { exact Hc'. }
      { intros a' Hin Hrel. apply Hkeys. apply Hall; [by right | done]. }
      rewrite Hres'.
      proj_unfold. rewrite !omap_app, Hh, Ha, Hw, Hm, Hh', Ha', Hw', Hm'.
      repeat split; try done. cbn. f_equal. f_equal. lia.
    + destruct (Hskip Hc) as (Hres & _).
      { intros Hrel. apply Hall; [by left | done]. }
      discriminate.
Qed.

Lemma ProcessCity_run (s : integration.Service) (city : config.CityConfig)
    (st : State) :
  integration.ProcessCity lib json codec env s city st =
  let f := integration.FindCrimeArticles lib codec env s city st in
  match result f with
  | Err err => (Some (Wrapf "find articles: %w" [] err), final f, events f)
  | Ok arts =>
      let l := integration.rangeArticles lib json env s city arts noCounts
                 (final f) in
      match result l with
      | Err err => (Some err, final l, events f ++ events l)
      | Ok c => (None, final l,
                 events f ++ events l ++ [cityReportEntry city c])
      end
  end.
Proof.
  unfold integration.ProcessCity. rewrite bind_run. cbv zeta.
  destruct (result (integration.FindCrimeArticles lib codec env s city st))
    as [arts|err].
  - rewrite bind_run.
    destruct (result (integration.rangeArticles _ _ _ _ _ _ _ _)) as [c|err];
      cbn; by rewrite ?app_nil_r.
  - cbn. by rewrite app_nil_r.
Qed.

Lemma cityReport_entry (city : config.CityConfig) (c : integration.Counters) :
  cityReport (cityReportEntry city c) = Some c.
Proof. by destruct c. Qed.

Lemma ProcessCity_frame (s : integration.Service) (city : config.CityConfig)
    (st : State) :
  let r := integration.ProcessCity lib json codec env s city st in
  lastCheckTS (final r) = lastCheckTS st
  ∧ (tick st <= tick (final r))%nat
  ∧ keepsKeys st (final r)
  ∧ mainSearches (events r) = [(integration.indexFor city, expectedMust lib s st)]
  ∧ watermarkWrites (events r) = []
  ∧ (∀ k, In k (markedKeys (events r)) → is_Some (redis (final r) !! k)).
Proof.
  cbv zeta. rewrite ProcessCity_run. cbv zeta.
  destruct (FindCrimeArticles_run lib codec env s city st)
    as (Hredis & Hts & Htick & Hmain & _ & _ & Hw & _ & Hmark & _).
  destruct (result (integration.FindCrimeArticles lib codec env s city st))
    as [arts|err]; cbn [result final events fst snd].
  - destruct (rangeArticles_frame s city arts noCounts
                (final (integration.FindCrimeArticles lib codec env s city st)))
      as (Hts' & Htick' & Hkeys' & Hm' & _ & Hw' & _ & Hmark').
    assert (keepsKeys st (final (integration.rangeArticles lib json env s city
              arts noCounts
              (final (integration.FindCrimeArticles lib codec env s city st)))))
      as Hk.
    { intros k Hk. apply Hkeys'. by rewrite Hredis. }
    destruct (result (integration.rangeArticles _ _ _ _ _ _ _ _)) as [c|err];
      cbn [result final events fst snd];
      (split; [congruence|]); (split; [lia|]); (split; [exact Hk|]);
      proj_unfold; rewrite ?omap_app, Hmain, Hw, Hm', Hw', Hmark;
      repeat split; try done; cbn [app omap list_omap cityReportEntry markedKey];
      rewrite ?app_nil_r; exact Hmark'.
  - unfold keepsKeys. rewrite Hredis, Hmark. repeat split; try done.
Qed.

(** C4. [ProcessCity] returns an error exactly when [FindCrimeArticles]
    returned one or a call of [limiter.Wait] did, and the error is that one,
    wrapped. Whatever else happens to the articles (rejected by the filter,
    found in the ledger, refused by the destination, not marked), the pass
    runs to its end, returns nil and reports counts that account for every
    article the source returned. *)
Theorem C4_ProcessCity_error_iff_fetch_or_wait
    (s : integration.Service) (city : config.CityConfig) (st : State) :
  let r := integration.ProcessCity lib json codec env s city st in
  let found := result (integration.FindCrimeArticles lib codec env s city st) in
  (is_Some (result r) ↔ is_err found = true ∨ waitErrors (events r) ≠ [])
  ∧ match result r with
    | Some e =>
        (∃ cause, found = Err cause ∧ waitErrors (events r) = []
                  ∧ e = Wrapf "find articles: %w" [] cause)
        ∨ (∃ arts cause, found = Ok arts ∧ waitErrors (events r) = [cause]
                         ∧ e = Wrapf "rate limit wait: %w" [] cause)
    | None =>
        ∃ arts c, found = Ok arts ∧ waitErrors (events r) = []
                  ∧ cityReports (events r) = [c]
                  ∧ accounted c = Z.of_nat (length arts)
    end.
Proof.
  cbv zeta. rewrite ProcessCity_run. cbv zeta.
  destruct (FindCrimeArticles_run lib codec env s city st)
    as (_ & _ & _ & _ & Hwf & _ & _ & _ & _ & _ & _ & Hrf).
  destruct (result (integration.FindCrimeArticles lib codec env s city st))
    as [arts|err]; cbn [result final events fst snd is_err].
  - pose proof (rangeArticles_flow s city arts noCounts
                  (final (integration.FindCrimeArticles lib codec env s city st)))
      as Hflow.
    destruct (rangeArticles_frame s city arts noCounts
                (final (integration.FindCrimeArticles lib codec env s city st)))
      as (_ & _ & _ & _ & _ & _ & Hrl & _).
    cbv zeta in Hflow.
    destruct (result (integration.rangeArticles _ _ _ _ _ _ _ _)) as [c|e];
      cbn [result final events fst snd].
    + destruct Hflow as [Hwl Hacc].
      assert (waitErrors (events (integration.FindCrimeArticles lib codec env s city st)
                ++ events (integration.rangeArticles lib json env s city arts noCounts
                     (final (integration.FindCrimeArticles lib codec env s city st)))
                ++ [cityReportEntry city c]) = []) as Hnone.
      { unfold waitErrors in *. by rewrite !omap_app, Hwf, Hwl. }
      rewrite Hnone. split.
      * split; [intros [? [=]] | intros [[=]|?]; done].
      * exists arts, c. split; [done|]. split; [done|]. split.
        -- unfold cityReports in *.
           rewrite !omap_app, Hrf, Hrl. cbn [omap list_omap app].
           by rewrite cityReport_entry.
        -- rewrite Hacc. unfold accounted, noCounts. cbn. lia.
    + destruct Hflow as (e0 & Hwl & ->).
      assert (waitErrors (events (integration.FindCrimeArticles lib codec env s city st)
                ++ events (integration.rangeArticles lib json env s city arts noCounts
                     (final (integration.FindCrimeArticles lib codec env s city st))))
              = [e0]) as Hone.
      { unfold waitErrors in *. by rewrite !omap_app, Hwf, Hwl. }
      rewrite Hone. split.
      * split; [intros _; by right | intros _; by eexists].
      * right. by exists arts, e0.
  - rewrite Hwf. split.
    + split; [intros _; by left | intros _; by eexists].
    + left. by exists err.
Qed.

Lemma ProcessCity_no_redelivery (s : integration.Service)
    (city : config.CityConfig) (st : State) (id : string) :
  failedChecks (events (integration.ProcessCity lib json codec env s city st))
  = [] →
  is_Some (redis st !! dedup.key id) →
  ¬ In id (deliveryAttempts
             (events (integration.ProcessCity lib json codec env s city st))).
Proof.
  rewrite ProcessCity_run. cbv zeta.
  destruct (FindCrimeArticles_run lib codec env s city st)
    as (Hredis & _ & _ & _ & _ & _ & _ & _ & _ & Hatt & _).
  destruct (result (integration.FindCrimeArticles lib codec env s city st))
    as [arts|err]; cbn [result final events fst snd].
  - pose proof (rangeArticles_no_redelivery s city arts noCounts
                  (final (integration.FindCrimeArticles lib codec env s city st))
                  id) as Hloop.
    rewrite Hredis in Hloop.
    unfold failedChecks, deliveryAttempts in *.
    destruct (result (integration.rangeArticles _ _ _ _ _ _ _ _)) as [c|e];
      cbn [result final events fst snd]; rewrite !omap_app, Hatt.
    + intros [_ [Hc _]%app_eq_nil]%app_eq_nil Hkey. cbn.
      rewrite app_nil_r. by apply Hloop.
    + intros [_ Hc]%app_eq_nil Hkey. cbn. by apply Hloop.
  - rewrite Hatt. cbn. tauto.
Qed.

Lemma ProcessCity_all_skipped (s : integration.Service)
    (city : config.CityConfig) (st : State) (arts : list integration.Article) :
  failedChecks (events (integration.ProcessCity lib json codec env s city st))
  = [] →
  result (integration.FindCrimeArticles lib codec env s city st) = Ok arts →
  (∀ a, In a arts → integration.isCrimeRelated lib s a = true →
        is_Some (redis st !! dedup.key (integration.ID a))) →
  let r := integration.ProcessCity lib json codec env s city st in
  result r = None
  ∧ httpRequests (events r) = []
  ∧ cityReports (events r)
    = [{| integration.posted := 0;
          integration.skipped := Z.of_nat (length arts);
          integration.errors := 0 |}].
Proof.
  intros Hchecks Hfound Hall. cbv zeta. revert Hchecks.
  rewrite ProcessCity_run. cbv zeta.
  destruct (FindCrimeArticles_run lib codec env s city st)
    as (Hredis & _ & _ & _ & _ & Hh & _ & _ & _ & _ & _ & Hr).
  rewrite Hfound.
  pose proof (rangeArticles_all_skipped s city arts noCounts
                (final (integration.FindCrimeArticles lib codec env s city st)))
    as Hloop. cbv zeta in Hloop.
  destruct (rangeArticles_frame s city arts noCounts
              (final (integration.FindCrimeArticles lib codec env s city st)))
    as (_ & _ & _ & _ & _ & _ & Hr' & _).
  assert (failedChecks
            (events (integration.rangeArticles lib json env s city arts noCounts
                       (final (integration.FindCrimeArticles lib codec env s city st))))
          = [] →
          result (integration.rangeArticles lib json env s city arts noCounts
                    (final (integration.FindCrimeArticles lib codec env s city st)))
          = Ok {| integration.posted := 0;
                  integration.skipped := Z.of_nat (length arts);
                  integration.errors := 0 |}
          ∧ httpRequests
              (events (integration.rangeArticles lib json env s city arts noCounts
                         (final (integration.FindCrimeArticles lib codec env s city st))))
            = []) as Hskip.
  { intros Hc. destruct (Hloop Hc) as (Hres & Hh' & _).
    - intros a Hin Hrel. rewrite Hredis. by apply Hall.
    - by split. }
  cbn [result final events fst snd].
  destruct (result (integration.rangeArticles _ _ _ _ _ _ _ _)) as [c|e];
    cbn [result final events fst snd]; unfold failedChecks in *;
    rewrite !omap_app.
  - intros [_ [Hc _]%app_eq_nil]%app_eq_nil.
    destruct (Hskip Hc) as [[= ->] Hh'].
    proj_unfold. rewrite !omap_app, Hh, Hh', Hr, Hr'. by cbn.
  - intros [_ Hc]%app_eq_nil. by destruct (Hskip Hc) as [[=] _].
Qed.

(** The loop over the tenants of [runOnce]. *)
Lemma rangeCities_run (s : integration.Service) (cities : list config.CityConfig)
    (st : State) :
  let r := integration.rangeCities lib json codec env s cities st in
  lastCheckTS (final r) = lastCheckTS st
  ∧ (tick st <= tick (final r))%nat
  ∧ keepsKeys st (final r)
  ∧ mainSearches (events r)
    = map (λ city, (integration.indexFor city, expectedMust lib s st)) cities
  ∧ watermarkWrites (events r) = [].
Proof.
  revert st. induction cities as [|city rest IH]; intros st.
  - cbn. unfold keepsKeys. repeat split; done.
  - cbv zeta. cbn [integration.rangeCities]. rewrite !bind_run.
    destruct (ProcessCity_frame s city st) as (Hts & Htick & Hkeys & Hm & Hw & _).
    set (p := integration.ProcessCity lib json codec env s city st) in *.
    assert (∀ o : option error,
              let m := match o with
                       | Some err =>
                           log ErrorLevel "Error processing city"
                             [FString "city" (config.Name city); FError err]
                       | None => ret tt
                       end (final p) in
              final m = final p ∧ mainSearches (events m) = []
              ∧ watermarkWrites (events m) = []) as Hlog.
    { by intros [err|]. }
    destruct (Hlog (result p)) as (Hf & Hm0 & Hw0). cbv zeta in *.
    cbn [result final events fst snd]. rewrite Hf.
    destruct (IH (final p)) as (Hts' & Htick' & Hkeys' & Hm' & Hw').
    split; [congruence|]. split; [lia|]. split; [by eapply keepsKeys_trans|].
    proj_unfold. rewrite !omap_app, Hm, Hw, Hm0, Hw0, Hm', Hw'.
    split; [|done]. cbn. unfold expectedMust. by rewrite Hts.
Qed.

Lemma runOnce_run (s : integration.Service) (st : State) :
  let r := integration.runOnce lib json codec env s st in
  let cities := config.Cities (integration.config s) in
  ∃ n before,
    (tick st <= n)%nat
    ∧ events r = before ++ [EvWriteLastCheck (clock env n);
                            EvLog InfoLevel "Article sync completed" []]
    ∧ mainSearches before
      = map (λ city, (integration.indexFor city, expectedMust lib s st)) cities
    ∧ watermarkWrites before = []
    ∧ lastCheckTS (final r) = clock env n
    ∧ tick (final r) = S n
    ∧ result r = None.
Proof.
  cbv zeta. unfold integration.runOnce.
  destruct (rangeCities_run s (config.Cities (integration.config s)) st)
    as (_ & Htick & _ & Hm & Hw).
  set (l := integration.rangeCities lib json codec env s
              (config.Cities (integration.config s)) st) in *.
  exists (tick (final l)),
         (EvLog InfoLevel "Starting article sync" [] :: events l).
  split; [done|].
  rewrite !bind_run. fold l. cbn.
  repeat split; done.
Qed.


Local Arguments integration.runOnce : simpl never.
Local Arguments integration.selectLoop : simpl never.

(** A cycle followed by the rest of the loop. *)
Lemma cycle_then {A} (s : integration.Service) (msg : string) (k : M A)
    (st : State) :
  let m := bind (integration.runOnce lib json codec env s)
             (λ err, bind (match err with
                           | Some err => log ErrorLevel msg [FError err]
                           | None => ret tt
                           end) (λ _, k)) in
  let st' := final (integration.runOnce lib json codec env s st) in
  ∃ n, (tick st <= n)%nat ∧ tick st' = S n
       ∧ result (m st) = result (k st')
       ∧ final (m st) = final (k st')
       ∧ watermarkWrites (events (m st))
         = clock env n :: watermarkWrites (events (k st'))
       ∧ map fst (mainSearches (events (m st)))
         = map integration.indexFor (config.Cities (integration.config s))
           ++ map fst (mainSearches (events (k st'))).
Proof.
  cbv zeta.
  destruct (runOnce_run s st)
    as (n & before & Hn & Hev & Hm & Hw & _ & Htick & Hres).
  exists n. split; [done|]. split; [done|].
  rewrite !bind_run, Hres, Hev. cbn [ret result final events fst snd].
  split; [done|]. split; [done|].
  proj_unfold. rewrite !omap_app, Hw, Hm. cbn.
  split; [done|]. rewrite app_nil_r, map_app. f_equal.
  rewrite map_map. by apply map_ext.
Qed.

Lemma selectLoop_S (s : integration.Service) (ctxErr : error) (ticks : nat) :
  integration.selectLoop lib json codec env s ctxErr (S ticks) =
  bind (integration.runOnce lib json codec env s)
    (λ err, bind (match err with
                  | Some err => log ErrorLevel "Run error" [FError err]
                  | None => ret tt
                  end)
              (λ _, integration.selectLoop lib json codec env s ctxErr ticks)).
Proof. reflexivity. Qed.


(** No cycle removes a key from the store. *)
Lemma selectLoop_keeps (s : integration.Service) (ctxErr : error) (ticks : nat)
    (st : State) :
  keepsKeys st
    (final (integration.selectLoop lib json codec env s ctxErr ticks st)).
Proof.
  revert st. induction ticks as [|ticks IH]; intros st.
  - cbn. by intros k.
  - rewrite selectLoop_S.
    destruct (cycle_then s "Run error"
                (integration.selectLoop lib json codec env s ctxErr ticks) st)
      as (n & _ & _ & _ & Hfin & _).
    cbv zeta in Hfin. rewrite Hfin.
    eapply keepsKeys_trans; [|apply IH].
    destruct (rangeCities_run s (config.Cities (integration.config s)) st)
      as (_ & _ & Hkeys & _).
    unfold integration.runOnce. rewrite !bind_run. cbn. exact Hkeys.
Qed.

(** [Run] when the ticker can be built, and when it cannot. *)
Lemma Run_unfold (s : integration.Service) (ctxErr : error) (ticks : nat) :
  0 < config.CheckInterval (config.Service (integration.config s)) →
  integration.Run lib json codec env s ctxErr ticks =
  bind (integration.runOnce lib json codec env s)
    (λ err, bind (match err with
                  | Some err => log ErrorLevel "Initial run error" [FError err]
                  | None => ret tt
                  end)
              (λ _, bind (integration.selectLoop lib json codec env s ctxErr ticks)
                      (λ e, ret (integration.Returned e)))).
Proof.
  intros Hpos. unfold integration.Run.
  by destruct (Z.leb_spec
                 (config.CheckInterval (config.Service (integration.config s))) 0);
    [lia|].
Qed.


Lemma returned_run (m : M error) (st : State) :
  bind m (λ e, ret (integration.Returned e)) st
  = (integration.Returned (result (m st)), final (m st), events (m st)).
Proof. rewrite bind_run. cbn. by rewrite app_nil_r. Qed.

(** A lifetime of [Run] with a positive interval: the first cycle, then one
    per tick, then [ctx.Err()]. *)
Lemma Run_run (s : integration.Service) (ctxErr : error) (ticks : nat)
    (st : State) :
  0 < config.CheckInterval (config.Service (integration.config s)) →
  let r := integration.Run lib json codec env s ctxErr ticks st in
  let rest := integration.selectLoop lib json codec env s ctxErr ticks
                (final (integration.runOnce lib json codec env s st)) in
  ∃ n, (tick st <= n)%nat
       ∧ tick (final (integration.runOnce lib json codec env s st)) = S n
       ∧ result r = integration.Returned (result rest)
       ∧ final r = final rest
       ∧ watermarkWrites (events r) = clock env n :: watermarkWrites (events rest)
       ∧ map fst (mainSearches (events r))
         = map integration.indexFor (config.Cities (integration.config s))
           ++ map fst (mainSearches (events rest)).
Proof.
  intros Hpos. cbv zeta. rewrite Run_unfold by done.
  destruct (cycle_then s "Initial run error"
              (bind (integration.selectLoop lib json codec env s ctxErr ticks)
                 (λ e, ret (integration.Returned e))) st)
    as (n & Hn & Htick & Hres & Hfin & Hw & Hm).
  cbv zeta in Hres, Hfin, Hw, Hm. rewrite returned_run in Hres, Hfin, Hw, Hm.
  exists n. by rewrite Hres, Hfin, Hw, Hm.
Qed.

End Orchestrator.

(** C10. What [FindCrimeArticles] returns depends on the answer to the
    filtered query alone: two worlds that give the same answer to it and
    differ in everything that follows, the probe's outcome included, yield
    the same articles and the same error. The probe is sent only when the
    filtered query was answered with a total of zero and the keyword list is
    not empty. *)
Theorem C10_probe_is_result_free
    (lib : Lib) (codec : integration.Codec) (env env' : Env)
    (s : integration.Service) (city : config.CityConfig) (st : State) :
  (∀ index q, es_search env' (tick st) index q = es_search env (tick st) index q) →
  let r := integration.FindCrimeArticles lib codec env s city st in
  let r' := integration.FindCrimeArticles lib codec env' s city st in
  result r' = result r
  ∧ result r = searchAnswer codec
                 (es_search env (tick st) (integration.indexFor city)
                    (filteredQuery lib s st))
  ∧ (probeSearches (events r) = []
     ∨ probeSearches (events r) = [integration.indexFor city]
       ∧ config.CrimeKeywords (config.Service (integration.config s)) ≠ []
       ∧ ∃ res found,
           es_search env (tick st) (integration.indexFor city)
             (filteredQuery lib s st) = Ok res
           ∧ esapi.IsError res = false
           ∧ integration.decodeWith (integration.DecodeResult codec)
               (esapi.Body res) = Ok found
           ∧ integration.Total found = 0).
Proof.
  intros Hsame r r'.
  destruct (FindCrimeArticles_answer lib codec env s city st) as [Hr Hprobe].
  destruct (FindCrimeArticles_answer lib codec env' s city st) as [Hr' _].
  split; [|split; [exact Hr | exact Hprobe]].
  subst r r'. rewrite Hr, Hr'. by rewrite Hsame.
Qed.

(** C10 at two worlds that differ in the probe's outcome only. *)
Lemma C10_witness :
  result (integration.FindCrimeArticles scenario.lib scenario.codec
            scenario.envEmptyProbeDown scenario.service scenario.sudbury
            scenario.st0)
  = result (integration.FindCrimeArticles scenario.lib scenario.codec
              scenario.envEmpty scenario.service scenario.sudbury scenario.st0).
Proof.
  refine (proj1 (C10_probe_is_result_free scenario.lib scenario.codec
                   scenario.envEmpty scenario.envEmptyProbeDown
                   scenario.service scenario.sudbury scenario.st0 _)).
  intros index q. reflexivity.
Defined.

(** ** The claims about the cycle *)

Section Cycle.
Variable lib : Lib.
Variable json : drupal.JSON.
Variable codec : integration.Codec.
Variable env : Env.


End Cycle.

(** ** The two runs of a tenant, and the scenarios *)

Import scenario.

(** C1, as amended. Run [ProcessCity] twice for a tenant. If every
    identifier delivered in the first run was stored in the ledger by a set
    command that succeeded, the ledger still holds those keys when the second
    run starts, and the ledger's existence check answers without error all
    through the second run, then the second run makes no delivery attempt
    for any of those identifiers. If moreover every relevant article the
    source returns to the second run was delivered in the first, the second
    run sends nothing to the destination, returns nil and reports posted 0,
    errors 0 and a skipped count equal to the number of articles returned:
    one for each, the previously posted ones included. *)
Theorem C1_no_redelivery_when_ledger_answers
    (lib : Lib) (json : drupal.JSON) (codec : integration.Codec)
    (env1 env2 : Env) (s : integration.Service) (city : config.CityConfig)
    (st1 st2 : State) :
  let first := integration.ProcessCity lib json codec env1 s city st1 in
  let second := integration.ProcessCity lib json codec env2 s city st2 in
  (∀ id, In id (deliveredIDs (events first)) →
         In (dedup.key id) (markedKeys (events first))) →
  (∀ id, In id (deliveredIDs (events first)) →
         is_Some (redis (final first) !! dedup.key id) →
         is_Some (redis st2 !! dedup.key id)) →
  failedChecks (events second) = [] →
  (∀ id, In id (deliveredIDs (events first)) →
         ¬ In id (deliveryAttempts (events second)))
  ∧ (∀ arts,
       result (integration.FindCrimeArticles lib codec env2 s city st2) = Ok arts →
       (∀ a, In a arts → integration.isCrimeRelated lib s a = true →
             In (integration.ID a) (deliveredIDs (events first))) →
       result second = None
       ∧ httpRequests (events second) = []
       ∧ cityReports (events second)
         = [{| integration.posted := 0;
               integration.skipped := Z.of_nat (length arts);
               integration.errors := 0 |}]).
Proof.
  intros first second Hmarked Hkept Hchecks.
  assert (∀ id, In id (deliveredIDs (events first)) →
                is_Some (redis st2 !! dedup.key id)) as Hkeys.
  { intros id Hin. apply Hkept; [done|].
    destruct (ProcessCity_frame lib json codec env1 s city st1)
      as (_ & _ & _ & _ & _ & Hstored).
    by apply Hstored, Hmarked. }
  split.
  - intros id Hin. apply ProcessCity_no_redelivery; [done|]. by apply Hkeys.
  - intros arts Hfound Hall.
    apply ProcessCity_all_skipped; [done..|].
    intros a Hin Hrel. apply Hkeys. by apply Hall.
Qed.

(** C1 as stated fails: the source returns the same list both times and
    "A", delivered in the first run, is in the ledger, but the ledger cannot
    be reached during the second run; [HasPosted] answers false and "A" is
    delivered again. *)
Lemma C1_counterexample :
  result (integration.FindCrimeArticles lib codec envStoreDown service sudbury
            (final firstRun))
  = result (integration.FindCrimeArticles lib codec env service sudbury st0)
  ∧ deliveredIDs (events firstRun) = ["A"]
  ∧ markedKeys (events firstRun) = [dedup.key "A"]
  ∧ redis (final firstRun) !! dedup.key "A" = Some ("1", 365 * 24 * Hour)
  ∧ deliveryAttempts (events secondRunStoreDown) = ["A"]
  ∧ length (creationRequests (events secondRunStoreDown)) = 1%nat.
Proof. vm_compute. repeat split; reflexivity. Qed.

(** The scenario's rerun: nothing is sent, and the report counts 2 skipped
    articles, "A" by the ledger and "B" by the filter. And a rerun in which
    the store answers the existence checks but not the set command for a
    new article: "A" is not delivered again. *)
Lemma C1_witness :
  ¬ In "A" (deliveryAttempts (events secondRun))
  ∧ result secondRun = None
  ∧ httpRequests (events secondRun) = []
  ∧ cityReports (events secondRun)
    = [{| integration.posted := 0; integration.skipped := 2;
          integration.errors := 0 |}]
  ∧ storeSets (events cases.rerunSetFails)
    = [(dedup.key "D", 365 * 24 * Hour)]
  ∧ markedKeys (events cases.rerunSetFails) = []
  ∧ ¬ In "A" (deliveryAttempts (events cases.rerunSetFails)).
Proof.
  destruct (C1_no_redelivery_when_ledger_answers lib json codec env env
              service sudbury st0 (final firstRun)) as [Hnone Hall].
  - intros id Hin. vm_compute in Hin. destruct Hin as [<-|[]].
    vm_compute. by left.
  - by intros id _ Hkey.
  - reflexivity.
  - destruct (C1_no_redelivery_when_ledger_answers lib json cases.codecD env
                cases.envSetFails service sudbury st0 (final cases.firstRunD))
      as [Hnone' _].
    + intros id Hin. vm_compute in Hin. destruct Hin as [<-|[]].
      vm_compute. by left.
    + by intros id _ Hkey.
    + reflexivity.
    + split; [apply Hnone; vm_compute; by left|].
      destruct (Hall [A; B]) as (Hres & Hreq & Hrep); [reflexivity| |].
      * intros a [<-|[<-|[]]] Hrel; [vm_compute; by left | discriminate].
      * split; [exact Hres|]. split; [exact Hreq|]. split; [exact Hrep|].
        split; [reflexivity|]. split; [reflexivity|].
        apply Hnone'. vm_compute. by left.
Defined.

(** Whatever the configuration, the tracker of a service sets keys with one
    year. *)
Lemma NewService_ttl (codec : integration.Codec) (env : Env)
    (cfg : config.Config) (st : State) (s : integration.Service) :
  result (integration.NewService codec env cfg st) = Ok s →
  dedup.ttl (integration.dedup s) = 365 * 24 * Hour.
Proof.
  unfold integration.NewService, drupal.legacy.NewClient. crunch.
  all: intros [= <-]; reflexivity.
Qed.

(** C7 at a failing input. A configuration file that sets the
    duplicate-record time-to-live to one hour loads and validates; the
    tracker the service builds from it still sets keys with 8760 hours. *)
Lemma C7_configured_ttl_is_not_used :
  config.Load lib readFile yamlUnmarshal getenv "config.yml" = Ok shortTTL
  ∧ config.DedupTTL (config.Service shortTTL) = 1 * Hour
  ∧ ∃ s, result (integration.NewService codec env shortTTL st0) = Ok s
         ∧ dedup.ttl (integration.dedup s) = 8760 * Hour
         ∧ storeSets (events (dedup.MarkPosted env (integration.dedup s) "A" st0))
           = [(dedup.key "A", 8760 * Hour)].
Proof.
  split; [reflexivity|]. split; [reflexivity|].
  eexists. split; [reflexivity|]. split; reflexivity.
Qed.


(** The specification's failure-isolation test: the second of three
    tenants fails to fetch; the first and the third are processed in full
    and report, and the watermark is written. *)
Lemma failure_isolation_scenario :
  let r := integration.runOnce lib json codec envSecondFails threeCities st0 in
  result r = None
  ∧ map fst (mainSearches (events r))
    = ["sudbury_articles"; "timmins_articles"; "nb_news"]
  ∧ cityReports (events r)
    = [{| integration.posted := 1; integration.skipped := 1;
          integration.errors := 0 |};
       {| integration.posted := 0; integration.skipped := 2;
          integration.errors := 0 |}]
  ∧ length (watermarkWrites (events r)) = 1%nat
  ∧ lastCheckTS (final r) = clock envSecondFails (tick (final r) - 1).
Proof. vm_compute. repeat split; reflexivity. Qed.

(** C5 with no keyword configured. *)
Lemma C5_witness :
  integration.isCrimeRelated lib
    (serviceWith (configured [] 24 0 "node--article")) A = false.
Proof.
  exact (proj2 (C5_isCrimeRelated_iff_keyword_occurs lib
                  (serviceWith (configured [] 24 0 "node--article")) A)
               eq_refl).
Defined.

(** C8 at a world whose token endpoint answers 403: the article is created
    all the same. *)
Lemma C8_witness :
  ∃ q resp,
    creationRequests
      (events (drupal.PostArticle lib json envNoToken client articleRequest st0))
    = [q]
    ∧ In (EvHTTP q resp)
         (events (drupal.PostArticle lib json envNoToken client articleRequest st0))
    ∧ http.Get (http.Header q) "X-CSRF-Token" = None
    ∧ result (drupal.PostArticle lib json envNoToken client articleRequest st0)
      = None.
Proof.
  destruct (C8_token_fetch_is_best_effort lib json envNoToken client
              articleRequest st0 "Police arrest suspect downtown"
              (Errorf "CSRF token request failed: %d %s"
                 [AInt 403; AStr "403 Forbidden"])
              eq_refl eq_refl eq_refl)
    as (q & resp & Hq & Hin & _ & _ & Hhdr & _ & _).
  exists q, resp. repeat split; try done.
Defined.

(** C9 at the label "node--news". *)
Lemma C9_witness :
  drupal.endpointURL "https://cms.example" "node--news"
  = "https://cms.example/jsonapi/node/node--news".
Proof.
  refine (proj1 (proj2 (C9_endpoint_keeps_label lib json env client
                          newsRequest st0 _))).
  discriminate.
Defined.

(** * Further facts *)

(** ** The ledger: marking, clearing, checking *)

Lemma key_inj (a b : string) : dedup.key a = dedup.key b → a = b.
Proof. unfold dedup.key. cbn. by intros [=]. Qed.

Section LedgerMore.
Variable env : Env.

Lemma Clear_run (t : dedup.Tracker) (id : string) (st : State) :
  let r := dedup.Clear env t id st in
  result r = redis_fault env (tick st)
  ∧ tick (final r) = S (tick st)
  ∧ lastCheckTS (final r) = lastCheckTS st
  ∧ redis (final r) = match redis_fault env (tick st) with
                      | Some _ => redis st
                      | None => delete (dedup.key id) (redis st)
                      end.
Proof. unfold dedup.Clear. crunch; repeat split; done. Qed.

(** X1. An identifier that [MarkPosted] stored without error is held under
    its key with the value "1" and the tracker's time-to-live, and
    [HasPosted] answers true for it in any later state that still holds the
    ledger's keys, provided the store answers the check. *)
Theorem X1_mark_then_seen
    (t : dedup.Tracker) (id : string) (st st' : State) :
  result (dedup.MarkPosted env t id st) = None →
  keepsKeys (final (dedup.MarkPosted env t id st)) st' →
  redis_fault env (tick st') = None →
  redis (final (dedup.MarkPosted env t id st)) !! dedup.key id
  = Some ("1", dedup.ttl t)
  ∧ result (dedup.HasPosted env t id st') = true.
Proof.
  intros Hok Hkeep Hup.
  destruct (MarkPosted_run env t id st) as (Hres & _ & _ & Hredis & _).
  rewrite Hok in Hres. rewrite <- Hres in Hredis.
  assert (redis (final (dedup.MarkPosted env t id st)) !! dedup.key id
          = Some ("1", dedup.ttl t)) as Hlook.
  { rewrite Hredis. apply lookup_insert_eq. }
  split; [done|].
  destruct (HasPosted_run env t id st') as (_ & -> & _).
  rewrite Hup. apply bool_decide_eq_true_2, Hkeep. by rewrite Hlook.
Qed.

(** X2. After [Clear] returned nil for an identifier, the ledger holds no key
    for it and [HasPosted] answers false, whether or not the store answers
    the check. *)
Theorem X2_clear_then_unseen
    (t : dedup.Tracker) (id : string) (st : State) :
  let cleared := final (dedup.Clear env t id st) in
  result (dedup.Clear env t id st) = None →
  redis cleared !! dedup.key id = None
  ∧ result (dedup.HasPosted env t id cleared) = false.
Proof.
  intros cleared Hok. subst cleared.
  destruct (Clear_run t id st) as (Hres & _ & _ & Hredis).
  rewrite Hok in Hres. rewrite <- Hres in Hredis.
  assert (redis (final (dedup.Clear env t id st)) !! dedup.key id = None) as Hl.
  { rewrite Hredis. apply lookup_delete_eq. }
  split; [done|].
  destruct (HasPosted_run env t id (final (dedup.Clear env t id st)))
    as (_ & -> & _).
  rewrite Hl.
  by destruct (redis_fault env (tick (final (dedup.Clear env t id st)))).
Qed.

(** X3. [MarkPosted] and [Clear] touch the key of their own identifier only:
    distinct identifiers have distinct keys, and what the ledger holds for
    another identifier is unchanged. *)
Theorem X3_other_identifiers_untouched
    (t : dedup.Tracker) (id other : string) (st : State) :
  id ≠ other →
  redis (final (dedup.MarkPosted env t id st)) !! dedup.key other
  = redis st !! dedup.key other
  ∧ redis (final (dedup.Clear env t id st)) !! dedup.key other
    = redis st !! dedup.key other.
Proof.
  intros Hne.
  assert (dedup.key id ≠ dedup.key other) as Hk
    by (intros H; by apply key_inj in H).
  destruct (MarkPosted_run env t id st) as (_ & _ & _ & -> & _).
  destruct (Clear_run t id st) as (_ & _ & _ & ->).
  destruct (redis_fault env (tick st)); [done|].
  by rewrite lookup_insert_ne, lookup_delete_ne.
Qed.

End LedgerMore.

(** ** The configuration: validation and loading *)

Lemma validateCities_None (i : Z) (cities : list config.CityConfig) :
  config.validateCities i cities = None ↔ Forall validCity cities.
Proof.
  revert i. induction cities as [|city rest IH]; intros i; cbn.
  - split; [constructor | done].
  - unfold validCity at 1.
    destruct (String.eqb_spec (config.Name city) "") as [Hn|Hn].
    + split; [done | intros H; inversion H as [|? ? [? ?]]; done].
    + destruct (String.eqb_spec (config.GroupID city) "") as [Hg|Hg].
      * split; [done | intros H; inversion H as [|? ? [? ?]]; done].
      * rewrite IH. split; [by constructor | by inversion 1].
Qed.

Lemma validateCities_first (i : Z) (cities : list config.CityConfig)
    (k : nat) (city : config.CityConfig) :
  cities !! k = Some city →
  Forall validCity (take k cities) →
  ¬ validCity city →
  config.validateCities i cities = Some (cityError (i + Z.of_nat k) city).
Proof.
  revert i k. induction cities as [|c rest IH]; intros i k Hk Hpre Hbad.
  - done.
  - destruct k as [|k]; cbn in Hk.
    + injection Hk as ->. cbn. unfold cityError, validCity in *.
      rewrite Z.add_0_r.
      destruct (String.eqb_spec (config.Name city) ""); [done|].
      destruct (String.eqb_spec (config.GroupID city) ""); [done|]. tauto.
    + cbn in Hpre. inversion Hpre as [|? ? [Hn Hg] Hrest]; subst.
      cbn. apply String.eqb_neq in Hn, Hg. rewrite Hn, Hg.
      rewrite (IH (i + 1) k Hk Hrest Hbad). f_equal. f_equal. lia.
Qed.

Ltac eqb_cases :=
  repeat match goal with
  | |- context [String.eqb ?a ?b] => destruct (String.eqb_spec a b)
  | |- context [?a <=? ?b] => destruct (Z.leb_spec a b)
  | |- context [?a <? ?b] => destruct (Z.ltb_spec a b)
  | |- context [?a =? ?b] => destruct (Z.eqb_spec a b)
  end.

Ltac reject :=
  split; [done|];
  intros ((? & ? & ? & ? & ? & ? & ?) & ? & ?); first [done | lia].

Lemma Validate_None_inv (c : config.Config) :
  config.Validate c = None → scalarsValid c ∧ config.Cities c ≠ [].
Proof.
  unfold config.Validate, scalarsValid.
  eqb_cases; try done.
  intros _. repeat split; try done; try lia.
  intros Hnil. match goal with H : Z.of_nat _ ≠ 0 |- _ => apply H end.
  by rewrite Hnil.
Qed.

(** X4. [Validate] accepts a configuration exactly when the four connection
    values are present, the rate limit and the check interval are positive,
    the duplicate time-to-live is not negative, there is at least one tenant
    and every tenant has a name and a group. *)
Theorem X4_Validate_accepts_iff (c : config.Config) :
  config.Validate c = None
  ↔ scalarsValid c ∧ config.Cities c ≠ [] ∧ Forall validCity (config.Cities c).
Proof.
  unfold config.Validate, scalarsValid.
  destruct (String.eqb_spec (config.es_URL (config.Elasticsearch c)) "");
    [reject|].
  destruct (String.eqb_spec (config.URL (config.Drupal c)) ""); [reject|].
  destruct (String.eqb_spec (config.Token (config.Drupal c)) ""); [reject|].
  destruct (String.eqb_spec (config.rd_URL (config.Redis c)) ""); [reject|].
  destruct (Z.leb_spec (config.RateLimitRPS (config.Service c)) 0); [reject|].
  destruct (Z.leb_spec (config.CheckInterval (config.Service c)) 0); [reject|].
  destruct (Z.ltb_spec (config.DedupTTL (config.Service c)) 0); [reject|].
  destruct (Z.eqb_spec (Z.of_nat (length (config.Cities c))) 0) as [Hlen|Hlen].
  - destruct (config.Cities c); [reject | cbn in Hlen; lia].
  - rewrite validateCities_None. split; [|tauto].
    intros Hall. repeat split; try done.
    intros Hnil. by rewrite Hnil in Hlen.
Qed.

(** X5. When the values beside the tenants are in order, [Validate] reports
    the first tenant without a name or without a group, by its position in
    the list, and the name is reported before the group. *)
Theorem X5_Validate_names_first_bad_city
    (c : config.Config) (k : nat) (city : config.CityConfig) :
  scalarsValid c →
  config.Cities c !! k = Some city →
  Forall validCity (take k (config.Cities c)) →
  ¬ validCity city →
  config.Validate c = Some (cityError (Z.of_nat k) city).
Proof.
  intros (? & ? & ? & ? & ? & ? & ?) Hk Hpre Hbad. unfold config.Validate.
  destruct (config.Cities c) as [|c0 rest] eqn:Hc; [done|].
  eqb_cases; try done; try lia; try (cbn in *; lia).
  by rewrite (validateCities_first 0 _ k city Hk Hpre Hbad).
Qed.

(** X6. The defaults [Load] fills in are stable: filling them in a second
    time changes nothing. *)
Theorem X6_setDefaults_idempotent (s : config.ServiceConfig) :
  config.setDefaults (config.setDefaults s) = config.setDefaults s.
Proof.
  destruct s as [ci rl lb kw ct gt ttl]. unfold config.setDefaults. cbn.
  f_equal.
  - destruct (Z.eqb_spec ci 0); [reflexivity|]. by destruct (Z.eqb_spec ci 0).
  - destruct (Z.eqb_spec rl 0); [reflexivity|]. by destruct (Z.eqb_spec rl 0).
  - destruct kw; reflexivity.
  - destruct (String.eqb_spec ct ""); [reflexivity|].
    by destruct (String.eqb_spec ct "").
  - destruct (String.eqb_spec gt ""); [reflexivity|].
    by destruct (String.eqb_spec gt "").
  - destruct (Z.eqb_spec ttl 0); [reflexivity|]. by destruct (Z.eqb_spec ttl 0).
Qed.

Section LoadFacts.
Variable lib : Lib.
Variable readFile : string → res string.
Variable yamlUnmarshal : string → res config.Config.
Variable getenv : string → string.

Lemma Load_Ok (path : string) (cfg : config.Config) :
  config.Load lib readFile yamlUnmarshal getenv path = Ok cfg →
  ∃ data raw,
    readFile path = Ok data ∧ yamlUnmarshal data = Ok raw
    ∧ cfg = config.overrideEnv lib getenv
              (config.withService raw (config.setDefaults (config.Service raw)))
    ∧ config.Validate cfg = None.
Proof.
  unfold config.Load.
  destruct (readFile path) as [data|] eqn:Hf; [|done].
  destruct (yamlUnmarshal data) as [raw|] eqn:Hy; [|done].
  destruct (config.Validate _) eqn:Hv; [done|].
  intros [= <-]. by exists data, raw.
Qed.

(** X7. A configuration that [Load] returns passes [Validate] and has every
    service value set: positive check interval, rate limit and duplicate
    time-to-live, at least one keyword, a content type, a group type and at
    least one tenant. *)
Theorem X7_Load_result_is_valid_and_complete (path : string) (cfg : config.Config) :
  config.Load lib readFile yamlUnmarshal getenv path = Ok cfg →
  config.Validate cfg = None
  ∧ 0 < config.CheckInterval (config.Service cfg)
  ∧ 0 < config.RateLimitRPS (config.Service cfg)
  ∧ 0 < config.DedupTTL (config.Service cfg)
  ∧ config.CrimeKeywords (config.Service cfg) ≠ []
  ∧ config.ContentType (config.Service cfg) ≠ ""
  ∧ config.GroupType (config.Service cfg) ≠ ""
  ∧ config.Cities cfg ≠ [].
Proof.
  intros (data & raw & _ & _ & -> & Hv)%Load_Ok.
  split; [done|].
  apply Validate_None_inv in Hv as ((_ & _ & _ & _ & Hr & Hi & Ht) & Hc).
  cbn in *. destruct (config.Service raw) as [ci rl lb kw ct gt ttl]. cbn in *.
  split; [done|]. split; [done|].
  split; [revert Ht; destruct (Z.eqb_spec ttl 0);
          unfold Hour, Minute, Second, Nanosecond; lia|].
  split; [by destruct kw|].
  split; [by destruct (String.eqb_spec ct "")|].
  split; [by destruct (String.eqb_spec gt "")|]. done.
Qed.

(** X8. In a configuration that [Load] returns, each of the six connection
    values is the environment variable's when that is set and non-empty, and
    the file's otherwise; the tenants and the lookback are the file's. *)
Theorem X8_Load_environment_overrides_file (path : string) (cfg : config.Config) :
  config.Load lib readFile yamlUnmarshal getenv path = Ok cfg →
  ∃ data raw,
    readFile path = Ok data ∧ yamlUnmarshal data = Ok raw
    ∧ config.es_URL (config.Elasticsearch cfg)
      = (if nonEmpty (getenv "ES_URL") then getenv "ES_URL"
         else config.es_URL (config.Elasticsearch raw))
    ∧ config.URL (config.Drupal cfg)
      = (if nonEmpty (getenv "DRUPAL_URL") then getenv "DRUPAL_URL"
         else config.URL (config.Drupal raw))
    ∧ config.Username (config.Drupal cfg)
      = (if nonEmpty (getenv "DRUPAL_USERNAME") then getenv "DRUPAL_USERNAME"
         else config.Username (config.Drupal raw))
    ∧ config.Token (config.Drupal cfg)
      = (if nonEmpty (getenv "DRUPAL_TOKEN") then getenv "DRUPAL_TOKEN"
         else config.Token (config.Drupal raw))
    ∧ config.AuthMethod (config.Drupal cfg)
      = (if nonEmpty (getenv "DRUPAL_AUTH_METHOD") then getenv "DRUPAL_AUTH_METHOD"
         else config.AuthMethod (config.Drupal raw))
    ∧ config.rd_URL (config.Redis cfg)
      = (if nonEmpty (getenv "REDIS_URL") then getenv "REDIS_URL"
         else config.rd_URL (config.Redis raw))
    ∧ config.Cities cfg = config.Cities raw
    ∧ config.LookbackHours (config.Service cfg)
      = config.LookbackHours (config.Service raw).
Proof.
  intros (data & raw & Hf & Hy & -> & _)%Load_Ok.
  exists data, raw. repeat split; done.
Qed.

End LoadFacts.

(** ** The publisher: requests and credentials *)

Lemma Get_Set_ne (h : list (string * string)) (k v k' : string) :
  k ≠ k' → http.Get (http.Set_ h k v) k' = http.Get h k'.
Proof.
  intros Hne. unfold http.Get, http.Set_.
  induction h as [|[k0 v0] h IH]; cbn.
  - apply String.eqb_neq in Hne. by rewrite Hne.
  - destruct (String.eqb_spec k0 k) as [->|Hk]; cbn.
    + apply String.eqb_neq in Hne. by rewrite Hne.
    + destruct (String.eqb k0 k'); [done | exact IH].
Qed.

Section PublisherMore.
Variable lib : Lib.
Variable json : drupal.JSON.
Variable env : Env.

Lemma setAuth_headers (c : drupal.Client) (h : list (string * string)) :
  http.Get (drupal.setAuth lib c h) "API-KEY" = Some (credential lib c)
  ∧ http.Get (drupal.setAuth lib c h) "Authorization"
    = Some ("Basic " +:+ credential lib c)
  ∧ http.Get (drupal.setAuth lib c h) "AUTH-METHOD"
    = (if nonEmpty (drupal.authMethod c) then Some (drupal.authMethod c)
       else http.Get h "AUTH-METHOD").
Proof.
  unfold drupal.setAuth, credential.
  destruct (nonEmpty (drupal.username c)), (nonEmpty (drupal.authMethod c));
    repeat split;
    repeat first [rewrite Set_Get | rewrite Get_Set_ne by done]; done.
Qed.

(** X9. [NewClient] fails exactly when the base URL or the token is empty.
    It touches no state, keeps the four values it is given, and logs (a
    warning) only when it succeeds with TLS verification switched off. *)
Theorem X9_NewClient_fails_iff_missing
    (baseURL username token authMethod : string) (skip : bool) (st : State) :
  let r := drupal.NewClient baseURL username token authMethod skip st in
  (is_err (result r) = true ↔ baseURL = "" ∨ token = "")
  ∧ final r = st
  ∧ (∀ c, result r = Ok c →
          drupal.baseURL c = baseURL ∧ drupal.username c = username
          ∧ drupal.token c = token ∧ drupal.authMethod c = authMethod)
  ∧ (events r ≠ [] ↔ baseURL ≠ "" ∧ token ≠ "" ∧ skip = true).
Proof.
  unfold drupal.NewClient.
  destruct (String.eqb_spec baseURL "") as [->|Hu];
    [|destruct (String.eqb_spec token "") as [->|Ht]].
  all: destruct skip; cbn; repeat split; intros; simplify_eq/=;
    try done; try tauto; try (intuition done).
Qed.

(** X10. [getCSRFToken] returns a token only from one GET of
    /session/token answered with status 200 and a readable body, and the
    token is that body with the surrounding white space trimmed. *)
Theorem X10_getCSRFToken_success
    (c : drupal.Client) (st : State) (tok : string) :
  result (drupal.getCSRFToken lib env c st) = Ok tok →
  ∃ resp body,
    events (drupal.getCSRFToken lib env c st)
    = [EvHTTP (tokenRequest lib c) (Ok resp)]
    ∧ http.StatusCode resp = 200
    ∧ http.RespBody resp = Ok body
    ∧ tok = TrimSpace lib body.
Proof.
  unfold drupal.getCSRFToken, tokenRequest. crunch; try done.
  intros [= <-]. eexists _, _. repeat split; try done.
  unfold http.StatusOK in *.
  match goal with H : negb _ = false |- _ =>
    apply negb_false_iff, Z.eqb_eq in H; exact H end.
Qed.

Lemma getCSRFToken_requests (c : drupal.Client) (st : State) :
  httpRequests (events (drupal.getCSRFToken lib env c st)) = []
  ∨ httpRequests (events (drupal.getCSRFToken lib env c st)) = [tokenRequest lib c].
Proof.
  unfold drupal.getCSRFToken, tokenRequest. crunch; (by left) || (by right).
Qed.

Local Arguments drupal.getCSRFToken : simpl never.

Lemma PostArticle_requests (c : drupal.Client) (req : drupal.ArticleRequest)
    (st : State) :
  let r := drupal.PostArticle lib json env c req st in
  ∃ tokens posts,
    httpRequests (events r) = tokens ++ posts
    ∧ (tokens = [] ∨ tokens = [tokenRequest lib c])
    ∧ posts = creationRequests (events r).
Proof.
  cbv zeta. unfold drupal.PostArticle.
  crunch.
  all: try (exists [], []; by repeat split; try left).
  all: match goal with
       | H : drupal.getCSRFToken ?l ?e ?c ?st = _ |- _ =>
           let F := fresh "F" in let G := fresh "G" in
           pose proof (getCSRFToken_requests c st) as F;
           pose proof (getCSRFToken_run l e c st) as G; cbv zeta in G;
           rewrite H in F, G; unfold result, final, events in F, G;
           cbn in F, G;
           destruct G as (_ & _ & _ & _ & _ & _ & G & _)
       end.
  all: proj_unfold; rewrite !omap_app, ?List.filter_app, ?G; cbn.
  all: eexists _, _; split; [reflexivity|]; split; [exact F | reflexivity].
Qed.

(** X11. [PostArticle] never retries: it sends at most one token request
    followed by at most one creation request, two requests at most. *)
Theorem X11_PostArticle_no_retry (c : drupal.Client) (req : drupal.ArticleRequest)
    (st : State) :
  let r := drupal.PostArticle lib json env c req st in
  ∃ tokens posts,
    httpRequests (events r) = tokens ++ posts
    ∧ (tokens = [] ∨ tokens = [tokenRequest lib c])
    ∧ posts = creationRequests (events r)
    ∧ (length posts <= 1)%nat
    ∧ (length (httpRequests (events r)) <= 2)%nat.
Proof.
  cbv zeta.
  destruct (PostArticle_requests c req st) as (tokens & posts & Hall & Htok & Hposts).
  pose proof (PostArticle_creation lib json env c req st) as Hc. cbv zeta in Hc.
  exists tokens, posts. split; [done|]. split; [done|]. split; [done|].
  assert ((length posts <= 1)%nat) as Hlen.
  { rewrite Hposts.
    destruct (drupal.Marshal json _); [destruct (newRequestErr lib _ _)|].
    - destruct Hc as [-> _]. cbn. lia.
    - destruct Hc as (resp & -> & _). cbn. lia.
    - destruct Hc as [-> _]. cbn. lia. }
  split; [done|].
  rewrite Hall, length_app. destruct Htok as [->| ->]; cbn; lia.
Qed.

(** X12. Every request [PostArticle] sends, the token request included,
    carries the client's credential in both the API-KEY and the
    Authorization header, and the AUTH-METHOD header exactly when an
    authentication method is configured. *)
Theorem X12_every_request_carries_credentials
    (c : drupal.Client) (req : drupal.ArticleRequest) (st : State)
    (q : http.Request) :
  In q (httpRequests (events (drupal.PostArticle lib json env c req st))) →
  http.Get (http.Header q) "API-KEY" = Some (credential lib c)
  ∧ http.Get (http.Header q) "Authorization"
    = Some ("Basic " +:+ credential lib c)
  ∧ http.Get (http.Header q) "AUTH-METHOD"
    = (if nonEmpty (drupal.authMethod c) then Some (drupal.authMethod c)
       else None).
Proof.
  intros Hin.
  destruct (PostArticle_requests c req st) as (tokens & posts & Hall & Htok & Hposts).
  cbv zeta in *. rewrite Hall in Hin. apply in_app_iff in Hin as [Hin|Hin].
  - destruct Htok as [->| ->]; [destruct Hin|]. destruct Hin as [<-|[]].
    cbn [tokenRequest http.Header].
    destruct (setAuth_headers c (http.Set_ [] "Accept" "application/json"))
      as (-> & -> & ->). by destruct (nonEmpty _).
  - rewrite Hposts in Hin.
    pose proof (PostArticle_creation lib json env c req st) as Hc. cbv zeta in Hc.
    assert (http.Header q = baseHeaders lib c
            ∨ ∃ tok, http.Header q = http.Set_ (baseHeaders lib c) "X-CSRF-Token" tok)
      as Hh.
    { destruct (drupal.Marshal json _); [destruct (newRequestErr lib _ _)|].
      - destruct Hc as [Hc _]. rewrite Hc in Hin. destruct Hin.
      - destruct Hc as (resp & Hc & _). rewrite Hc in Hin.
        destruct Hin as [<-|[]]. cbn.
        destruct (result _); [right; by eexists | by left].
      - destruct Hc as [Hc _]. rewrite Hc in Hin. destruct Hin. }
    unfold baseHeaders in Hh.
    destruct (setAuth_headers c
                (http.Set_ (http.Set_ [] "Content-Type" "application/vnd.api+json")
                   "Accept" "application/vnd.api+json")) as (Ha & Hb & Hm).
    destruct Hh as [->|[tok ->]]; rewrite ?Get_Set_ne by done;
      rewrite Ha, Hb, Hm; by destruct (nonEmpty _).
Qed.

(** X13. [PostArticle] returns nil only after a creation request that
    carried the marshalled article was answered with a status below 400 and
    a body that decodes as a document. *)
Theorem X13_PostArticle_nil_only_if_created
    (c : drupal.Client) (req : drupal.ArticleRequest) (st : State) :
  let r := drupal.PostArticle lib json env c req st in
  result r = None →
  ∃ q answer document payload,
    creationRequests (events r) = [q]
    ∧ In (EvHTTP q (Ok answer)) (events r)
    ∧ http.StatusCode answer < 400
    ∧ drupal.decodeBody json (http.RespBody answer) = Ok document
    ∧ drupal.Marshal json (drupal.toDrupalArticle req) = Ok payload
    ∧ http.Body q = Some payload.
Proof.
  intros r Hnil. subst r.
  pose proof (PostArticle_creation lib json env c req st) as Hc. cbv zeta in Hc.
  destruct (drupal.Marshal json _) as [payload|]; [destruct (newRequestErr lib _ _)|].
  - destruct Hc as [_ [e0 He]]. congruence.
  - destruct Hc as (resp & Hq & Hin & Hres). rewrite Hnil in Hres.
    destruct resp as [answer|]; [|done]. cbn in Hres.
    destruct (Z.leb_spec 400 (http.StatusCode answer)).
    + destruct (drupal.decodeBody json _) as [d|]; [destruct (drupal.Errors d)|]; done.
    + destruct (drupal.decodeBody json _) as [d|] eqn:Hd; [|done].
      eexists _, answer, d, payload. repeat split; try done.
  - destruct Hc as [_ [e0 He]]. congruence.
Qed.

(** X14. When the token fetch succeeds, the creation request carries the
    token in X-CSRF-Token, still has the JSON:API content type, and the
    result of [PostArticle] is decided by the answer to that request. *)
Theorem X14_token_is_attached_when_fetched
    (c : drupal.Client) (req : drupal.ArticleRequest) (st : State)
    (payload tok : string) :
  let endpoint := drupal.endpointURL (drupal.baseURL c) (drupal.ContentType req) in
  let r := drupal.PostArticle lib json env c req st in
  drupal.Marshal json (drupal.toDrupalArticle req) = Ok payload →
  newRequestErr lib "POST" endpoint = None →
  result (drupal.getCSRFToken lib env c (bump st)) = Ok tok →
  ∃ q resp,
    creationRequests (events r) = [q]
    ∧ In (EvHTTP q resp) (events r)
    ∧ http.Get (http.Header q) "X-CSRF-Token" = Some tok
    ∧ http.Get (http.Header q) "Content-Type" = Some "application/vnd.api+json"
    ∧ result r = drupal.outcome json resp.
Proof.
  intros endpoint r HM HN Htok. subst endpoint r.
  pose proof (PostArticle_creation lib json env c req st) as H. cbv zeta in H.
  rewrite HM, HN, Htok in H. destruct H as [resp (Hq & Hin & Hres)].
  eexists _, resp. split; [exact Hq|]. split; [exact Hin|].
  split; [apply Set_Get|]. split; [|exact Hres].
  cbn [http.Header]. rewrite Get_Set_ne by done. unfold baseHeaders, drupal.setAuth.
  destruct (nonEmpty (drupal.username c)), (nonEmpty (drupal.authMethod c));
    reflexivity.
Qed.

End PublisherMore.

(** ** A tenant's pass: counts, rate limit, what is sent *)

Section OrchestratorMore.
Variable lib : Lib.
Variable json : drupal.JSON.
Variable codec : integration.Codec.
Variable env : Env.

Local Arguments dedup.HasPosted : simpl never.
Local Arguments dedup.MarkPosted : simpl never.
Local Arguments drupal.PostArticle : simpl never.
Local Arguments integration.FindCrimeArticles : simpl never.
Local Arguments integration.isCrimeRelated : simpl never.

Lemma HasPosted_no_wait (t : dedup.Tracker) (id : string) (st : State) :
  waitGrants (events (dedup.HasPosted env t id st)) = [].
Proof. unfold dedup.HasPosted. crunch; done. Qed.

Lemma MarkPosted_no_wait (t : dedup.Tracker) (id : string) (st : State) :
  waitGrants (events (dedup.MarkPosted env t id st)) = [].
Proof. unfold dedup.MarkPosted. crunch; done. Qed.

Lemma getCSRFToken_no_wait (c : drupal.Client) (st : State) :
  waitGrants (events (drupal.getCSRFToken lib env c st)) = [].
Proof. unfold drupal.getCSRFToken. crunch; done. Qed.

Lemma PostArticle_no_wait (c : drupal.Client) (req : drupal.ArticleRequest)
    (st : State) :
  waitGrants (events (drupal.PostArticle lib json env c req st)) = [].
Proof.
  unfold drupal.PostArticle. crunch.
  all: try done.
  all: match goal with
       | H : drupal.getCSRFToken ?l ?e ?c ?st = _ |- _ =>
           let F := fresh "F" in
           pose proof (getCSRFToken_no_wait c st) as F; rewrite H in F;
           unfold waitGrants, events in *; cbn in F
       end.
  all: rewrite omap_app, F; done.
Qed.

Lemma PostArticle_creation_count (c : drupal.Client) (req : drupal.ArticleRequest)
    (st : State) :
  (length (creationRequests (events (drupal.PostArticle lib json env c req st)))
   <= 1)%nat
  ∧ ∀ q, In q (creationRequests (events (drupal.PostArticle lib json env c req st))) →
         ∃ payload, drupal.Marshal json (drupal.toDrupalArticle req) = Ok payload
                    ∧ http.Body q = Some payload
                    ∧ http.URL q = drupal.endpointURL (drupal.baseURL c)
                                     (drupal.ContentType req).
Proof.
  pose proof (PostArticle_creation lib json env c req st) as Hc. cbv zeta in Hc.
  destruct (drupal.Marshal json _) as [payload|]; [destruct (newRequestErr lib _ _)|].
  - destruct Hc as [-> _]. split; [cbn; lia | intros q []].
  - destruct Hc as (resp & -> & _). split; [cbn; lia|].
    intros q [<-|[]]. by exists payload.
  - destruct Hc as [-> _]. split; [cbn; lia | intros q []].
Qed.

Ltac use_calls :=
  repeat match goal with
  | H : dedup.HasPosted ?e ?t ?id ?st = _ |- _ =>
      let F := fresh "F" in let W := fresh "W" in
      pose proof (HasPosted_run e t id st) as F; cbv zeta in F;
      pose proof (HasPosted_no_wait t id st) as W;
      rewrite H in F, W; unfold result, final, events, waitGrants in F, W;
      cbn in F, W;
      destruct F as (? & ? & ? & ? & ? & ? & ? & ? & ? & ? & ? & ?); clear H
  | H : dedup.MarkPosted ?e ?t ?id ?st = _ |- _ =>
      let F := fresh "F" in let W := fresh "W" in
      pose proof (MarkPosted_run e t id st) as F; cbv zeta in F;
      pose proof (MarkPosted_no_wait t id st) as W;
      rewrite H in F, W; unfold result, final, events, waitGrants in F, W;
      cbn in F, W;
      destruct F as (? & ? & ? & ? & ? & ? & ? & ? & ? & ? & ? & ? & ? & ?);
      clear H
  | H : drupal.PostArticle ?l ?j ?e ?c ?req ?st = _ |- _ =>
      let F := fresh "F" in let G := fresh "G" in let W := fresh "W" in
      pose proof (PostArticle_run l j e c req st) as F; cbv zeta in F;
      pose proof (PostArticle_creation_count c req st) as G;
      pose proof (PostArticle_no_wait c req st) as W;
      rewrite H in F, G, W; unfold result, final, events, waitGrants in F, G, W;
      cbn in F, G, W;
      destruct F as (? & ? & ? & ? & ? & ? & ? & ? & ? & ? & ? & ?);
      destruct G as [? ?]; clear H
  end.

Ltac count_events :=
  unfold waitGrants in *; proj_unfold;
  repeat first
    [ rewrite omap_app
    | rewrite List.filter_app
    | rewrite length_app
    | match goal with H : omap _ _ = _ |- _ => rewrite H end
    | match goal with H : List.filter _ _ = _ |- _ => rewrite H end
    | progress cbn ];
  try done; try lia.

(** What an iteration adds to the counters and to the trace. *)
Lemma processArticle_counts (s : integration.Service) (city : config.CityConfig)
    (a : integration.Article) (c : integration.Counters) (st : State) :
  let r := integration.processArticle lib json env s city a c st in
  (length (creationRequests (events r)) <= length (deliveryAttempts (events r)))%nat
  ∧ length (storeSets (events r)) = length (deliveredIDs (events r))
  ∧ match result r with
    | integration.Continue c' =>
        integration.posted c'
        = integration.posted c + Z.of_nat (length (deliveredIDs (events r)))
        ∧ integration.posted c' + integration.errors c'
          = integration.posted c + integration.errors c
            + Z.of_nat (length (deliveryAttempts (events r)))
        ∧ length (waitGrants (events r)) = length (deliveryAttempts (events r))
    | integration.Return _ =>
        deliveryAttempts (events r) = [] ∧ waitGrants (events r) = []
    end.
Proof.
  unfold integration.processArticle. crunch.
  all: use_calls.
  all: simplify_eq/=.
  all: repeat split; count_events.
Qed.

Lemma processArticle_last (s : integration.Service) (city : config.CityConfig)
    (a : integration.Article) (c : integration.Counters) (st : State)
    (e : error) :
  result (integration.processArticle lib json env s city a c st)
  = integration.Return e →
  ∃ before cause,
    events (integration.processArticle lib json env s city a c st)
    = before ++ [EvWait (Some cause)]
    ∧ e = Wrapf "rate limit wait: %w" [] cause.
Proof.
  unfold integration.processArticle. crunch; try done.
  intros [= <-]. by eexists _, _.
Qed.

Lemma processArticle_irrelevant (s : integration.Service)
    (city : config.CityConfig) (a : integration.Article)
    (c : integration.Counters) (st : State) :
  integration.isCrimeRelated lib s a = false →
  integration.processArticle lib json env s city a c st
  = (integration.Continue (integration.incSkipped c), st, []).
Proof. intros H. unfold integration.processArticle. by rewrite H. Qed.

Lemma processArticle_deliveries (s : integration.Service)
    (city : config.CityConfig) (a : integration.Article)
    (c : integration.Counters) (st : State) :
  let r := integration.processArticle lib json env s city a c st in
  (∀ id, In id (deliveryAttempts (events r)) →
         id = integration.ID a ∧ integration.isCrimeRelated lib s a = true)
  ∧ (∀ q, In q (creationRequests (events r)) →
          integration.isCrimeRelated lib s a = true
          ∧ ∃ payload,
              drupal.Marshal json (drupal.toDrupalArticle (requestFor s city a))
              = Ok payload
              ∧ http.Body q = Some payload
              ∧ http.URL q
                = drupal.endpointURL (drupal.baseURL (integration.drupal s))
                    (config.ContentType (config.Service (integration.config s)))).
Proof.
  cbv zeta. destruct (integration.isCrimeRelated lib s a) eqn:Hrel.
  - unfold integration.processArticle. rewrite Hrel. crunch.
    all: use_calls.
    all: simplify_eq/=.
    all: split; [intros id | intros q]; count_events.
    all: try (intros [<-|[]]; done).
    all: rewrite ?app_nil_r; intros Hq; split; [done|]; by auto.
  - rewrite processArticle_irrelevant by done. by split.
Qed.

Local Arguments integration.processArticle : simpl never.
Local Arguments integration.rangeArticles : simpl never.

Lemma rangeArticles_nil (s : integration.Service) (city : config.CityConfig)
    (c : integration.Counters) (st : State) :
  integration.rangeArticles lib json env s city [] c st = (Ok c, st, []).
Proof. reflexivity. Qed.

Lemma rangeArticles_counts (s : integration.Service) (city : config.CityConfig)
    (arts : list integration.Article) (c : integration.Counters) (st : State) :
  let r := integration.rangeArticles lib json env s city arts c st in
  (length (creationRequests (events r)) <= length (deliveryAttempts (events r)))%nat
  ∧ length (storeSets (events r)) = length (deliveredIDs (events r))
  ∧ length (waitGrants (events r)) = length (deliveryAttempts (events r))
  ∧ match result r with
    | Ok c' =>
        integration.posted c'
        = integration.posted c + Z.of_nat (length (deliveredIDs (events r)))
        ∧ integration.posted c' + integration.errors c'
          = integration.posted c + integration.errors c
            + Z.of_nat (length (deliveryAttempts (events r)))
    | Err _ => True
    end.
Proof.
  revert c st. induction arts as [|a rest IH]; intros c st.
  - cbv zeta. rewrite rangeArticles_nil. cbn. repeat split; lia.
  - cbv zeta. rewrite rangeArticles_cons. cbv zeta.
    destruct (processArticle_counts s city a c st) as (Hq & Hs & Hflow).
    destruct (result (integration.processArticle lib json env s city a c st))
      as [c'|err]; cbn [result final events fst snd].
    + destruct Hflow as (Hp & Hpe & Hw).
      destruct (IH c' (final (integration.processArticle lib json env s city a c st)))
        as (Hq' & Hs' & Hw' & Hflow').
      unfold waitGrants in *. proj_unfold. proj_unfold.
      rewrite !omap_app, !List.filter_app, !length_app.
      split; [lia|]. split; [lia|]. split; [lia|].
      destruct (result (integration.rangeArticles _ _ _ _ _ _ _ _)); [|done].
      destruct Hflow' as [Hp' Hpe']. lia.
    + destruct Hflow as [Ha Hw]. rewrite app_nil_r, Hw, Ha in *. cbn in *.
      repeat split; done.
Qed.

Lemma rangeArticles_last (s : integration.Service) (city : config.CityConfig)
    (arts : list integration.Article) (c : integration.Counters) (st : State)
    (e : error) :
  result (integration.rangeArticles lib json env s city arts c st) = Err e →
  ∃ before cause,
    events (integration.rangeArticles lib json env s city arts c st)
    = before ++ [EvWait (Some cause)]
    ∧ e = Wrapf "rate limit wait: %w" [] cause.
Proof.
  revert c st. induction arts as [|a rest IH]; intros c st;
    [by rewrite rangeArticles_nil|].
  rewrite rangeArticles_cons. cbv zeta.
  pose proof (processArticle_last s city a c st) as Hlast.
  destruct (result (integration.processArticle lib json env s city a c st))
    as [c'|err]; cbn [result final events fst snd].
  - intros (before & cause & -> & ->)%IH.
    eexists (_ ++ before), cause. by rewrite app_assoc.
  - intros [= <-]. destruct (Hlast err eq_refl) as (before & cause & -> & ->).
    rewrite app_nil_r. by eexists _, _.
Qed.

Lemma rangeArticles_irrelevant (s : integration.Service)
    (city : config.CityConfig) (arts : list integration.Article)
    (c : integration.Counters) (st : State) :
  Forall (λ a, integration.isCrimeRelated lib s a = false) arts →
  integration.rangeArticles lib json env s city arts c st
  = (Ok {| integration.posted := integration.posted c;
           integration.skipped := integration.skipped c + Z.of_nat (length arts);
           integration.errors := integration.errors c |}, st, []).
Proof.
  intros Hall. revert c. induction Hall as [|a rest Ha _ IH]; intros c.
  - rewrite rangeArticles_nil. cbn. rewrite Z.add_0_r. by destruct c.
  - rewrite rangeArticles_cons, processArticle_irrelevant by done. cbn.
    rewrite IH. cbn -[Z.of_nat Z.add].
    replace (integration.skipped c + 1 + Z.of_nat (length rest))
      with (integration.skipped c + Z.of_nat (S (length rest))) by lia.
    reflexivity.
Qed.

Lemma rangeArticles_deliveries (s : integration.Service)
    (city : config.CityConfig) (arts : list integration.Article)
    (c : integration.Counters) (st : State) :
  let r := integration.rangeArticles lib json env s city arts c st in
  (∀ id, In id (deliveryAttempts (events r)) →
         ∃ a, In a arts ∧ integration.ID a = id
              ∧ integration.isCrimeRelated lib s a = true)
  ∧ (∀ q, In q (creationRequests (events r)) →
          ∃ a payload,
            In a arts ∧ integration.isCrimeRelated lib s a = true
            ∧ drupal.Marshal json (drupal.toDrupalArticle (requestFor s city a))
              = Ok payload
            ∧ http.Body q = Some payload
            ∧ http.URL q
              = drupal.endpointURL (drupal.baseURL (integration.drupal s))
                  (config.ContentType (config.Service (integration.config s)))).
Proof.
  revert c st. induction arts as [|a rest IH]; intros c st.
  - cbv zeta. rewrite rangeArticles_nil. cbn. split; intros ? [].
  - cbv zeta. rewrite rangeArticles_cons. cbv zeta.
    destruct (processArticle_deliveries s city a c st) as [Hid Hq].
    assert (∀ tail,
      (∀ id, In id (deliveryAttempts tail) →
             ∃ a0, In a0 rest ∧ integration.ID a0 = id
                   ∧ integration.isCrimeRelated lib s a0 = true) →
      (∀ q, In q (creationRequests tail) →
            ∃ a0 payload,
              In a0 rest ∧ integration.isCrimeRelated lib s a0 = true
              ∧ drupal.Marshal json (drupal.toDrupalArticle (requestFor s city a0))
                = Ok payload
              ∧ http.Body q = Some payload
              ∧ http.URL q
                = drupal.endpointURL (drupal.baseURL (integration.drupal s))
                    (config.ContentType (config.Service (integration.config s)))) →
      (∀ id, In id (deliveryAttempts
                      (events (integration.processArticle lib json env s city a c st)
                       ++ tail)) →
             ∃ a0, In a0 (a :: rest) ∧ integration.ID a0 = id
                   ∧ integration.isCrimeRelated lib s a0 = true)
      ∧ (∀ q, In q (creationRequests
                      (events (integration.processArticle lib json env s city a c st)
                       ++ tail)) →
              ∃ a0 payload,
                In a0 (a :: rest) ∧ integration.isCrimeRelated lib s a0 = true
                ∧ drupal.Marshal json (drupal.toDrupalArticle (requestFor s city a0))
                  = Ok payload
                ∧ http.Body q = Some payload
                ∧ http.URL q
                  = drupal.endpointURL (drupal.baseURL (integration.drupal s))
                      (config.ContentType (config.Service (integration.config s)))))
      as Hstep.
    { intros tail Hid' Hq'. proj_unfold. proj_unfold.
      rewrite !omap_app, List.filter_app. split.
      - intros id [Hin|Hin]%in_app_iff.
        + destruct (Hid id Hin) as [-> Hrel]. exists a. by repeat split; [left|..].
        + destruct (Hid' id Hin) as (a0 & ? & ? & ?). exists a0.
          by repeat split; [right|..].
      - intros q [Hin|Hin]%in_app_iff.
        + destruct (Hq q Hin) as (Hrel & payload & ? & ? & ?).
          exists a, payload. by repeat split; [left|..].
        + destruct (Hq' q Hin) as (a0 & payload & ? & ? & ? & ? & ?).
          exists a0, payload. by repeat split; [right|..]. }
    destruct (result (integration.processArticle lib json env s city a c st))
      as [c'|err]; cbn [result final events fst snd].
    + destruct (IH c' (final (integration.processArticle lib json env s city a c st)))
        as [Hid' Hq']. by apply Hstep.
    + apply Hstep; intros ? [].
Qed.

End OrchestratorMore.

Section TenantPass.
Variable lib : Lib.
Variable json : drupal.JSON.
Variable codec : integration.Codec.
Variable env : Env.

Local Arguments integration.rangeArticles : simpl never.
Local Arguments integration.FindCrimeArticles : simpl never.

Lemma FindCrimeArticles_no_wait (s : integration.Service)
    (city : config.CityConfig) (st : State) :
  waitGrants (events (integration.FindCrimeArticles lib codec env s city st)) = [].
Proof.
  unfold integration.FindCrimeArticles, integration.getLastCheckTS,
    integration.decodeWith.
  crunch; done.
Qed.

(** X15. In a tenant's pass, every delivery attempt is preceded by a grant
    of the rate limiter: the grants are as many as the attempts, and the
    creation requests sent are no more than the grants. *)
Theorem X15_deliveries_within_rate_limit
    (s : integration.Service) (city : config.CityConfig) (st : State) :
  let r := integration.ProcessCity lib json codec env s city st in
  (length (creationRequests (events r)) <= length (waitGrants (events r)))%nat
  ∧ length (waitGrants (events r)) = length (deliveryAttempts (events r)).
Proof.
  cbv zeta. rewrite ProcessCity_run. cbv zeta.
  destruct (FindCrimeArticles_run lib codec env s city st)
    as (_ & _ & _ & _ & _ & Hh & _ & _ & _ & Ha & _).
  pose proof (FindCrimeArticles_no_wait s city st) as Hw.
  destruct (result (integration.FindCrimeArticles lib codec env s city st))
    as [arts|err]; cbn [result final events fst snd].
  - destruct (rangeArticles_counts lib json env s city arts noCounts
                (final (integration.FindCrimeArticles lib codec env s city st)))
      as (Hq & _ & Hg & _).
    unfold waitGrants in *. proj_unfold. proj_unfold.
    destruct (result (integration.rangeArticles _ _ _ _ _ _ _ _));
      cbn [result final events fst snd];
      rewrite !omap_app, ?List.filter_app, ?length_app, Hh, Ha, Hw; cbn; lia.
  - unfold waitGrants in *. proj_unfold. proj_unfold. rewrite Hh, Ha, Hw. cbn. lia.
Qed.

(** X16. The counts a pass reports are those of its trace: posted is the
    number of articles logged as posted, posted plus errors the number of
    delivery attempts, and the three counts add up to the number of articles
    fetched. The ledger is written once per posted article. *)
Theorem X16_report_matches_trace
    (s : integration.Service) (city : config.CityConfig) (st : State) :
  let r := integration.ProcessCity lib json codec env s city st in
  length (storeSets (events r)) = length (deliveredIDs (events r))
  ∧ (result r = None →
     ∃ arts c,
       result (integration.FindCrimeArticles lib codec env s city st) = Ok arts
       ∧ cityReports (events r) = [c]
       ∧ integration.posted c = Z.of_nat (length (deliveredIDs (events r)))
       ∧ integration.posted c + integration.errors c
         = Z.of_nat (length (deliveryAttempts (events r)))
       ∧ integration.posted c + integration.skipped c + integration.errors c
         = Z.of_nat (length arts)).
Proof.
  cbv zeta. rewrite ProcessCity_run. cbv zeta.
  destruct (FindCrimeArticles_run lib codec env s city st)
    as (_ & _ & _ & _ & _ & _ & _ & Hs & _ & Ha & Hd & Hr).
  destruct (result (integration.FindCrimeArticles lib codec env s city st))
    as [arts|err]; cbn [result final events fst snd].
  - destruct (rangeArticles_counts lib json env s city arts noCounts
                (final (integration.FindCrimeArticles lib codec env s city st)))
      as (_ & Hst & _ & Hflow).
    destruct (rangeArticles_frame lib json env s city arts noCounts
                (final (integration.FindCrimeArticles lib codec env s city st)))
      as (_ & _ & _ & _ & _ & _ & Hrl & _).
    pose proof (rangeArticles_flow lib json env s city arts noCounts
                  (final (integration.FindCrimeArticles lib codec env s city st)))
      as Hacc. cbv zeta in Hacc.
    proj_unfold.
    destruct (result (integration.rangeArticles _ _ _ _ _ _ _ _)) as [c|e];
      cbn [result final events fst snd].
    + rewrite !omap_app, Hs, Ha, Hd, Hr, Hrl. cbn [app].
      change (omap storeSet [cityReportEntry city c]) with (@nil (string * Z)).
      change (omap delivered [cityReportEntry city c]) with (@nil string).
      change (omap deliveryAttempt [cityReportEntry city c]) with (@nil string).
      rewrite !app_nil_r.
      split; [done|]. intros _. exists arts, c.
      destruct Hflow as [Hp Hpe]. destruct Hacc as [_ Hacc].
      unfold accounted, noCounts in *. cbn in Hp, Hpe, Hacc.
      split; [done|]. split; [by destruct c|]. repeat split; lia.
    + rewrite !omap_app, Hs, Hd. by cbn.
  - rewrite Hs, Hd. by split.
Qed.

(** X17. When a pass fails after its fetch succeeded, the failed call of
    [limiter.Wait] is the last thing the pass did, the error returned wraps
    that call's, and no report is logged. *)
Theorem X17_wait_error_ends_the_pass
    (s : integration.Service) (city : config.CityConfig) (st : State)
    (arts : list integration.Article) (e : error) :
  let r := integration.ProcessCity lib json codec env s city st in
  result (integration.FindCrimeArticles lib codec env s city st) = Ok arts →
  result r = Some e →
  ∃ before cause,
    events r = before ++ [EvWait (Some cause)]
    ∧ e = Wrapf "rate limit wait: %w" [] cause
    ∧ cityReports (events r) = [].
Proof.
  cbv zeta. intros Hfound. rewrite ProcessCity_run. cbv zeta. rewrite Hfound.
  destruct (FindCrimeArticles_run lib codec env s city st)
    as (_ & _ & _ & _ & _ & _ & _ & _ & _ & _ & _ & Hr).
  destruct (rangeArticles_frame lib json env s city arts noCounts
              (final (integration.FindCrimeArticles lib codec env s city st)))
    as (_ & _ & _ & _ & _ & _ & Hrl & _).
  pose proof (rangeArticles_last lib json env s city arts noCounts
                (final (integration.FindCrimeArticles lib codec env s city st)))
    as Hlast.
  destruct (result (integration.rangeArticles _ _ _ _ _ _ _ _)) as [c|err];
    cbn [result final events fst snd]; [done|].
  intros [= <-]. destruct (Hlast err eq_refl) as (before & cause & Hev & ->).
  exists (events (integration.FindCrimeArticles lib codec env s city st) ++ before),
         cause.
  split; [by rewrite Hev, app_assoc|]. split; [done|].
  unfold cityReports in *. by rewrite omap_app, Hr, Hrl.
Qed.

(** X18. When the filter rejects every article fetched, the pass does
    nothing after the fetch but log its report (all skipped): no ledger
    command, no wait, no request, and the ledger is as before. *)
Theorem X18_irrelevant_articles_touch_nothing
    (s : integration.Service) (city : config.CityConfig) (st : State)
    (arts : list integration.Article) :
  let found := integration.FindCrimeArticles lib codec env s city st in
  result found = Ok arts →
  Forall (λ a, integration.isCrimeRelated lib s a = false) arts →
  integration.ProcessCity lib json codec env s city st
  = (None, final found,
     events found
     ++ [cityReportEntry city
           {| integration.posted := 0;
              integration.skipped := Z.of_nat (length arts);
              integration.errors := 0 |}])
  ∧ redis (final found) = redis st.
Proof.
  cbv zeta. intros Hfound Hall. rewrite ProcessCity_run. cbv zeta.
  rewrite Hfound, rangeArticles_irrelevant by done. cbn.
  split; [done|].
  by destruct (FindCrimeArticles_run lib codec env s city st) as (-> & _).
Qed.

(** X19. Every creation request of a pass is for an article the fetch
    returned and the filter accepted: its body is that article's title and
    content with the tenant's group and the configured group type and
    content type, and its URL is the endpoint of the configured content
    type. *)
Theorem X19_only_relevant_articles_are_sent
    (s : integration.Service) (city : config.CityConfig) (st : State)
    (arts : list integration.Article) (q : http.Request) :
  let r := integration.ProcessCity lib json codec env s city st in
  result (integration.FindCrimeArticles lib codec env s city st) = Ok arts →
  In q (creationRequests (events r)) →
  ∃ a payload,
    In a arts ∧ integration.isCrimeRelated lib s a = true
    ∧ drupal.Marshal json
        {| drupal.Data_Type :=
             config.ContentType (config.Service (integration.config s));
           drupal.Attributes_Title := integration.Title a;
           drupal.Attributes_Body := integration.Content a;
           drupal.FieldGroup_Type :=
             config.GroupType (config.Service (integration.config s));
           drupal.FieldGroup_ID := config.GroupID city |} = Ok payload
    ∧ http.Body q = Some payload
    ∧ http.URL q
      = drupal.endpointURL (drupal.baseURL (integration.drupal s))
          (config.ContentType (config.Service (integration.config s))).
Proof.
  cbv zeta. intros Hfound. rewrite ProcessCity_run. cbv zeta. rewrite Hfound.
  destruct (FindCrimeArticles_run lib codec env s city st)
    as (_ & _ & _ & _ & _ & Hh & _).
  destruct (rangeArticles_deliveries lib json env s city arts noCounts
              (final (integration.FindCrimeArticles lib codec env s city st)))
    as [_ Hq].
  assert (∀ tail, creationRequests tail = [] →
            creationRequests
              (events (integration.FindCrimeArticles lib codec env s city st)
               ++ events (integration.rangeArticles lib json env s city arts
                            noCounts
                            (final (integration.FindCrimeArticles lib codec env
                                      s city st)))
               ++ tail)
            = creationRequests
                (events (integration.rangeArticles lib json env s city arts
                           noCounts
                           (final (integration.FindCrimeArticles lib codec env
                                     s city st))))) as Hsame.
  { intros tail Ht. proj_unfold. proj_unfold.
    rewrite !omap_app, !List.filter_app, Hh, Ht. cbn. by rewrite app_nil_r. }
  destruct (result (integration.rangeArticles _ _ _ _ _ _ _ _)) as [c|err];
    cbn [result final events fst snd].
  - rewrite (Hsame [cityReportEntry city c]) by done.
    intros (a & payload & Hin & Hrel & Hm & Hb & Hu)%Hq.
    exists a, payload. repeat split; try done.
    revert Hm. unfold drupal.toDrupalArticle, requestFor. cbn.
    by destruct (nonEmpty (integration.Content a)) eqn:E;
      [|unfold nonEmpty in E; apply negb_false_iff, String.eqb_eq in E; rewrite E].
  - rewrite <- (app_nil_r (events (integration.rangeArticles _ _ _ _ _ _ _ _))).
    rewrite (Hsame []) by done.
    intros (a & payload & Hin & Hrel & Hm & Hb & Hu)%Hq.
    exists a, payload. repeat split; try done.
    revert Hm. unfold drupal.toDrupalArticle, requestFor. cbn.
    by destruct (nonEmpty (integration.Content a)) eqn:E;
      [|unfold nonEmpty in E; apply negb_false_iff, String.eqb_eq in E; rewrite E].
Qed.

End TenantPass.

(** ** The source and the filter *)

Section SourceMore.
Variable lib : Lib.
Variable codec : integration.Codec.
Variable env : Env.

(** X20. The articles [FindCrimeArticles] returns are the hits of the
    answer, in order, each with its source's title and content; the
    identifier is the source's, or the hit's when the source has none, so it
    is non-empty whenever the hits' identifiers are. *)
Theorem X20_articles_follow_hits
    (s : integration.Service) (city : config.CityConfig) (st : State)
    (arts : list integration.Article) :
  result (integration.FindCrimeArticles lib codec env s city st) = Ok arts →
  ∃ res found,
    es_search env (tick st) (integration.indexFor city) (filteredQuery lib s st)
    = Ok res
    ∧ esapi.IsError res = false
    ∧ integration.decodeWith (integration.DecodeResult codec) (esapi.Body res)
      = Ok found
    ∧ map integration.ID arts = map hitID (integration.Hits found)
    ∧ map integration.Title arts
      = map (λ hit, integration.Title (integration.hit_Source hit))
          (integration.Hits found)
    ∧ map integration.Content arts
      = map (λ hit, integration.Content (integration.hit_Source hit))
          (integration.Hits found)
    ∧ (Forall (λ hit, integration.hit_ID hit ≠ "") (integration.Hits found) →
       Forall (λ a, integration.ID a ≠ "") arts).
Proof.
  destruct (FindCrimeArticles_answer lib codec env s city st) as [-> _].
  unfold searchAnswer.
  destruct (es_search env _ _ _) as [res|]; [|done].
  destruct (esapi.IsError res) eqn:Herr.
  { by destruct (integration.decodeWith _ _). }
  destruct (integration.decodeWith (integration.DecodeResult codec) _)
    as [found|] eqn:Hdec; [|done].
  intros [= <-]. exists res, found. repeat split; try done.
  - rewrite map_map. apply map_ext. intros hit. unfold hitID.
    by destruct (String.eqb _ _).
  - rewrite map_map. apply map_ext. intros hit. by destruct (String.eqb _ _).
  - rewrite map_map. apply map_ext. intros hit. by destruct (String.eqb _ _).
  - intros Hall. apply Forall_map. eapply Forall_impl; [exact Hall|].
    intros hit Hid. cbn.
    destruct (String.eqb_spec (integration.ID (integration.hit_Source hit)) "");
      done.
Qed.

Lemma FindCrimeArticles_reads (s : integration.Service)
    (city : config.CityConfig) (st : State) :
  forallb isLogOrSearch
    (events (integration.FindCrimeArticles lib codec env s city st)) = true.
Proof.
  unfold integration.FindCrimeArticles, integration.getLastCheckTS,
    integration.decodeWith.
  crunch; done.
Qed.

Lemma reads_no_store_command (evs : list Event) :
  forallb isLogOrSearch evs = true →
  storeCommands evs = [] ∧ waitErrors evs = [] ∧ waitGrants evs = []
  ∧ failedChecks evs = [].
Proof.
  induction evs as [|e evs IH]; [done|].
  cbn [forallb]. intros [He Hrest]%andb_true_iff.
  destruct (IH Hrest) as (Hs & Hw & Hg & Hf).
  unfold storeCommands, waitErrors, waitGrants, failedChecks in *.
  destruct e; try discriminate He; cbn; by rewrite ?Hs, ?Hw, ?Hg, ?Hf.
Qed.

(** X21. [FindCrimeArticles] only reads: every event of its trace is a log
    entry or a search, so it sends no command of any kind to the store
    (no ping, existence check, set or delete), waits for no rate-limiter
    grant, sends nothing to the destination and does not write the
    watermark; it leaves the ledger and the watermark as they are, and
    queries the tenant's index once, plus at most one probe of the same
    index. *)
Theorem X21_fetch_only_reads_the_index
    (s : integration.Service) (city : config.CityConfig) (st : State) :
  let r := integration.FindCrimeArticles lib codec env s city st in
  redis (final r) = redis st
  ∧ lastCheckTS (final r) = lastCheckTS st
  ∧ httpRequests (events r) = []
  ∧ storeSets (events r) = []
  ∧ watermarkWrites (events r) = []
  ∧ map fst (mainSearches (events r)) = [integration.indexFor city]
  ∧ (probeSearches (events r) = []
     ∨ probeSearches (events r) = [integration.indexFor city])
  ∧ (tick (final r) <= tick st + 2)%nat
  ∧ forallb isLogOrSearch (events r) = true
  ∧ storeCommands (events r) = []
  ∧ waitErrors (events r) = []
  ∧ waitGrants (events r) = [].
Proof.
  cbv zeta.
  destruct (FindCrimeArticles_run lib codec env s city st)
    as (Hredis & Hts & _ & Hm & _ & Hh & Hw & Hs & _).
  destruct (FindCrimeArticles_answer lib codec env s city st) as [_ Hp].
  pose proof (FindCrimeArticles_reads s city st) as Hreads.
  destruct (reads_no_store_command _ Hreads) as (Hstore & Hwait & Hgrant & _).
  rewrite Hm. repeat split; try done.
  - destruct Hp as [Hp|(Hp & _)]; [by left | by right].
  - unfold integration.FindCrimeArticles, integration.getLastCheckTS,
      integration.decodeWith.
    crunch; lia.
Qed.

End SourceMore.

Lemma asciiToLower_app (a b : string) :
  asciiToLower (a +:+ b) = asciiToLower a +:+ asciiToLower b.
Proof.
  induction a as [|c a IH]; [reflexivity|].
  change (String (lowerByte c) (asciiToLower (a +:+ b))
          = String (lowerByte c) (asciiToLower a +:+ asciiToLower b)).
  by rewrite IH.
Qed.

Section FilterMore.
Variable lib : Lib.

Lemma anyKeyword_map (content : string) (keywords : list string) :
  integration.anyKeyword lib content keywords
  = existsb (Contains content) (map (ToLower lib) keywords).
Proof.
  induction keywords as [|k rest IH]; cbn; [done|].
  rewrite IH. by destruct (Contains content (ToLower lib k)).
Qed.

(** X22. An empty keyword in the configuration makes the filter accept
    every article. *)
Theorem X22_empty_keyword_matches_everything
    (s : integration.Service) (article : integration.Article) :
  ToLower lib "" = "" →
  In "" (config.CrimeKeywords (config.Service (integration.config s))) →
  integration.isCrimeRelated lib s article = true.
Proof.
  intros Hlow Hin. unfold integration.isCrimeRelated.
  apply anyKeyword_occurs. exists "". split; [done|].
  rewrite Hlow. by eexists "", _.
Qed.

(** X23. The filter is monotone in the keywords: an article accepted under
    a keyword list is accepted under every list that contains it. *)
Theorem X23_more_keywords_keep_matches
    (s s' : integration.Service) (article : integration.Article) :
  (∀ k, In k (config.CrimeKeywords (config.Service (integration.config s))) →
        In k (config.CrimeKeywords (config.Service (integration.config s')))) →
  integration.isCrimeRelated lib s article = true →
  integration.isCrimeRelated lib s' article = true.
Proof.
  intros Hsub. unfold integration.isCrimeRelated. rewrite !anyKeyword_occurs.
  intros (k & Hin & Hocc). exists k. split; [by apply Hsub | done].
Qed.

Lemma isASCII_app (a b : string) :
  isASCII (a +:+ b) = isASCII a && isASCII b.
Proof.
  unfold isASCII. induction a as [|c a IH]; [reflexivity|].
  change (((N_of_ascii c <? 128)%N
           && forallb (λ c, (N_of_ascii c <? 128)%N)
                (list_ascii_of_string (a +:+ b)))
          = ((N_of_ascii c <? 128)%N
             && forallb (λ c, (N_of_ascii c <? 128)%N) (list_ascii_of_string a))
            && forallb (λ c, (N_of_ascii c <? 128)%N) (list_ascii_of_string b)).
  by rewrite IH, andb_assoc.
Qed.

(** X24. [strings.ToLower] lower-cases text made of ASCII bytes byte by
    byte. For such text the filter does not see letter case: ASCII articles
    and ASCII keyword lists that differ only in the case of their letters
    get the same verdict. *)
Theorem X24_filter_ignores_ascii_case
    (s s' : integration.Service) (a a' : integration.Article) :
  let keywords := config.CrimeKeywords (config.Service (integration.config s)) in
  let keywords' := config.CrimeKeywords (config.Service (integration.config s')) in
  (∀ x, isASCII x = true → ToLower lib x = asciiToLower x) →
  isASCII (integration.Title a) = true →
  isASCII (integration.Content a) = true →
  isASCII (integration.Title a') = true →
  isASCII (integration.Content a') = true →
  forallb isASCII keywords = true →
  forallb isASCII keywords' = true →
  asciiToLower (integration.Title a) = asciiToLower (integration.Title a') →
  asciiToLower (integration.Content a) = asciiToLower (integration.Content a') →
  map asciiToLower keywords = map asciiToLower keywords' →
  integration.isCrimeRelated lib s a = integration.isCrimeRelated lib s' a'.
Proof.
  intros keywords keywords' Hlow HT HC HT' HC' HK HK' Ht Hc Hk.
  assert (∀ title content,
            isASCII title = true → isASCII content = true →
            ToLower lib (title +:+ " " +:+ content)
            = asciiToLower title +:+ " " +:+ asciiToLower content) as Htext.
  { intros title content H1 H2.
    rewrite Hlow by (by rewrite !isASCII_app, H1, H2).
    by rewrite !asciiToLower_app. }
  assert (∀ kws, forallb isASCII kws = true →
                 map (ToLower lib) kws = map asciiToLower kws) as Hkws.
  { induction kws as [|k kws IH]; [done|].
    cbn [forallb map]. intros [H1 H2]%andb_true_iff.
    by rewrite Hlow, IH. }
  unfold integration.isCrimeRelated. fold keywords keywords'.
  rewrite !anyKeyword_map, !Htext, !Hkws by done.
  by rewrite Ht, Hc, Hk.
Qed.

End FilterMore.

(** ** The cycle and the start of the service *)

Section CycleMore.
Variable lib : Lib.
Variable json : drupal.JSON.
Variable codec : integration.Codec.
Variable env : Env.

Local Arguments integration.runOnce : simpl never.
Local Arguments integration.selectLoop : simpl never.

Lemma runOnce_keeps (s : integration.Service) (st : State) :
  keepsKeys st (final (integration.runOnce lib json codec env s st)).
Proof.
  destruct (rangeCities_run lib json codec env s
              (config.Cities (integration.config s)) st)
    as (_ & _ & Hkeys & _).
  unfold integration.runOnce. rewrite !bind_run. cbn. exact Hkeys.
Qed.

Lemma selectLoop_O (s : integration.Service) (ctxErr : error) (st : State) :
  integration.selectLoop lib json codec env s ctxErr 0 st = (ctxErr, st, []).
Proof. reflexivity. Qed.

(** The loop runs one cycle per tick and returns the context's error,
    whatever the cycles met. *)
Lemma selectLoop_count (s : integration.Service) (ctxErr : error) (ticks : nat)
    (st : State) :
  let r := integration.selectLoop lib json codec env s ctxErr ticks st in
  result r = ctxErr ∧ length (watermarkWrites (events r)) = ticks.
Proof.
  revert st. induction ticks as [|ticks IH]; intros st;
    [by rewrite selectLoop_O|].
  cbv zeta. rewrite selectLoop_S.
  destruct (cycle_then lib json codec env s "Run error"
              (integration.selectLoop lib json codec env s ctxErr ticks) st)
    as (n & _ & _ & Hres & _ & Hw & _).
  cbv zeta in Hres, Hw. rewrite Hres, Hw. cbn [length].
  destruct (IH (final (integration.runOnce lib json codec env s st)))
    as [Hr Hlen].
  by rewrite Hr, Hlen.
Qed.

Lemma NewService_config (cfg : config.Config) (st : State)
    (s : integration.Service) :
  result (integration.NewService codec env cfg st) = Ok s →
  integration.config s = cfg.
Proof.
  unfold integration.NewService, drupal.legacy.NewClient. crunch.
  all: intros [= <-]; reflexivity.
Qed.

(** X25. A service that [NewService] built from a configuration [Load]
    returned never panics in [Run]: validation has made the check interval
    positive, so the ticker can be built. Such a run never returns an error
    of a cycle or of a tenant: after the first cycle and one cycle per tick
    it returns [ctx.Err()], and no cycle removes a key from the ledger. *)
Theorem X25_loaded_service_runs_until_cancelled
    (readFile : string → res string)
    (yamlUnmarshal : string → res config.Config) (getenv : string → string)
    (path : string) (cfg : config.Config) (boot : State)
    (s : integration.Service) (ctxErr : error) (ticks : nat) (st : State) :
  config.Load lib readFile yamlUnmarshal getenv path = Ok cfg →
  result (integration.NewService codec env cfg boot) = Ok s →
  let r := integration.Run lib json codec env s ctxErr ticks st in
  0 < config.CheckInterval (config.Service (integration.config s))
  ∧ result r = integration.Returned ctxErr
  ∧ length (watermarkWrites (events r)) = S ticks
  ∧ keepsKeys st (final r).
Proof.
  intros (data & raw & _ & _ & _ & Hvalid)%Load_Ok Hboot r. subst r.
  apply NewService_config in Hboot. rewrite Hboot.
  apply Validate_None_inv in Hvalid as ((_ & _ & _ & _ & _ & Hpos & _) & _).
  split; [done|].
  destruct (Run_run lib json codec env s ctxErr ticks st) as
    (n & _ & _ & Hres & Hfin & Hw & _); [by rewrite Hboot|].
  cbv zeta in Hres, Hfin, Hw. rewrite Hres, Hfin, Hw.
  destruct (selectLoop_count s ctxErr ticks
              (final (integration.runOnce lib json codec env s st)))
    as [Hr Hlen].
  rewrite Hr. cbn [length]. rewrite Hlen. repeat split; try done.
  eapply keepsKeys_trans; [apply runOnce_keeps|].
  apply selectLoop_keeps.
Qed.

End CycleMore.

Lemma wrap64_small (z : Z) :
  - 9223372036854775808 <= z < 9223372036854775808 → wrap64 z = z.
Proof.
  intros Hz. unfold wrap64.
  change (2 ^ 63) with 9223372036854775808.
  change (2 ^ 64) with 18446744073709551616.
  rewrite Z.mod_small by lia. lia.
Qed.

Section Boot.
Variable codec : integration.Codec.
Variable env : Env.

(** X26. [NewService] succeeds exactly when the search client can be built,
    the destination's URL and token are present and the store answers the
    ping. A failed start writes nothing. A started service holds the
    configuration and the destination's values, a tracker with the default
    time-to-live, and a watermark set back from the clock by the configured
    lookback. *)
Theorem X26_NewService_boot (cfg : config.Config) (st : State) :
  let r := integration.NewService codec env cfg st in
  let lookback := config.LookbackHours (config.Service cfg) in
  (is_err (result r) = false
   ↔ integration.NewClientErr codec (config.Elasticsearch cfg) = None
     ∧ config.URL (config.Drupal cfg) ≠ ""
     ∧ config.Token (config.Drupal cfg) ≠ ""
     ∧ redis_fault env (tick st) = None)
  ∧ (is_err (result r) = true →
     watermarkWrites (events r) = [] ∧ lastCheckTS (final r) = lastCheckTS st
     ∧ redis (final r) = redis st)
  ∧ (∀ s, result r = Ok s →
          integration.config s = cfg
          ∧ integration.dedup s = dedup.NewTracker
          ∧ drupal.baseURL (integration.drupal s) = config.URL (config.Drupal cfg)
          ∧ drupal.token (integration.drupal s) = config.Token (config.Drupal cfg)
          ∧ redis (final r) = redis st
          ∧ (0 <= lookback <= 2562047 →
             lastCheckTS (final r) = clock env (S (tick st)) - lookback * Hour)).
Proof.
  cbv zeta. unfold integration.NewService, drupal.legacy.NewClient.
  destruct (integration.NewClientErr codec _) as [e|].
  { cbn. repeat split; try done. intros (? & _); done. }
  destruct (String.eqb_spec (config.URL (config.Drupal cfg)) "") as [Hu|Hu].
  { cbn. repeat split; try done. intros (_ & ? & _); done. }
  destruct (String.eqb_spec (config.Token (config.Drupal cfg)) "") as [Ht|Ht].
  { cbn. repeat split; try done. intros (_ & _ & ? & _); done. }
  destruct (redis_fault env (tick st)) as [e|] eqn:Hping.
  { destruct (config.SkipTLSVerify (config.Drupal cfg));
      unfold_ops; cbn; rewrite Hping; cbn; repeat split; try done;
      intros (_ & _ & _ & ?); done. }
  destruct (config.SkipTLSVerify (config.Drupal cfg));
    unfold_ops; cbn; rewrite Hping; cbn.
  all: split; [done|]; split; [done|]; intros s [= <-]; cbn.
  all: repeat split; try done.
  all: intros Hl;
    rewrite (wrap64_small (config.LookbackHours (config.Service cfg) * Hour))
      by (unfold Hour, Minute, Second, Nanosecond; lia);
    rewrite wrap64_small by (unfold Hour, Minute, Second, Nanosecond; lia);
    lia.
Qed.

End Boot.

(** ** Worked cases *)

(** X1 in the scenario's world: A is marked, then checked. *)
Lemma X1_witness :
  redis (final (dedup.MarkPosted env dedup.NewTracker "A" st0))
    !! "posted:article:A"
  = Some ("1", 365 * 24 * Hour)
  ∧ result (dedup.HasPosted env dedup.NewTracker "A"
              (final (dedup.MarkPosted env dedup.NewTracker "A" st0))) = true.
Proof.
  apply (X1_mark_then_seen env dedup.NewTracker "A" st0
           (final (dedup.MarkPosted env dedup.NewTracker "A" st0))).
  - reflexivity.
  - intros k Hk. exact Hk.
  - reflexivity.
Defined.

(** X2: A is marked, cleared, then checked. *)
Lemma X2_witness :
  result (dedup.HasPosted env dedup.NewTracker "A"
            (final (dedup.Clear env dedup.NewTracker "A"
                      (final (dedup.MarkPosted env dedup.NewTracker "A" st0)))))
  = false.
Proof.
  refine (proj2 (X2_clear_then_unseen env dedup.NewTracker "A"
                   (final (dedup.MarkPosted env dedup.NewTracker "A" st0)) _)).
  reflexivity.
Defined.

(** X3: marking or clearing B after the first run leaves A's record. *)
Lemma X3_witness :
  redis (final (dedup.MarkPosted env dedup.NewTracker "B" (final firstRun)))
    !! dedup.key "A"
  = redis (final firstRun) !! dedup.key "A"
  ∧ redis (final (dedup.Clear env dedup.NewTracker "B" (final firstRun)))
      !! dedup.key "A"
    = redis (final firstRun) !! dedup.key "A".
Proof.
  apply (X3_other_identifiers_untouched env dedup.NewTracker "B" "A"
           (final firstRun)).
  discriminate.
Defined.

(** X5: of three tenants the second has no group. *)
Lemma X5_witness :
  config.Validate cases.secondGroupless
  = Some (Errorf "cities[%d].group_id is required" [AInt 1]).
Proof.
  apply (X5_Validate_names_first_bad_city cases.secondGroupless 1 cases.groupless).
  - repeat split; try discriminate; reflexivity.
  - reflexivity.
  - repeat constructor; discriminate.
  - intros [_ H]. apply H. reflexivity.
Defined.

(** X7 at the scenario's configuration file. *)
Lemma X7_witness :
  config.Validate shortTTL = None
  ∧ 0 < config.CheckInterval (config.Service shortTTL)
  ∧ 0 < config.RateLimitRPS (config.Service shortTTL)
  ∧ 0 < config.DedupTTL (config.Service shortTTL)
  ∧ config.CrimeKeywords (config.Service shortTTL) ≠ []
  ∧ config.ContentType (config.Service shortTTL) ≠ ""
  ∧ config.GroupType (config.Service shortTTL) ≠ ""
  ∧ config.Cities shortTTL ≠ [].
Proof.
  apply (X7_Load_result_is_valid_and_complete lib readFile yamlUnmarshal getenv
           "config.yml" shortTTL).
  reflexivity.
Defined.

(** X8 with DRUPAL_URL set in the environment: the destination's URL is
    the environment's, its token the file's. *)
Lemma X8_witness :
  config.URL (config.Drupal cases.loaded) = "https://env.example"
  ∧ config.Token (config.Drupal cases.loaded) = "secret".
Proof.
  destruct (X8_Load_environment_overrides_file lib readFile yamlUnmarshal
              cases.getenv "config.yml" cases.loaded eq_refl)
    as (data & raw & _ & Hraw & _ & Hurl & _ & Htoken & _).
  injection Hraw as <-. exact (conj Hurl Htoken).
Defined.

(** X9 without a token. *)
Lemma X9_witness :
  is_err (result (drupal.NewClient "https://cms.example" "bot" "" "" false st0))
  = true.
Proof.
  apply (proj1 (X9_NewClient_fails_iff_missing "https://cms.example" "bot" "" ""
                  false st0)).
  right. reflexivity.
Defined.

(** X10 in the scenario's world. *)
Lemma X10_witness :
  ∃ resp body,
    events (drupal.getCSRFToken lib env client st0)
    = [EvHTTP (tokenRequest lib client) (Ok resp)]
    ∧ http.StatusCode resp = 200
    ∧ http.RespBody resp = Ok body
    ∧ "token-1" = TrimSpace lib body.
Proof.
  apply (X10_getCSRFToken_success lib env client st0 "token-1").
  reflexivity.
Defined.

(** X12 for the token request of the scenario's delivery. *)
Lemma X12_witness :
  http.Get (http.Header (tokenRequest lib client)) "API-KEY"
  = Some "b64(bot:secret)"
  ∧ http.Get (http.Header (tokenRequest lib client)) "Authorization"
    = Some "Basic b64(bot:secret)"
  ∧ http.Get (http.Header (tokenRequest lib client)) "AUTH-METHOD" = None.
Proof.
  apply (X12_every_request_carries_credentials lib json env client
           articleRequest st0 (tokenRequest lib client)).
  left. reflexivity.
Defined.

(** X13 for the scenario's delivery. *)
Lemma X13_witness :
  ∃ q answer document payload,
    creationRequests (events (drupal.PostArticle lib json env client articleRequest st0))
    = [q]
    ∧ In (EvHTTP q (Ok answer))
         (events (drupal.PostArticle lib json env client articleRequest st0))
    ∧ http.StatusCode answer < 400
    ∧ drupal.decodeBody json (http.RespBody answer) = Ok document
    ∧ drupal.Marshal json (drupal.toDrupalArticle articleRequest) = Ok payload
    ∧ http.Body q = Some payload.
Proof.
  apply (X13_PostArticle_nil_only_if_created lib json env client articleRequest st0).
  reflexivity.
Defined.

(** X14 for the scenario's delivery. *)
Lemma X14_witness :
  ∃ q resp,
    creationRequests (events (drupal.PostArticle lib json env client articleRequest st0))
    = [q]
    ∧ In (EvHTTP q resp)
         (events (drupal.PostArticle lib json env client articleRequest st0))
    ∧ http.Get (http.Header q) "X-CSRF-Token" = Some "token-1"
    ∧ http.Get (http.Header q) "Content-Type" = Some "application/vnd.api+json"
    ∧ result (drupal.PostArticle lib json env client articleRequest st0)
      = drupal.outcome json resp.
Proof.
  apply (X14_token_is_attached_when_fetched lib json env client articleRequest
           st0 "Police arrest suspect downtown" "token-1");
    reflexivity.
Defined.

(** X16 for the scenario's first run: A is posted, B skipped. *)
Lemma X16_witness :
  ∃ arts c,
    result (integration.FindCrimeArticles lib codec env service sudbury st0)
    = Ok arts
    ∧ cityReports (events firstRun) = [c]
    ∧ integration.posted c = Z.of_nat (length (deliveredIDs (events firstRun)))
    ∧ integration.posted c + integration.errors c
      = Z.of_nat (length (deliveryAttempts (events firstRun)))
    ∧ integration.posted c + integration.skipped c + integration.errors c
      = Z.of_nat (length arts).
Proof.
  apply (proj2 (X16_report_matches_trace lib json codec env service sudbury st0)).
  reflexivity.
Defined.

(** X17 with the context cancelled: the pass stops at its first wait. *)
Lemma X17_witness :
  ∃ before cause,
    events (integration.ProcessCity lib json codec cases.envCancelled service
              sudbury st0)
    = before ++ [EvWait (Some cause)]
    ∧ Wrapf "rate limit wait: %w" [] (ExtErr "context canceled")
      = Wrapf "rate limit wait: %w" [] cause
    ∧ cityReports
        (events (integration.ProcessCity lib json codec cases.envCancelled
                   service sudbury st0)) = [].
Proof.
  apply (X17_wait_error_ends_the_pass lib json codec cases.envCancelled service
           sudbury st0 [A; B]);
    reflexivity.
Defined.

(** X18 with a keyword that neither A nor B has. *)
Lemma X18_witness :
  cityReports
    (events (integration.ProcessCity lib json codec env cases.zebra sudbury st0))
  = [{| integration.posted := 0; integration.skipped := 2;
        integration.errors := 0 |}]
  ∧ httpRequests
      (events (integration.ProcessCity lib json codec env cases.zebra sudbury st0))
    = [].
Proof.
  destruct (X18_irrelevant_articles_touch_nothing lib json codec env cases.zebra
              sudbury st0 [A; B] eq_refl) as [-> _].
  - repeat constructor.
  - split; reflexivity.
Defined.

(** X19 for the creation request of the scenario's first run. *)
Lemma X19_witness :
  ∃ a payload,
    In a [A; B] ∧ integration.isCrimeRelated lib service a = true
    ∧ drupal.Marshal json
        {| drupal.Data_Type := "node--article";
           drupal.Attributes_Title := integration.Title a;
           drupal.Attributes_Body := integration.Content a;
           drupal.FieldGroup_Type := "group--crime_news";
           drupal.FieldGroup_ID := "group-uuid-sudbury" |} = Ok payload
    ∧ http.Body cases.creation = Some payload
    ∧ http.URL cases.creation = "https://cms.example/jsonapi/node/article".
Proof.
  apply (X19_only_relevant_articles_are_sent lib json codec env service sudbury
           st0 [A; B] cases.creation).
  - reflexivity.
  - left. reflexivity.
Defined.

(** X20 for the scenario's fetch. *)
Lemma X20_witness :
  ∃ res found,
    es_search env 0 "sudbury_articles" (filteredQuery lib service st0) = Ok res
    ∧ esapi.IsError res = false
    ∧ integration.decodeWith (integration.DecodeResult codec) (esapi.Body res)
      = Ok found
    ∧ ["A"; "B"] = map hitID (integration.Hits found).
Proof.
  destruct (X20_articles_follow_hits lib codec env service sudbury st0 [A; B]
              eq_refl)
    as (res & found & H1 & H2 & H3 & H4 & _).
  exists res, found. exact (conj H1 (conj H2 (conj H3 H4))).
Defined.

(** X22 with the empty keyword beside one that A does not have. *)
Lemma X22_witness :
  integration.isCrimeRelated lib cases.emptyKeyword B = true.
Proof.
  apply (X22_empty_keyword_matches_everything lib cases.emptyKeyword B).
  - reflexivity.
  - right. left. reflexivity.
Defined.

(** X23: from the keyword "police" to the scenario's two. *)
Lemma X23_witness :
  integration.isCrimeRelated lib service A = true.
Proof.
  apply (X23_more_keywords_keep_matches lib cases.policeOnly service A).
  - intros k [<-|[]]. right. left. reflexivity.
  - reflexivity.
Defined.

(** X24: the title in capitals, the keywords in mixed case. *)
Lemma X24_witness :
  integration.isCrimeRelated lib service A
  = integration.isCrimeRelated lib cases.upperCase cases.shouted.
Proof.
  apply (X24_filter_ignores_ascii_case lib service cases.upperCase A cases.shouted);
    [intros x _; reflexivity | reflexivity ..].
Defined.

(** X25 for the scenario's configuration file, over two ticks. *)
Lemma X25_witness :
  result (integration.Run lib json codec env cases.started integration.Canceled
            2 st0)
  = integration.Returned integration.Canceled
  ∧ length (watermarkWrites
              (events (integration.Run lib json codec env cases.started
                         integration.Canceled 2 st0)))
    = 3%nat.
Proof.
  destruct (X25_loaded_service_runs_until_cancelled lib json codec env
              readFile yamlUnmarshal getenv "config.yml" shortTTL st0
              cases.started integration.Canceled 2 st0 eq_refl eq_refl)
    as (_ & Hres & Hlen & _).
  split; [exact Hres | exact Hlen].
Defined.

(** X26 for the scenario's configuration: the service starts, with the
    watermark 24 hours before the clock. *)
Lemma X26_witness :
  is_err (result (integration.NewService codec env cfg st0)) = false
  ∧ lastCheckTS (final (integration.NewService codec env cfg st0))
    = clock env 1 - 24 * Hour.
Proof.
  destruct (X26_NewService_boot codec env cfg st0) as (Hok & _ & Hs).
  split.
  - apply Hok. repeat split; try discriminate; reflexivity.
  - refine (proj2 (proj2 (proj2 (proj2 (proj2 (Hs _ eq_refl))))) _).
    cbn. lia.
Defined.
